(** * Sniffle packet decoder: a shallow embedding of
      [python_cli/sniffle/packet_decoder.py] and the properties of its
      dispatcher, field decoders and correlation state machine. *)

From Stdlib Require Import ZArith List Bool Lia.
From Stdlib Require Import Strings.Byte.
From Stdlib Require Import Floats.PrimFloat.
From Stdlib Require Floats.FloatOps Floats.SpecFloat Floats.FloatAxioms.
From Stdlib Require Import Numbers.Cyclic.Int63.Uint63.
From Stdlib Require Strings.Ascii Strings.String.
From Stdlib Require Numbers.DecimalString Numbers.HexadecimalString.
Import ListNotations.

Open Scope Z_scope.

#[local] Set Warnings "-inexact-float".

(** ** Python values used by the decoder *)

(** A [bytes] object: indexing yields an [int] in 0..255, slicing yields
    [bytes]. *)
Definition bytes := list byte.

Definition int_of_byte (b : byte) : Z := Z.of_N (Byte.to_N b).

(** The exception classes the decoder can meet. *)
Inductive exn :=
| IndexError
| ValueError
| StructError
| AttributeError
| TypeError.

Inductive result (A : Type) :=
| Ok (a : A)
| Raise (e : exn).
Arguments Ok {A} a.
Arguments Raise {A} e.

Definition rbind {A B} (r : result A) (k : A -> result B) : result B :=
  match r with
  | Ok a => k a
  | Raise e => Raise e
  end.

Declare Scope py_scope.
Delimit Scope py_scope with py.
Notation "x <- r ;; k" := (rbind r (fun x => k))
  (at level 61, r at next level, right associativity) : py_scope.
Notation "' pat <- r ;; k" :=
  (rbind r (fun x => match x with pat => k end))
  (at level 61, pat pattern, r at next level, right associativity) : py_scope.
Open Scope py_scope.

Definition len (s : bytes) : Z := Z.of_nat (length s).

(** [s[i]]: a negative index counts from the end, anything outside the
    buffer raises [IndexError]. *)
Definition getitem (s : bytes) (i : Z) : result Z :=
  let j := if i <? 0 then i + len s else i in
  if (0 <=? j) && (j <? len s) then
    match nth_error s (Z.to_nat j) with
    | Some b => Ok (int_of_byte b)
    | None => Raise IndexError
    end
  else Raise IndexError.

(** Python's clamping of a slice bound to the buffer. *)
Definition slice_bound (n i : Z) : Z :=
  if i <? 0 then Z.max (i + n) 0 else Z.min i n.

(** [s[lo:hi]]: never raises, the bounds are clamped. *)
Definition slice (s : bytes) (lo hi : Z) : bytes :=
  let l := slice_bound (len s) lo in
  let h := slice_bound (len s) hi in
  firstn (Z.to_nat (h - l)) (skipn (Z.to_nat l) s).

(** Little-endian unsigned value of a byte string. *)
Fixpoint le_value (s : bytes) : Z :=
  match s with
  | [] => 0
  | b :: r => int_of_byte b + 256 * le_value r
  end.

(** [struct.unpack] of one little-endian unsigned field of [n] bytes: the
    buffer must have exactly the size of the format. *)
Definition unpack_le (n : Z) (s : bytes) : result Z :=
  if len s =? n then Ok (le_value s) else Raise StructError.

(** [struct.unpack("<HHHH", s)]. *)
Definition unpack_HHHH (s : bytes) : result (Z * Z * Z * Z) :=
  if len s =? 8 then
    Ok (le_value (slice s 0 2), le_value (slice s 2 4),
        le_value (slice s 4 6), le_value (slice s 6 8))
  else Raise StructError.

(** [struct.unpack("b", s)]: one signed byte. *)
Definition unpack_b (s : bytes) : result Z :=
  match s with
  | [b] => let v := int_of_byte b in Ok (if v <? 128 then v else v - 256)
  | _ => Raise StructError
  end.

(** Truth value of an [int]. *)
Definition truthy (v : Z) : bool := negb (v =? 0).

(** Truth value of a [float]: false exactly for zero (of either sign). *)
Definition truthy_float (x : float) : bool := negb (PrimFloat.eqb x 0%float).

(** Truth value of an optional float attribute ([None] is false). *)
Definition truthy_opt_float (x : option float) : bool :=
  match x with
  | Some d => truthy_float d
  | None => false
  end.

(** [int] to [float] conversion as done by a mixed [int * float] product
    (all the integers met here are below 2^53, so it is exact). *)
Definition float_of_int (z : Z) : float := PrimFloat.of_uint63 (Uint63.of_Z z).

(** ** Collaborators that are not part of this file *)

(** Modelled from the spec: the constant [BLE_ADV_AA] of [constants.py], the
    reserved advertising access address [0x8E89BED6]. *)
Definition BLE_ADV_AA : Z := 0x8E89BED6.

(** Modelled from the spec: the enumeration [SnifferState] of
    [sniffer_state.py]; the decoder only distinguishes the scanning and the
    extended-advertising modes from the others. *)
Inductive SnifferState :=
| SCANNING
| ADVERTISING_EXT
| OTHER_STATE (code : nat).

Definition SnifferState_eqb (a b : SnifferState) : bool :=
  match a, b with
  | SCANNING, SCANNING => true
  | ADVERTISING_EXT, ADVERTISING_EXT => true
  | OTHER_STATE m, OTHER_STATE n => Nat.eqb m n
  | _, _ => false
  end.

(** Modelled from the spec: [rbit24] of [crc_ble.py], the bit reversal of a
    24-bit CRC-init value (bit [i] of the argument becomes bit [23 - i]). *)
Fixpoint rbit (n : nat) (x acc : Z) : Z :=
  match n with
  | O => acc
  | S m => rbit m (Z.shiftr x 1) (Z.lor (Z.shiftl acc 1) (Z.land x 1))
  end.

Definition rbit24 (x : Z) : Z := rbit 24 x 0.

(** [rbit24] applied to an attribute that may hold [None]: arithmetic on
    [None] raises [TypeError]. *)
Definition rbit24_py (x : option Z) : result Z :=
  match x with
  | Some v => Ok (rbit24 v)
  | None => Raise TypeError
  end.

(** The raw packet record [PacketMessage] of [sniffle_hw.py], with the
    attributes the copy constructor of [DPacketMessage] reads. *)
Module PacketMessage.
Record t := mk {
  ts : float;
  ts_epoch : float;
  aa : Z;
  rssi : Z;
  chan : Z;
  phy : Z;
  body : bytes;
  data_dir : bool;
  event : Z;
  crc_rev : bool
}.
End PacketMessage.

(** ** Sub-structures of the extended advertising header *)

Module AuxPtr.
Record t := mk {
  chan : Z;
  phy : Z;
  offsetUsec : Z
}.

Definition init (ptr : bytes) : result t :=
  c <- getitem ptr 0 ;;
  p <- getitem ptr 2 ;;
  u <- getitem ptr 0 ;;
  let offsetMult := if truthy (Z.land u 0x80) then 300 else 30 in
  lo <- getitem ptr 1 ;;
  hi <- getitem ptr 2 ;;
  let auxOffset := lo + Z.shiftl (Z.land hi 0x1F) 8 in
  Ok {| chan := Z.land c 0x3F;
        phy := Z.shiftr p 5;
        offsetUsec := auxOffset * offsetMult |}.
End AuxPtr.

(** An [AdvDataInfo] instance. The class defines no [__eq__], so two
    instances compare equal only when they are the same object: [obj] is
    the identity of the instance. *)
Module AdvDataInfo.
Record t := mk {
  obj : nat;
  did : Z;
  sid : Z
}.

Definition init (obj : nat) (adi : bytes) : result t :=
  a0 <- getitem adi 0 ;;
  a1 <- getitem adi 1 ;;
  a1' <- getitem adi 1 ;;
  Ok {| obj := obj;
        did := a0 + Z.shiftl (Z.land a1 0x0F) 8;
        sid := Z.shiftr a1' 4 |}.

(** [a == b] on two attributes holding an instance or [None]. *)
Definition py_eq (a b : option t) : bool :=
  match a, b with
  | None, None => true
  | Some x, Some y => Nat.eqb (obj x) (obj y)
  | _, _ => false
  end.
End AdvDataInfo.

(** ** The classes of decoded packets *)

(** The classes are grouped by the [__init__] they run. *)
Inductive DataCls := DataMessage | LlDataMessage | LlDataContMessage.
Inductive AdvaCls :=
  AdvaMessage | AdvIndMessage | AdvNonconnIndMessage | ScanRspMessage
| AdvScanIndMessage.
Inductive ScanReqCls := ScanReqMessage | AuxScanReqMessage.
Inductive ConnectCls := ConnectIndMessage | AuxConnectReqMessage.
Inductive ExtCls :=
  AdvExtIndMessage | AuxAdvIndMessage | AuxScanRspMessage | AuxChainIndMessage
| AuxConnectRspMessage.

Inductive PduClass :=
| DPacketMessage
| AdvertMessage
| LlControlMessage
| AdvDirectIndMessage
| DataC (c : DataCls)
| AdvaC (c : AdvaCls)
| ScanReqC (c : ScanReqCls)
| ConnectC (c : ConnectCls)
| ExtC (c : ExtCls).
Coercion DataC : DataCls >-> PduClass.
Coercion AdvaC : AdvaCls >-> PduClass.
Coercion ScanReqC : ScanReqCls >-> PduClass.
Coercion ConnectC : ConnectCls >-> PduClass.
Coercion ExtC : ExtCls >-> PduClass.

Definition PduClass_eq_dec (a b : PduClass) : {a = b} + {a <> b}.
Proof. repeat decide equality. Defined.

(** The base class named in each [class X(Y)] line ([DPacketMessage]
    derives from the raw record class, which is outside the hierarchy). *)
Definition base (c : PduClass) : option PduClass :=
  match c with
  | DPacketMessage => None
  | AdvertMessage => Some DPacketMessage
  | DataC DataMessage => Some DPacketMessage
  | DataC LlDataMessage => Some (DataC DataMessage)
  | DataC LlDataContMessage => Some (DataC DataMessage)
  | LlControlMessage => Some (DataC DataMessage)
  | AdvaC AdvaMessage => Some AdvertMessage
  | AdvaC AdvIndMessage => Some (AdvaC AdvaMessage)
  | AdvaC AdvNonconnIndMessage => Some (AdvaC AdvaMessage)
  | AdvaC ScanRspMessage => Some (AdvaC AdvaMessage)
  | AdvaC AdvScanIndMessage => Some (AdvaC AdvaMessage)
  | AdvDirectIndMessage => Some AdvertMessage
  | ScanReqC ScanReqMessage => Some AdvertMessage
  | ScanReqC AuxScanReqMessage => Some (ScanReqC ScanReqMessage)
  | ConnectC ConnectIndMessage => Some AdvertMessage
  | ConnectC AuxConnectReqMessage => Some (ConnectC ConnectIndMessage)
  | ExtC AdvExtIndMessage => Some AdvertMessage
  | ExtC AuxAdvIndMessage => Some (ExtC AdvExtIndMessage)
  | ExtC AuxScanRspMessage => Some (ExtC AuxAdvIndMessage)
  | ExtC AuxChainIndMessage => Some (ExtC AuxAdvIndMessage)
  | ExtC AuxConnectRspMessage => Some (ExtC AdvExtIndMessage)
  end.

(** [issubclass c target], following [base] (the hierarchy is 5 deep). *)
Fixpoint issubclass_fuel (fuel : nat) (c target : PduClass) : bool :=
  if PduClass_eq_dec c target then true
  else match fuel, base c with
       | S f, Some b => issubclass_fuel f b target
       | _, _ => false
       end.

Definition issubclass (c target : PduClass) : bool := issubclass_fuel 5 c target.

(** The class attribute [pdutype], inherited along [base] when a class does
    not set it. *)
Inductive PduType :=
| RFU | LL_DATA | LL_DATA_CONT | LL_CONTROL
| ADV_IND | ADV_NONCONN_IND | SCAN_RSP | ADV_SCAN_IND | ADV_DIRECT_IND
| SCAN_REQ | AUX_SCAN_REQ | CONNECT_IND | AUX_CONNECT_REQ
| ADV_EXT_IND | AUX_ADV_IND | AUX_SCAN_RSP | AUX_CHAIN_IND | AUX_CONNECT_RSP.

Definition pdutype (c : PduClass) : PduType :=
  match c with
  | DPacketMessage => RFU
  | AdvertMessage => RFU
  | DataC DataMessage => RFU
  | DataC LlDataMessage => LL_DATA
  | DataC LlDataContMessage => LL_DATA_CONT
  | LlControlMessage => LL_CONTROL
  | AdvaC AdvaMessage => RFU
  | AdvaC AdvIndMessage => ADV_IND
  | AdvaC AdvNonconnIndMessage => ADV_NONCONN_IND
  | AdvaC ScanRspMessage => SCAN_RSP
  | AdvaC AdvScanIndMessage => ADV_SCAN_IND
  | AdvDirectIndMessage => ADV_DIRECT_IND
  | ScanReqC ScanReqMessage => SCAN_REQ
  | ScanReqC AuxScanReqMessage => AUX_SCAN_REQ
  | ConnectC ConnectIndMessage => CONNECT_IND
  | ConnectC AuxConnectReqMessage => AUX_CONNECT_REQ
  | ExtC AdvExtIndMessage => ADV_EXT_IND
  | ExtC AuxAdvIndMessage => AUX_ADV_IND
  | ExtC AuxScanRspMessage => AUX_SCAN_RSP
  | ExtC AuxChainIndMessage => AUX_CHAIN_IND
  | ExtC AuxConnectRspMessage => AUX_CONNECT_RSP
  end.

(** ** Attributes of the decoded packets *)

(** Attributes set by [AdvertMessage.__init__]. *)
Module Advert.
Record t := mk {
  ChSel : Z;
  TxAdd : Z;
  RxAdd : Z;
  ad_length : Z
}.
End Advert.

(** Attributes set by [DataMessage.__init__]. *)
Module Data.
Record t := mk {
  NESN : Z;
  SN : Z;
  MD : Z;
  data_length : Z
}.
End Data.

(** Attributes set by [ConnectIndMessage.__init__]. *)
Module ConnectInd.
Record t := mk {
  InitA : bytes;
  AdvA : bytes;
  aa_conn : Z;
  CRCInit : Z;
  WinSize : Z;
  WinOffset : Z;
  Interval : Z;
  Latency : Z;
  Timeout : Z;
  ChM : bytes;
  Hop : Z;
  SCA : Z
}.
End ConnectInd.

(** Attributes set by [AdvExtIndMessage.__init__]. [None] is Python's
    [None], except for [AdvMode], which is not assigned before the walk:
    there [None] means that the attribute does not exist. *)
Module AdvExt.
Record t := mk {
  AdvA : option bytes;
  TargetA : option bytes;
  CTEInfo : option Z;
  AdvDataInfo : option AdvDataInfo.t;
  AuxPtr : option AuxPtr.t;
  SyncInfo : option bytes;
  TxPower : option Z;
  ACAD : option bytes;
  AdvMode : option Z
}.

Definition empty : t := mk None None None None None None None None None.

Definition set_AdvA v (s : t) : t :=
  mk (Some v) (TargetA s) (CTEInfo s) (AdvDataInfo s) (AuxPtr s) (SyncInfo s)
     (TxPower s) (ACAD s) (AdvMode s).
Definition set_TargetA v (s : t) : t :=
  mk (AdvA s) (Some v) (CTEInfo s) (AdvDataInfo s) (AuxPtr s) (SyncInfo s)
     (TxPower s) (ACAD s) (AdvMode s).
Definition set_CTEInfo v (s : t) : t :=
  mk (AdvA s) (TargetA s) (Some v) (AdvDataInfo s) (AuxPtr s) (SyncInfo s)
     (TxPower s) (ACAD s) (AdvMode s).
Definition set_AdvDataInfo v (s : t) : t :=
  mk (AdvA s) (TargetA s) (CTEInfo s) (Some v) (AuxPtr s) (SyncInfo s)
     (TxPower s) (ACAD s) (AdvMode s).
Definition set_AuxPtr v (s : t) : t :=
  mk (AdvA s) (TargetA s) (CTEInfo s) (AdvDataInfo s) (Some v) (SyncInfo s)
     (TxPower s) (ACAD s) (AdvMode s).
Definition set_SyncInfo v (s : t) : t :=
  mk (AdvA s) (TargetA s) (CTEInfo s) (AdvDataInfo s) (AuxPtr s) (Some v)
     (TxPower s) (ACAD s) (AdvMode s).
Definition set_TxPower v (s : t) : t :=
  mk (AdvA s) (TargetA s) (CTEInfo s) (AdvDataInfo s) (AuxPtr s) (SyncInfo s)
     (Some v) (ACAD s) (AdvMode s).
Definition set_ACAD v (s : t) : t :=
  mk (AdvA s) (TargetA s) (CTEInfo s) (AdvDataInfo s) (AuxPtr s) (SyncInfo s)
     (TxPower s) (Some v) (AdvMode s).
Definition set_AdvMode v (s : t) : t :=
  mk (AdvA s) (TargetA s) (CTEInfo s) (AdvDataInfo s) (AuxPtr s) (SyncInfo s)
     (TxPower s) (ACAD s) (Some v).
End AdvExt.

(** A decoded packet: its class, the attributes copied from the raw record
    and the attributes its [__init__] adds. *)
Inductive DPacket :=
| MkDPacket (c : PacketMessage.t)
| MkData (cls : DataCls) (c : PacketMessage.t) (d : Data.t)
| MkLlControl (c : PacketMessage.t) (d : Data.t) (opcode : Z)
| MkAdvert (c : PacketMessage.t) (a : Advert.t)
| MkAdva (cls : AdvaCls) (c : PacketMessage.t) (a : Advert.t) (AdvA : bytes)
| MkAdvDirectInd (c : PacketMessage.t) (a : Advert.t) (AdvA TargetA : bytes)
| MkScanReq (cls : ScanReqCls) (c : PacketMessage.t) (a : Advert.t)
    (ScanA AdvA : bytes)
| MkConnect (cls : ConnectCls) (c : PacketMessage.t) (a : Advert.t)
    (f : ConnectInd.t)
| MkExt (cls : ExtCls) (c : PacketMessage.t) (a : Advert.t) (f : AdvExt.t).

Definition class_of (p : DPacket) : PduClass :=
  match p with
  | MkDPacket _ => DPacketMessage
  | MkData cls _ _ => cls
  | MkLlControl _ _ _ => LlControlMessage
  | MkAdvert _ _ => AdvertMessage
  | MkAdva cls _ _ _ => cls
  | MkAdvDirectInd _ _ _ _ => AdvDirectIndMessage
  | MkScanReq cls _ _ _ _ => cls
  | MkConnect cls _ _ _ => cls
  | MkExt cls _ _ _ => cls
  end.

Definition isinstance (p : DPacket) (target : PduClass) : bool :=
  issubclass (class_of p) target.

(** The attributes every decoded packet has (set by
    [DPacketMessage.__init__]). *)
Definition common (p : DPacket) : PacketMessage.t :=
  match p with
  | MkDPacket c => c
  | MkData _ c _ => c
  | MkLlControl c _ _ => c
  | MkAdvert c _ => c
  | MkAdva _ c _ _ => c
  | MkAdvDirectInd c _ _ _ => c
  | MkScanReq _ c _ _ _ => c
  | MkConnect _ c _ _ => c
  | MkExt _ c _ _ => c
  end.

(** Attribute reads: an attribute the object does not have raises
    [AttributeError]. *)
Definition attr_connect (p : DPacket) : result ConnectInd.t :=
  match p with
  | MkConnect _ _ _ f => Ok f
  | _ => Raise AttributeError
  end.

Definition attr_ext (p : DPacket) : result AdvExt.t :=
  match p with
  | MkExt _ _ _ f => Ok f
  | _ => Raise AttributeError
  end.

Definition attr_AdvMode (p : DPacket) : result Z :=
  f <- attr_ext p ;;
  match AdvExt.AdvMode f with
  | Some m => Ok m
  | None => Raise AttributeError
  end.

(** ** Code that assigns attributes and may raise *)

(** A computation on a mutable object of type [S]: it returns or raises,
    and in both cases leaves the object as the assignments done so far made
    it. *)
Definition M (S A : Type) : Type := S -> result A * S.

Definition ret {S A} (a : A) : M S A := fun s => (Ok a, s).
Definition raise {S A} (e : exn) : M S A := fun s => (Raise e, s).
Definition lift {S A} (r : result A) : M S A := fun s => (r, s).
Definition get {S} : M S S := fun s => (Ok s, s).
Definition assign {S} (f : S -> S) : M S unit := fun s => (Ok tt, f s).

Definition mbind {S A B} (m : M S A) (k : A -> M S B) : M S B :=
  fun s =>
    match m s with
    | (Ok a, s') => k a s'
    | (Raise e, s') => (Raise e, s')
    end.

Notation "x <~ m ;; k" := (mbind m (fun x => k))
  (at level 61, m at next level, right associativity) : py_scope.
Notation "m ;;; k" := (mbind m (fun _ => k))
  (at level 61, right associativity) : py_scope.

(** ** Constructors *)

(** The copy constructor [DPacketMessage.__init__]. *)
Definition DPacketMessage_init (pkt : PacketMessage.t) : PacketMessage.t :=
  {| PacketMessage.ts := PacketMessage.ts pkt;
     PacketMessage.ts_epoch := PacketMessage.ts_epoch pkt;
     PacketMessage.aa := PacketMessage.aa pkt;
     PacketMessage.rssi := PacketMessage.rssi pkt;
     PacketMessage.chan := PacketMessage.chan pkt;
     PacketMessage.phy := PacketMessage.phy pkt;
     PacketMessage.body := PacketMessage.body pkt;
     PacketMessage.data_dir := PacketMessage.data_dir pkt;
     PacketMessage.event := PacketMessage.event pkt;
     PacketMessage.crc_rev := PacketMessage.crc_rev pkt |}.

Definition AdvertMessage_init (pkt : PacketMessage.t)
  : result (PacketMessage.t * Advert.t) :=
  let self := DPacketMessage_init pkt in
  let body := PacketMessage.body self in
  b5 <- getitem body 0 ;;
  b6 <- getitem body 0 ;;
  b7 <- getitem body 0 ;;
  l <- getitem body 1 ;;
  Ok (self, {| Advert.ChSel := Z.land (Z.shiftr b5 5) 1;
               Advert.TxAdd := Z.land (Z.shiftr b6 6) 1;
               Advert.RxAdd := Z.land (Z.shiftr b7 7) 1;
               Advert.ad_length := l |}).

Definition DataMessage_init (pkt : PacketMessage.t)
  : result (PacketMessage.t * Data.t) :=
  let self := DPacketMessage_init pkt in
  let body := PacketMessage.body self in
  b2 <- getitem body 0 ;;
  b3 <- getitem body 0 ;;
  b4 <- getitem body 0 ;;
  l <- getitem body 1 ;;
  Ok (self, {| Data.NESN := Z.land (Z.shiftr b2 2) 1;
               Data.SN := Z.land (Z.shiftr b3 3) 1;
               Data.MD := Z.land (Z.shiftr b4 4) 1;
               Data.data_length := l |}).

Definition LlControlMessage_init (pkt : PacketMessage.t) : result DPacket :=
  '(self, d) <- DataMessage_init pkt ;;
  opcode <- getitem (PacketMessage.body self) 2 ;;
  Ok (MkLlControl self d opcode).

Definition AdvaMessage_init (cls : AdvaCls) (pkt : PacketMessage.t)
  : result DPacket :=
  '(self, a) <- AdvertMessage_init pkt ;;
  Ok (MkAdva cls self a (slice (PacketMessage.body self) 2 8)).

Definition AdvDirectIndMessage_init (pkt : PacketMessage.t) : result DPacket :=
  '(self, a) <- AdvertMessage_init pkt ;;
  let body := PacketMessage.body self in
  Ok (MkAdvDirectInd self a (slice body 2 8) (slice body 8 14)).

Definition ScanReqMessage_init (cls : ScanReqCls) (pkt : PacketMessage.t)
  : result DPacket :=
  '(self, a) <- AdvertMessage_init pkt ;;
  let body := PacketMessage.body self in
  Ok (MkScanReq cls self a (slice body 2 8) (slice body 8 14)).

Definition ConnectIndMessage_init (cls : ConnectCls) (pkt : PacketMessage.t)
  : result DPacket :=
  '(self, a) <- AdvertMessage_init pkt ;;
  let body := PacketMessage.body self in
  let InitA := slice body 2 8 in
  let AdvA := slice body 8 14 in
  aa_conn <- unpack_le 4 (slice body 14 18) ;;
  c0 <- getitem body 18 ;;
  c1 <- getitem body 19 ;;
  c2 <- getitem body 20 ;;
  let CRCInit := Z.lor (Z.lor c0 (Z.shiftl c1 8)) (Z.shiftl c2 16) in
  WinSize <- getitem body 21 ;;
  '(WinOffset, Interval, Latency, Timeout) <- unpack_HHHH (slice body 22 30) ;;
  let ChM := slice body 30 35 in
  h <- getitem body 35 ;;
  s <- getitem body 35 ;;
  Ok (MkConnect cls self a
        {| ConnectInd.InitA := InitA;
           ConnectInd.AdvA := AdvA;
           ConnectInd.aa_conn := aa_conn;
           ConnectInd.CRCInit := CRCInit;
           ConnectInd.WinSize := WinSize;
           ConnectInd.WinOffset := WinOffset;
           ConnectInd.Interval := Interval;
           ConnectInd.Latency := Latency;
           ConnectInd.Timeout := Timeout;
           ConnectInd.ChM := ChM;
           ConnectInd.Hop := Z.land h 0x1F;
           ConnectInd.SCA := Z.shiftr s 5 |}).

(** The body of the [try] block of [AdvExtIndMessage.__init__], run on the
    attributes of [self]; it returns the final value of [hdrPos]. [obj] is
    the identity the [AdvDataInfo] instance gets if one is created. *)
Definition ext_header_walk (obj : nat) (body : bytes) : M AdvExt.t Z :=
  (if len body <? 3 then raise ValueError else ret tt) ;;;
  m <~ lift (getitem body 2) ;;
  assign (AdvExt.set_AdvMode (Z.shiftr m 6)) ;;;
  l <~ lift (getitem body 2) ;;
  let hdrBodyLen := Z.land l 0x3F in
  (if len body <? hdrBodyLen + 1 then raise ValueError else ret tt) ;;;
  hdrFlags <~ lift (getitem body 3) ;;
  let hdrPos := 4 in
  hdrPos <~ (if truthy (Z.land hdrFlags 0x01) then
               assign (AdvExt.set_AdvA (slice body hdrPos (hdrPos + 6))) ;;;
               ret (hdrPos + 6)
             else ret hdrPos) ;;
  hdrPos <~ (if truthy (Z.land hdrFlags 0x02) then
               assign (AdvExt.set_TargetA (slice body hdrPos (hdrPos + 6))) ;;;
               ret (hdrPos + 6)
             else ret hdrPos) ;;
  hdrPos <~ (if truthy (Z.land hdrFlags 0x04) then
               v <~ lift (getitem body hdrPos) ;;
               assign (AdvExt.set_CTEInfo v) ;;;
               ret (hdrPos + 1)
             else ret hdrPos) ;;
  hdrPos <~ (if truthy (Z.land hdrFlags 0x08) then
               v <~ lift (AdvDataInfo.init obj (slice body hdrPos (hdrPos + 2))) ;;
               assign (AdvExt.set_AdvDataInfo v) ;;;
               ret (hdrPos + 2)
             else ret hdrPos) ;;
  hdrPos <~ (if truthy (Z.land hdrFlags 0x10) then
               v <~ lift (AuxPtr.init (slice body hdrPos (hdrPos + 3))) ;;
               assign (AdvExt.set_AuxPtr v) ;;;
               ret (hdrPos + 3)
             else ret hdrPos) ;;
  hdrPos <~ (if truthy (Z.land hdrFlags 0x20) then
               assign (AdvExt.set_SyncInfo (slice body hdrPos (hdrPos + 18))) ;;;
               ret (hdrPos + 18)
             else ret hdrPos) ;;
  hdrPos <~ (if truthy (Z.land hdrFlags 0x40) then
               v <~ lift (unpack_b (slice body hdrPos (hdrPos + 1))) ;;
               assign (AdvExt.set_TxPower v) ;;;
               ret (hdrPos + 1)
             else ret hdrPos) ;;
  (if hdrPos - 3 <? hdrBodyLen then
     let ACADLen := hdrBodyLen - (hdrPos - 3) in
     assign (AdvExt.set_ACAD (slice body hdrPos (hdrPos + ACADLen))) ;;;
     ret (hdrPos + ACADLen)
   else ret hdrPos).

(** [AdvExtIndMessage.__init__]: the eight optional attributes start as
    [None], the walk runs inside [try], and whatever it raises is printed
    and dropped. *)
Definition AdvExtIndMessage_init (cls : ExtCls) (pkt : PacketMessage.t)
    (obj : nat) : result DPacket :=
  '(self, a) <- AdvertMessage_init pkt ;;
  let '(_, f) := ext_header_walk obj (PacketMessage.body self) AdvExt.empty in
  Ok (MkExt cls self a f).

(** [tc(pkt)]: the [__init__] the class [tc] resolves to. *)
Definition construct (tc : PduClass) (pkt : PacketMessage.t) (obj : nat)
  : result DPacket :=
  match tc with
  | DPacketMessage => Ok (MkDPacket (DPacketMessage_init pkt))
  | AdvertMessage =>
      '(self, a) <- AdvertMessage_init pkt ;; Ok (MkAdvert self a)
  | DataC cls => '(self, d) <- DataMessage_init pkt ;; Ok (MkData cls self d)
  | LlControlMessage => LlControlMessage_init pkt
  | AdvaC cls => AdvaMessage_init cls pkt
  | AdvDirectIndMessage => AdvDirectIndMessage_init pkt
  | ScanReqC cls => ScanReqMessage_init cls pkt
  | ConnectC cls => ConnectIndMessage_init cls pkt
  | ExtC cls => AdvExtIndMessage_init cls pkt obj
  end.

(** ** Decoder state *)

(** Modelled from the spec: the class [SniffleDecoderState] of
    [decoder_state.py], with the attributes the decoder reads and assigns.
    [aux_pending_chain] holds [None] or the tuple
    (advertising data info, channel, deadline). *)
Module SniffleDecoderState.
Record t := mk {
  last_state : SnifferState;
  cur_aa : option Z;
  crc_init_rev : option Z;
  aux_pending_aa : option Z;
  aux_pending_crci : option Z;
  aux_pending_scan_rsp : option float;
  aux_pending_chain : option (option AdvDataInfo.t * Z * float)
}.

Definition set_cur_aa v (s : t) : t :=
  mk (last_state s) v (crc_init_rev s) (aux_pending_aa s) (aux_pending_crci s)
     (aux_pending_scan_rsp s) (aux_pending_chain s).
Definition set_crc_init_rev v (s : t) : t :=
  mk (last_state s) (cur_aa s) v (aux_pending_aa s) (aux_pending_crci s)
     (aux_pending_scan_rsp s) (aux_pending_chain s).
Definition set_aux_pending_aa v (s : t) : t :=
  mk (last_state s) (cur_aa s) (crc_init_rev s) v (aux_pending_crci s)
     (aux_pending_scan_rsp s) (aux_pending_chain s).
Definition set_aux_pending_crci v (s : t) : t :=
  mk (last_state s) (cur_aa s) (crc_init_rev s) (aux_pending_aa s) v
     (aux_pending_scan_rsp s) (aux_pending_chain s).
Definition set_aux_pending_scan_rsp v (s : t) : t :=
  mk (last_state s) (cur_aa s) (crc_init_rev s) (aux_pending_aa s)
     (aux_pending_crci s) v (aux_pending_chain s).
Definition set_aux_pending_chain v (s : t) : t :=
  mk (last_state s) (cur_aa s) (crc_init_rev s) (aux_pending_aa s)
     (aux_pending_crci s) (aux_pending_scan_rsp s) v.
End SniffleDecoderState.

Definition DState : Type := SniffleDecoderState.t.

(** ** Dispatch *)

(** The table of [AdvertMessage.decode] for the primary channels. *)
Definition adv_type_classes : list PduClass :=
  [ AdvaC AdvIndMessage;
    AdvDirectIndMessage;
    AdvaC AdvNonconnIndMessage;
    ScanReqC ScanReqMessage;
    AdvaC ScanRspMessage;
    ConnectC ConnectIndMessage;
    AdvaC AdvScanIndMessage;
    ExtC AdvExtIndMessage ].

(** The table of [DataMessage.decode]. *)
Definition data_type_classes : list PduClass :=
  [ DataC DataMessage;
    DataC LlDataContMessage;
    DataC LlDataMessage;
    LlControlMessage ].

(** [type_classes[i]] for a non-negative [i]. *)
Definition class_at (l : list PduClass) (i : Z) : result PduClass :=
  match nth_error l (Z.to_nat i) with
  | Some tc => Ok tc
  | None => Raise IndexError
  end.

(** The choice of the class [tc] in [AdvertMessage.decode]. Reading an
    attribute of [dstate] when it is [None] raises [AttributeError]. *)
Definition AdvertMessage_select (pkt : PacketMessage.t) (dstate : option DState)
  : result PduClass :=
  b <- getitem (PacketMessage.body pkt) 0 ;;
  let pdu_type := Z.land b 0xF in
  if PacketMessage.chan pkt >=? 37 then
    if pdu_type <? Z.of_nat (length adv_type_classes) then
      class_at adv_type_classes pdu_type
    else Ok AdvertMessage
  else
    if pdu_type =? 3 then Ok (ScanReqC AuxScanReqMessage)
    else if pdu_type =? 5 then Ok (ConnectC AuxConnectReqMessage)
    else if pdu_type =? 7 then
      match dstate with
      | None => Raise AttributeError
      | Some d =>
          if match SniffleDecoderState.aux_pending_scan_rsp d with
             | Some deadline =>
                 truthy_float deadline
                 && PrimFloat.ltb (PacketMessage.ts pkt) deadline
             | None => false
             end
          then Ok (ExtC AuxScanRspMessage)
          else if match SniffleDecoderState.aux_pending_chain d with
                  | Some (_, chain_chan, deadline) =>
                      (PacketMessage.chan pkt =? chain_chan)
                      && PrimFloat.ltb (PacketMessage.ts pkt) deadline
                  | None => false
                  end
          then Ok (ExtC AuxChainIndMessage)
          else Ok (ExtC AuxAdvIndMessage)
      end
    else if pdu_type =? 8 then Ok (ExtC AuxConnectRspMessage)
    else Ok AdvertMessage.

Definition AdvertMessage_decode (pkt : PacketMessage.t)
    (dstate : option DState) (obj : nat) : result DPacket :=
  tc <- AdvertMessage_select pkt dstate ;;
  construct tc pkt obj.

Definition DataMessage_decode (pkt : PacketMessage.t)
    (dstate : option DState) (obj : nat) : result DPacket :=
  b <- getitem (PacketMessage.body pkt) 0 ;;
  let LLID := Z.land b 0x3 in
  tc <- class_at data_type_classes LLID ;;
  construct tc pkt obj.

(** ** Correlation state machine *)

Import SniffleDecoderState.

(** The [if]/[elif] chain of [update_state]. *)
Definition update_rules (pkt : DPacket) : M DState unit :=
  let ts := PacketMessage.ts (common pkt) in
  let chan := PacketMessage.chan (common pkt) in
  dstate <~ get ;;
  if isinstance pkt (ConnectC ConnectIndMessage) then
    if (chan <? 37)
       && negb (SnifferState_eqb (last_state dstate) ADVERTISING_EXT)
    then
      f <~ lift (attr_connect pkt) ;;
      assign (set_aux_pending_aa (Some (ConnectInd.aa_conn f))) ;;;
      assign (set_aux_pending_crci (Some (ConnectInd.CRCInit f)))
    else
      f <~ lift (attr_connect pkt) ;;
      assign (set_cur_aa (Some (ConnectInd.aa_conn f))) ;;;
      assign (set_crc_init_rev (Some (rbit24 (ConnectInd.CRCInit f))))
  else if isinstance pkt (ExtC AuxConnectRspMessage) then
    assign (fun d => set_cur_aa (aux_pending_aa d) d) ;;;
    assign (set_aux_pending_aa None) ;;;
    d <~ get ;;
    v <~ lift (rbit24_py (aux_pending_crci d)) ;;
    assign (set_crc_init_rev (Some v)) ;;;
    assign (set_aux_pending_crci None)
  else if isinstance pkt (ScanReqC AuxScanReqMessage) then
    assign (set_aux_pending_scan_rsp (Some (ts + 0.0005)%float))
  else
    ptr <~ (if isinstance pkt (ExtC AuxAdvIndMessage) then
              f <~ lift (attr_ext pkt) ;; ret (AdvExt.AuxPtr f)
            else ret None) ;;
    match ptr with
    | Some p =>
        f <~ lift (attr_ext pkt) ;;
        assign (set_aux_pending_chain
                  (Some (AdvExt.AdvDataInfo f, AuxPtr.chan p,
                         (ts + float_of_int (AuxPtr.offsetUsec p) * 1E-6
                          + 0.0005)%float)))
    | None =>
        scannable <~ (if SnifferState_eqb (last_state dstate) SCANNING
                         && isinstance pkt (ExtC AuxAdvIndMessage)
                      then m <~ lift (attr_AdvMode pkt) ;; ret (m =? 2)
                      else ret false) ;;
        if scannable then
          assign (set_aux_pending_scan_rsp (Some (ts + 0.001)%float))
        else ret tt
    end.

(** The two [if] statements that clear the pending flags. *)
Definition clear_pending_scan_rsp (pkt : DPacket) : M DState unit :=
  let ts := PacketMessage.ts (common pkt) in
  d <~ get ;;
  match aux_pending_scan_rsp d with
  | Some deadline =>
      if truthy_float deadline then
        if PrimFloat.ltb deadline ts
           || isinstance pkt (ExtC AuxScanRspMessage)
        then assign (set_aux_pending_scan_rsp None)
        else ret tt
      else ret tt
  | None => ret tt
  end.

Definition clear_pending_chain (pkt : DPacket) : M DState unit :=
  let ts := PacketMessage.ts (common pkt) in
  let chan := PacketMessage.chan (common pkt) in
  d <~ get ;;
  match aux_pending_chain d with
  | Some (adi, chain_chan, deadline) =>
      if PrimFloat.ltb deadline ts then assign (set_aux_pending_chain None)
      else if isinstance pkt (ExtC AuxChainIndMessage) && (chan =? chain_chan)
      then
        f <~ lift (attr_ext pkt) ;;
        if AdvDataInfo.py_eq (AdvExt.AdvDataInfo f) adi
        then assign (set_aux_pending_chain None)
        else ret tt
      else ret tt
  | None => ret tt
  end.

Definition clear_pending (pkt : DPacket) : M DState unit :=
  clear_pending_scan_rsp pkt ;;; clear_pending_chain pkt.

Definition update_state (pkt : DPacket) : M DState unit :=
  update_rules pkt ;;; clear_pending pkt.

(** ** Top-level entry point *)

(** What [DPacketMessage.decode] returns: the decoded packet, or the raw
    record it was given when something raised. *)
Inductive Decoded :=
| Dpkt (dpkt : DPacket)
| Raw (pkt : PacketMessage.t).

(** [DPacketMessage.decode(pkt, dstate)]: the value returned and the decoder
    state after the call ([dstate] is [None] when no state is passed). *)
Definition decode (pkt : PacketMessage.t) (dstate : option DState) (obj : nat)
  : Decoded * option DState :=
  match (if PacketMessage.aa pkt =? BLE_ADV_AA
         then AdvertMessage_decode pkt dstate obj
         else DataMessage_decode pkt dstate obj) with
  | Ok dpkt =>
      match dstate with
      | Some d =>
          match update_state dpkt d with
          | (Ok _, d') => (Dpkt dpkt, Some d')
          | (Raise _, d') => (Raw pkt, Some d')
          end
      | None => (Dpkt dpkt, None)
      end
  | Raise _ => (Raw pkt, dstate)
  end.

(** ** Vocabulary of the properties *)

(** Attributes the clearing of the pending flags leaves alone. *)
Definition same_connection (d d' : DState) : Prop :=
  last_state d' = last_state d /\
  cur_aa d' = cur_aa d /\
  crc_init_rev d' = crc_init_rev d /\
  aux_pending_aa d' = aux_pending_aa d /\
  aux_pending_crci d' = aux_pending_crci d.

(** A decoder state as a session starts with: nothing tracked, nothing
    pending. *)
Definition empty_state (mode : SnifferState) : DState :=
  mk mode None None None None None None.

(** A raw advertising-channel record with the given timestamp, channel and
    body. *)
Definition advert_record (ts : float) (chan : Z) (body : bytes)
  : PacketMessage.t :=
  PacketMessage.mk ts 0%float BLE_ADV_AA (-40) chan 0 body false 0 false.

(** A connection request: an (AUX_)CONNECT_IND on channel [chan] asking for
    the access address [0x12345678] with CRC-init [0x123456]. *)
Definition connect_fields : ConnectInd.t :=
  ConnectInd.mk [] [] 0x12345678 0x123456 0 0 0 0 0 [] 0 0.

Definition connect_req (cls : ConnectCls) (chan : Z) : DPacket :=
  MkConnect cls (advert_record 1%float chan []) (Advert.mk 0 0 0 0)
    connect_fields.

(** An AUX_CONNECT_RSP with an empty extended header, as a raw record and
    decoded. *)
Definition connect_rsp_record : PacketMessage.t :=
  advert_record 3%float 10 [x08; x02; x01; x00].

Definition connect_rsp : DPacket :=
  MkExt AuxConnectRspMessage connect_rsp_record (Advert.mk 0 0 0 2)
    (AdvExt.set_AdvMode 0 AdvExt.empty).

(** A state that tracks the connection [0x12345678] and has nothing
    pending. *)
Definition tracking_state : DState :=
  set_cur_aa (Some 0x12345678) (empty_state (OTHER_STATE 0)).

(** The condition of the first tie-break rule: a pending scan-response
    deadline exists and [ts] is strictly before it. *)
Definition scan_rsp_pending (d : DState) (ts : float) : Prop :=
  exists deadline,
    aux_pending_scan_rsp d = Some deadline /\
    PrimFloat.ltb ts deadline = true.

(** The same condition as the dispatcher tests it, the deadline by its
    truth value: a pending scan-response deadline is set, is not zero, and
    [ts] is strictly before it. *)
Definition scan_rsp_due (d : DState) (ts : float) : Prop :=
  exists deadline,
    aux_pending_scan_rsp d = Some deadline /\
    PrimFloat.eqb deadline 0%float = false /\
    PrimFloat.ltb ts deadline = true.

(** The condition of the second tie-break rule: a chain is pending on the
    channel [chan] and [ts] is strictly before its deadline. *)
Definition chain_due (d : DState) (chan : Z) (ts : float) : Prop :=
  exists adi deadline,
    aux_pending_chain d = Some (adi, chan, deadline) /\
    PrimFloat.ltb ts deadline = true.

(** An AUX_SCAN_REQ record on channel 5. *)
Definition scan_req_record (ts : float) : PacketMessage.t :=
  advert_record ts 5
    [x03; x0c; x01; x02; x03; x04; x05; x06; x11; x12; x13; x14; x15; x16].

(** A secondary-channel record with PDU type 7 and an empty extended
    header. *)
Definition ambiguous_record (ts : float) (chan : Z) : PacketMessage.t :=
  advert_record ts chan [x07; x02; x01; x00].

(** The kind of what [decode] returned, if it is a decoded packet. *)
Definition decoded_type (r : Decoded * option DState) : option PduType :=
  match fst r with
  | Dpkt dpkt => Some (pdutype (class_of dpkt))
  | Raw _ => None
  end.

(** The documented table of the primary channels: the kind selected by
    each value of the PDU-type nibble, the values 8 to 15 falling back to
    the generic header-only representation (whose [pdutype] is "RFU"). *)
Definition primary_kind (nibble : Z) : PduType :=
  match nibble with
  | 0 => ADV_IND
  | 1 => ADV_DIRECT_IND
  | 2 => ADV_NONCONN_IND
  | 3 => SCAN_REQ
  | 4 => SCAN_RSP
  | 5 => CONNECT_IND
  | 6 => ADV_SCAN_IND
  | 7 => ADV_EXT_IND
  | _ => RFU
  end.

(** A primary-channel record whose first body byte is [b0]. *)
Definition primary_record (b0 : byte) : PacketMessage.t :=
  advert_record 1%float 37 [b0; x00].

(** The ten attributes of a raw record, compared one by one. *)
Definition same_header (a b : PacketMessage.t) : Prop :=
  PacketMessage.ts a = PacketMessage.ts b /\
  PacketMessage.ts_epoch a = PacketMessage.ts_epoch b /\
  PacketMessage.aa a = PacketMessage.aa b /\
  PacketMessage.rssi a = PacketMessage.rssi b /\
  PacketMessage.chan a = PacketMessage.chan b /\
  PacketMessage.phy a = PacketMessage.phy b /\
  PacketMessage.body a = PacketMessage.body b /\
  PacketMessage.data_dir a = PacketMessage.data_dir b /\
  PacketMessage.event a = PacketMessage.event b /\
  PacketMessage.crc_rev a = PacketMessage.crc_rev b.

(** An ADV_IND record on channel 37. *)
Definition adv_ind_record : PacketMessage.t :=
  advert_record 1%float 37 [x40; x06; x01; x02; x03; x04; x05; x06].

(** The dispatch step of [decode]: the first statement of its [try]
    block. *)
Definition dispatch (pkt : PacketMessage.t) (dstate : option DState)
    (obj : nat) : result DPacket :=
  if PacketMessage.aa pkt =? BLE_ADV_AA
  then AdvertMessage_decode pkt dstate obj
  else DataMessage_decode pkt dstate obj.

(** The records whose kind depends on the decoder state: advertising
    records on a secondary channel with PDU-type nibble 7. *)
Definition ambiguous (pkt : PacketMessage.t) : Prop :=
  PacketMessage.aa pkt = BLE_ADV_AA /\
  PacketMessage.chan pkt < 37 /\
  exists b, getitem (PacketMessage.body pkt) 0 = Ok b /\ Z.land b 0xF = 7.

(** An AUX_ADV_IND on channel 10 at [ts = 2.0] carrying the advertising
    data info (DID 1, SID 0) and an auxiliary pointer to channel 5, 900
    microseconds ahead. *)
Definition aux_adv_record : PacketMessage.t :=
  advert_record 2%float 10 [x07; x07; x06; x18; x01; x00; x05; x1e; x00].

(** The continuation on channel 5 at [ts = 2.0012], carrying the same
    advertising data info and no auxiliary pointer. *)
Definition chain_record : PacketMessage.t :=
  advert_record 2.0012%float 5 [x07; x04; x03; x08; x01; x00].

(** Which of the eight optional attributes of the extended header hold a
    value, in the order of the walk: AdvA, TargetA, CTEInfo, AdvDataInfo,
    AuxPtr, SyncInfo, TxPower, ACAD. *)
Definition is_some {A} (o : option A) : bool :=
  match o with
  | Some _ => true
  | None => false
  end.

Definition presence (f : AdvExt.t) : list bool :=
  [ is_some (AdvExt.AdvA f); is_some (AdvExt.TargetA f);
    is_some (AdvExt.CTEInfo f); is_some (AdvExt.AdvDataInfo f);
    is_some (AdvExt.AuxPtr f); is_some (AdvExt.SyncInfo f);
    is_some (AdvExt.TxPower f); is_some (AdvExt.ACAD f) ].

(** The seven presence flags of the flags byte, in the same order. *)
Definition flag_bits (hdrFlags : Z) : list bool :=
  map (fun m => truthy (Z.land hdrFlags m))
      [0x01; 0x02; 0x04; 0x08; 0x10; 0x20; 0x40].

(** [x] is a run of consecutive bytes of [body]. *)
Definition segment_of (x body : bytes) : Prop :=
  exists pre post, body = pre ++ x ++ post.

(** The byte-string attributes of the extended header lie inside the
    body. *)
Definition fields_in_bounds (f : AdvExt.t) (body : bytes) : Prop :=
  (forall x, AdvExt.AdvA f = Some x -> segment_of x body) /\
  (forall x, AdvExt.TargetA f = Some x -> segment_of x body) /\
  (forall x, AdvExt.SyncInfo f = Some x -> segment_of x body) /\
  (forall x, AdvExt.ACAD f = Some x -> segment_of x body).

(** An ADV_EXT_IND body that declares a header of one byte (the flags) and
    flags an AdvA. *)
Definition overlong_body : bytes :=
  [x07; x08; x01; x01; x01; x02; x03; x04; x05; x06].

(** An ADV_EXT_IND body that flags AdvA and TargetA and holds two bytes
    after the flags. *)
Definition short_body : bytes := [x07; x04; x01; x03; xaa; xbb].

(** An AUX_ADV_IND record that flags AdvA and CTEInfo and ends after the
    AdvA. *)
Definition truncated_record : PacketMessage.t :=
  advert_record 1%float 3
    [x07; x08; x07; x05; x01; x02; x03; x04; x05; x06].

(** ** Vocabulary of the further properties *)

(** A raw record with a 36-byte CONNECT_IND body asking for the access
    address [0x12345678] with CRC-init [0x123456], hop 5 and SCA 1. *)
Definition connect_ind_body : bytes :=
  [x05; x22;
   x01; x02; x03; x04; x05; x06;
   x11; x12; x13; x14; x15; x16;
   x78; x56; x34; x12;
   x56; x34; x12;
   x02;
   x03; x00; x18; x00; x00; x00; x48; x00;
   xff; xff; xff; xff; x1f;
   x25].

Definition connect_ind_record : PacketMessage.t :=
  advert_record 1%float 37 connect_ind_body.

(** The class [DataMessage.decode] picks for each value of the LLID. *)
Definition llid_class (LLID : Z) : PduClass :=
  match LLID with
  | 1 => DataC LlDataContMessage
  | 2 => DataC LlDataMessage
  | 3 => LlControlMessage
  | _ => DataC DataMessage
  end.

(** The class [AdvertMessage.decode] picks on a secondary channel for a
    PDU-type nibble other than 7. *)
Definition secondary_class (pdu_type : Z) : PduClass :=
  match pdu_type with
  | 3 => ScanReqC AuxScanReqMessage
  | 5 => ConnectC AuxConnectReqMessage
  | 8 => ExtC AuxConnectRspMessage
  | _ => AdvertMessage
  end.

(** Every class [AdvertMessage.decode] can pick. *)
Definition advert_classes : list PduClass :=
  AdvertMessage :: adv_type_classes ++
  [ ScanReqC AuxScanReqMessage; ConnectC AuxConnectReqMessage;
    ExtC AuxScanRspMessage; ExtC AuxChainIndMessage; ExtC AuxAdvIndMessage;
    ExtC AuxConnectRspMessage ].

(** A raw data-channel record. *)
Definition data_record (body : bytes) : PacketMessage.t :=
  PacketMessage.mk 1%float 0%float 0x12345678 (-40) 9 0 body false 0 false.

(** An AUX_SCAN_RSP with an empty extended header, decoded. *)
Definition scan_rsp_pkt : DPacket :=
  MkExt AuxScanRspMessage (ambiguous_record 1.0003%float 5) (Advert.mk 0 0 0 2)
    (AdvExt.set_AdvMode 0 AdvExt.empty).

(** The two situations in which the state update raises: an
    AUX_CONNECT_RSP met with no pending CRC-init, and, in scanning mode, an
    AUX_ADV_IND-family packet without auxiliary pointer whose body was too
    short for [AdvMode] to be assigned. *)
Definition update_fails (pkt : DPacket) (d : DState) : Prop :=
  (isinstance pkt (ExtC AuxConnectRspMessage) = true /\
   aux_pending_crci d = None) \/
  (last_state d = SCANNING /\
   exists cls c a f,
     pkt = MkExt cls c a f /\
     isinstance pkt (ExtC AuxAdvIndMessage) = true /\
     AdvExt.AuxPtr f = None /\ AdvExt.AdvMode f = None).

(** The sizes of the seven optional fields of the extended header, in the
    order of the walk, and the number of bytes the flagged ones take. *)
Definition field_sizes : list Z := [6; 6; 1; 2; 3; 18; 1].

Definition flagged_size (hdrFlags : Z) : Z :=
  fold_right (fun '(flag, size) acc => (if flag : bool then size else 0) + acc) 0
    (combine (flag_bits hdrFlags) field_sizes).

(** The optional fields whose read raises when it leaves the body: CTEInfo
    is read by index, AdvDataInfo and AuxPtr by constructors that index
    their slice, TxPower by [struct.unpack]. AdvA, TargetA and SyncInfo are
    plain slices. *)
Definition checked_read : list bool :=
  [false; false; true; true; true; false; true].

(** The bytes the flagged fields before the [k]-th take: the walk reaches
    the [k]-th field with [hdrPos = 4 + consumed_before hdrFlags k]. *)
Definition consumed_before (hdrFlags : Z) (k : nat) : Z :=
  fold_right (fun '(flag, size) acc => (if flag : bool then size else 0) + acc) 0
    (firstn k (combine (flag_bits hdrFlags) field_sizes)).

(** The [k]-th field is flagged, its read is a checked one, and it does
    not fit in the body. *)
Definition read_fails (body : bytes) (hdrFlags : Z) (k : nat) : Prop :=
  nth k (flag_bits hdrFlags) false = true /\
  nth k checked_read false = true /\
  len body < 4 + consumed_before hdrFlags k + nth k field_sizes 0.

(** The [k]-th field is the first, in the order of the walk, whose read
    fails. *)
Definition first_failure (body : bytes) (hdrFlags : Z) (k : nat) : Prop :=
  read_fails body hdrFlags k /\
  forall j, (j < k)%nat -> ~ read_fails body hdrFlags j.

(** An ADV_EXT_IND body cut short: it declares a header of 7 bytes (the
    flags and an AdvA), and 5 bytes follow the length byte. *)
Definition inconsistent_body : bytes :=
  [x07; x09; x07; x01; xa1; xa2; xa3; xa4].

(** An AUX_ADV_IND whose extended header holds an AdvA, an AdvDataInfo and
    two bytes of ACAD, followed by three bytes of advertising data. *)
Definition well_formed_ext_body : bytes :=
  [x07; x0f; x0b; x09;
   x01; x02; x03; x04; x05; x06;
   x34; x12;
   xaa; xbb;
   xd0; xd1; xd2].

(** ** Display helpers *)

Section Display.
Import Stdlib.Strings.Ascii Stdlib.Strings.String.
Local Open Scope string_scope.
Local Open Scope Z_scope.

(** One hexadecimal digit, in lower or upper case. *)
Definition hex_digit (upper : bool) (n : N) : ascii :=
  match n with
  | 0 => "0" | 1 => "1" | 2 => "2" | 3 => "3" | 4 => "4"
  | 5 => "5" | 6 => "6" | 7 => "7" | 8 => "8" | 9 => "9"
  | 10 => if upper then "A" else "a"
  | 11 => if upper then "B" else "b"
  | 12 => if upper then "C" else "c"
  | 13 => if upper then "D" else "d"
  | 14 => if upper then "E" else "e"
  | _ => if upper then "F" else "f"
  end%N%char.

(** ["%02X" % b] and [f'{b:02x}'] for an element [b] of a [bytes]
    object: exactly two digits. *)
Definition hex2 (upper : bool) (b : byte) : string :=
  let n := Byte.to_N b in
  String (hex_digit upper (n / 16)) (String (hex_digit upper (n mod 16)) "").

(** [str_mac]: the bytes in reverse order, as upper-case hexadecimal
    pairs joined by colons. *)
Definition str_mac (mac : bytes) : string :=
  concat ":" (map (hex2 true) (rev mac)).

(** [x[i]] on a list, for a non-negative [i]. *)
Definition list_getitem {A} (l : list A) (i : Z) : result A :=
  match nth_error l (Z.to_nat i) with
  | Some x => Ok x
  | None => Raise IndexError
  end.

Definition _str_atype (addr : bytes) (is_random : Z) : result string :=
  if negb (truthy is_random) then Ok "Public"
  else
    let atypes := ["NRPA"; "RPA"; "RFU"; "Static"] in
    b <- getitem addr 5 ;;
    let atype := Z.shiftr b 6 in
    list_getitem atypes atype.

Definition str_mac2 (mac : bytes) (is_random : Z) : result string :=
  let m := str_mac mac in
  t <- _str_atype mac is_random ;;
  Ok (m ++ " (" ++ t ++ ")").

(** [pchar] of [printable]. *)
Definition pchar (a : byte) : ascii :=
  if ((32 <=? int_of_byte a)%Z && (int_of_byte a <? 127)%Z)%bool
  then ascii_of_byte a
  else "."%char.

Definition printable (s : bytes) : string :=
  concat "" (map (fun a => String (pchar a) "") s).

(** [AdvaMessage.str_adva]. *)
Definition str_adva (p : DPacket) : result string :=
  match p with
  | MkAdva _ _ a AdvA =>
      s <- str_mac2 AdvA (Advert.TxAdd a) ;;
      Ok ("AdvA: " ++ s)
  | _ => Raise AttributeError
  end.

(** [str(i)] and ["%d" % i] for an [int]. *)
Definition dec (i : Z) : string :=
  DecimalString.NilZero.string_of_int (Z.to_int i).

(** The digits of a non-negative [int] in lower-case hexadecimal. *)
Definition hex_lower (i : Z) : string :=
  HexadecimalString.NilZero.string_of_uint (N.to_hex_uint (Z.to_N i)).

(** The hexadecimal digits [a] to [f] (codes 97 to 102) in upper case. *)
Definition upper_char (c : ascii) : ascii :=
  let n := N_of_ascii c in
  if ((97 <=? n) && (n <=? 102))%N then ascii_of_N (n - 32) else c.

Fixpoint upper (s : string) : string :=
  match s with
  | EmptyString => EmptyString
  | String c r => String (upper_char c) (upper r)
  end.

Fixpoint replicate (n : nat) (c : ascii) : string :=
  match n with
  | O => EmptyString
  | S m => String c (replicate m c)
  end.

(** Zero padding on the left and space padding on the right, up to a
    minimal width. *)
Definition zfill (width : nat) (s : string) : string :=
  replicate (width - String.length s) "0" ++ s.

Definition ljust (width : nat) (s : string) : string :=
  s ++ replicate (width - String.length s) " ".

(** ["%02X" % i] for a non-negative [int]. *)
Definition fmt_02X (i : Z) : string := zfill 2 (upper (hex_lower i)).

(** [LlControlMessage.str_opcode], on the opcode of the packet. *)
Definition control_opcodes : list string :=
  [ "LL_CONNECTION_UPDATE_IND";
    "LL_CHANNEL_MAP_IND";
    "LL_TERMINATE_IND";
    "LL_ENC_REQ";
    "LL_ENC_RSP";
    "LL_START_ENC_REQ";
    "LL_START_ENC_RSP";
    "LL_UNKNOWN_RSP";
    "LL_FEATURE_REQ";
    "LL_FEATURE_RSP";
    "LL_PAUSE_ENC_REQ";
    "LL_PAUSE_ENC_RSP";
    "LL_VERSION_IND";
    "LL_REJECT_IND";
    "LL_SLAVE_FEATURE_REQ";
    "LL_CONNECTION_PARAM_REQ";
    "LL_CONNECTION_PARAM_RSP";
    "LL_REJECT_EXT_IND";
    "LL_PING_REQ";
    "LL_PING_RSP";
    "LL_LENGTH_REQ";
    "LL_LENGTH_RSP";
    "LL_PHY_REQ";
    "LL_PHY_RSP";
    "LL_PHY_UPDATE_IND";
    "LL_MIN_USED_CHANNELS_IND" ].

Definition str_opcode (opcode : Z) : result string :=
  if (opcode <? Z.of_nat (List.length control_opcodes))%Z then
    name <- list_getitem control_opcodes opcode ;;
    Ok ("Opcode: " ++ name)
  else Ok ("Opcode: RFU (0x" ++ fmt_02X opcode ++ ")").

(** [AuxPtr.__str__]. *)
Definition AuxPtr_str (p : AuxPtr.t) : result string :=
  let phy_names := ["1M"; "2M"; "Coded"; "Invalid3"; "Invalid4";
                    "Invalid5"; "Invalid6"; "Invalid7"] in
  name <- list_getitem phy_names (AuxPtr.phy p) ;;
  Ok ("AuxPtr Chan: " ++ dec (AuxPtr.chan p) ++ " PHY: " ++ name
      ++ " Delay: " ++ dec (AuxPtr.offsetUsec p) ++ " us").

(** [ConnectIndMessage.str_chm]: the lambda [has_chan], the loop that
    collects the excluded channels, and the function itself, on the
    channel map of the packet. *)
Definition has_chan (chm : bytes) (i : Z) : result bool :=
  b <- getitem chm (i / 8) ;;
  Ok (negb (Z.land b (Z.shiftl 1 (Z.land i 7)) =? 0)%Z).

Fixpoint excludes_loop (chm : bytes) (channels excludes : list Z)
  : result (list Z) :=
  match channels with
  | [] => Ok excludes
  | i :: rest =>
      h <- has_chan chm i ;;
      excludes_loop chm rest (if negb h then excludes ++ [i] else excludes)%list
  end.

Definition chm_excludes (chm : bytes) : result (list Z) :=
  excludes_loop chm (map Z.of_nat (seq 0 37)) [].

Fixpoint bytes_eqb (a b : bytes) : bool :=
  match a, b with
  | [], [] => true
  | x :: a', y :: b' => Byte.eqb x y && bytes_eqb a' b'
  | _, _ => false
  end.

Definition str_chm (ChM : bytes) : result string :=
  descstr <- (if bytes_eqb ChM [xff; xff; xff; xff; x1f]
              then Ok "all channels"
              else excludes <- chm_excludes ChM ;;
                   Ok ("excludes " ++ concat ", " (map dec excludes))) ;;
  chanstr <- match ChM with
             | [b0; b1; b2; b3; b4] =>
                 Ok (hex2 true b0 ++ " " ++ hex2 true b1 ++ " "
                     ++ hex2 true b2 ++ " " ++ hex2 true b3 ++ " "
                     ++ hex2 true b4)
             | _ => Raise TypeError
             end ;;
  Ok ("Channel Map: " ++ chanstr ++ " (" ++ descstr ++ ")").

(** The check behind [str_opcode_spec]: every opcode of a byte is printed,
    and no two of them alike. *)
Definition opcode_table : list (Z * result string) :=
  map (fun i => (i, str_opcode i)) (map Z.of_nat (seq 0 256)).

Definition printed_apart (x y : Z * result string) : bool :=
  match snd x, snd y with
  | Ok a, Ok b => implb (String.eqb a b) (fst x =? fst y)
  | _, _ => false
  end.

Definition all_printed_apart (table : list (Z * result string)) : bool :=
  forallb (fun x => forallb (printed_apart x) table) table.

(** [range(0, stop, step)] for a positive [step]. *)
Definition py_range (stop step : Z) : list Z :=
  map (fun k => Z.of_nat k * step)
      (seq 0 (Z.to_nat ((stop + step - 1) / step))).

(** [hexline(s)] with the default [bytes_per_group=8]. *)
Definition hexline (s : bytes) : string :=
  let chunks :=
    map (fun i => concat " " (map (hex2 false) (slice s i (i + 8))))
        (py_range (len s) 8) in
  concat "  " chunks.

Definition newline : string := String (ascii_of_nat 10) "".

(** One full line of [hexdump], for the chunk at offset [i]; [hexline_len]
    is [3*16 + 16//8 - 2 = 48]. *)
Definition hexdump_line (i : Z) (chunk : bytes) : string :=
  "0x" ++ zfill 4 (hex_lower i) ++ ":  " ++ ljust 48 (hexline chunk)
  ++ "  " ++ printable chunk.

(** [chunk == prev_chunk], where [prev_chunk] starts as [None]. *)
Definition same_chunk (chunk : bytes) (prev_chunk : option bytes) : bool :=
  match prev_chunk with
  | Some p => bytes_eqb chunk p
  | None => false
  end.

(** One turn of the loop of [hexdump] (with the default
    [bytes_per_line=16]) on the variables [prev_chunk], [in_repeat] and
    [lines]. *)
Definition hexdump_step (s : bytes)
    (st : option bytes * bool * list string) (i : Z)
  : option bytes * bool * list string :=
  let '(prev_chunk, in_repeat, lines) := st in
  let chunk := slice s i (i + 16) in
  if same_chunk chunk prev_chunk && (i + 16 <? len s) then
    if negb in_repeat then (Some chunk, true, (lines ++ ["*"])%list)
    else (Some chunk, in_repeat, lines)
  else (Some chunk, false, (lines ++ [hexdump_line i chunk])%list).

Definition hexdump_lines (s : bytes) : list string :=
  snd (fold_left (hexdump_step s) (py_range (len s) 16) (None, false, [])).

Definition hexdump (s : bytes) : string := concat newline (hexdump_lines s).

(** No line ["*"] directly follows another. *)
Definition is_star (line : string) : bool := String.eqb line "*".

Fixpoint no_double_star (lines : list string) : bool :=
  match lines with
  | x :: (y :: _) as rest => negb (is_star x && is_star y) && no_double_star rest
  | _ => true
  end.

(** What the loop of [hexdump] keeps true of [in_repeat] and [lines]. *)
Definition dump_inv (st : option bytes * bool * list string) : Prop :=
  let '(_, in_repeat, lines) := st in
  no_double_star lines = true /\ in_repeat = is_star (last lines "").

End Display.

(** ** Properties of the sub-structures *)

Lemma int_of_byte_range (b : byte) : 0 <= int_of_byte b < 256.
Proof.
  unfold int_of_byte. pose proof (Byte.to_N_bounded b). lia.
Qed.

Lemma getitem3 (b0 b1 b2 : byte) :
  getitem [b0; b1; b2] 0 = Ok (int_of_byte b0) /\
  getitem [b0; b1; b2] 1 = Ok (int_of_byte b1) /\
  getitem [b0; b1; b2] 2 = Ok (int_of_byte b2).
Proof. repeat split. Qed.

Lemma flag7_testbit (v : Z) :
  0 <= v < 256 -> truthy (Z.land v 0x80) = Z.testbit v 7.
Proof.
  intros Hv. unfold truthy.
  change 0x80 with (Z.shiftl 1 7).
  destruct (Z.testbit v 7) eqn:E.
  - destruct (Z.eqb_spec (Z.land v (Z.shiftl 1 7)) 0) as [H0|]; [|reflexivity].
    assert (Z.testbit (Z.land v (Z.shiftl 1 7)) 7 = true) as Hb.
    { rewrite Z.land_spec, E. reflexivity. }
    rewrite H0 in Hb. discriminate.
  - destruct (Z.eqb_spec (Z.land v (Z.shiftl 1 7)) 0) as [|H0]; [reflexivity|].
    exfalso. apply H0. apply Z.bits_inj'. intros n Hn.
    rewrite Z.land_spec, Z.bits_0.
    destruct (Z.eq_dec n 7) as [->|Hne].
    + rewrite E. reflexivity.
    + rewrite Z.shiftl_spec by lia.
      replace (Z.testbit 1 (n - 7)) with false; [apply andb_false_r|].
      symmetry. destruct (Z.ltb_spec n 7).
      * apply Z.testbit_neg_r. lia.
      * apply (Z.bits_above_log2 1 (n - 7)); simpl; lia.
Qed.

Lemma raw_offset_13bit (lo hi : Z) :
  0 <= lo < 256 -> 0 <= hi < 256 ->
  lo + Z.shiftl (Z.land hi 0x1F) 8 = Z.land (lo + 256 * hi) 0x1FFF.
Proof.
  intros Hlo Hhi.
  change 0x1F with (Z.ones 5). change 0x1FFF with (Z.ones 13).
  rewrite !Z.land_ones by lia. rewrite Z.shiftl_mul_pow2 by lia.
  change (2 ^ 5) with 32. change (2 ^ 8) with 256. change (2 ^ 13) with 8192.
  apply Z.mod_unique_pos with (q := hi / 32).
  - pose proof (Z.mod_pos_bound hi 32). lia.
  - pose proof (Z.div_mod hi 32). lia.
Qed.

(** [rbit n] reverses the low [n] bits of its argument above the
    accumulator: [rbit24] is the reversal of a 24-bit value. *)
Lemma rbit_spec (n : nat) : forall x acc i,
  0 <= i ->
  Z.testbit (rbit n x acc) i =
  if i <? Z.of_nat n then Z.testbit x (Z.of_nat n - 1 - i)
  else Z.testbit acc (i - Z.of_nat n).
Proof.
  induction n as [|m IH]; intros x acc i Hi.
  - cbn [rbit Z.of_nat]. destruct (Z.ltb_spec i 0); [lia|].
    now rewrite Z.sub_0_r.
  - cbn [rbit]. rewrite IH by assumption.
    destruct (Z.ltb_spec i (Z.of_nat m)) as [Hlt|Hge].
    + destruct (Z.ltb_spec i (Z.of_nat (S m))); [|lia].
      rewrite Z.shiftr_spec by lia. f_equal. lia.
    + rewrite Z.lor_spec, Z.land_spec.
      destruct (Z.eq_dec i (Z.of_nat m)) as [->|Hne].
      * destruct (Z.ltb_spec (Z.of_nat m) (Z.of_nat (S m))); [|lia].
        rewrite Z.sub_diag, Z.shiftl_spec by lia.
        rewrite (Z.testbit_neg_r acc) by lia.
        replace (Z.of_nat (S m) - 1 - Z.of_nat m) with 0 by lia.
        cbn [orb Z.testbit Z.odd]. apply andb_true_r.
      * destruct (Z.ltb_spec i (Z.of_nat (S m))); [lia|].
        rewrite Z.shiftl_spec by lia.
        replace (Z.testbit 1 (i - Z.of_nat m)) with false.
        -- rewrite andb_false_r, orb_false_r. f_equal. lia.
        -- symmetry. apply (Z.bits_above_log2 1); cbn; lia.
Qed.

Lemma rbit24_spec (x i : Z) :
  0 <= i < 24 -> Z.testbit (rbit24 x) i = Z.testbit x (23 - i).
Proof.
  intros Hi. unfold rbit24. rewrite rbit_spec by lia.
  change (Z.of_nat 24) with 24. destruct (Z.ltb_spec i 24); [|lia].
  f_equal.
Qed.

(** C8. For every 3-byte auxiliary pointer field the decoded
    [offsetUsec] is the 13-bit raw offset (the low 13 bits of the
    little-endian word formed by bytes 1 and 2) times 300 when bit 7 of the
    first byte is set and times 30 when it is clear; with the raw offset 10
    the result is 3000 with the flag set and 300 with the flag clear. *)
Theorem C8_auxptr_offset_usec :
  (forall b0 b1 b2 : byte,
      exists p, AuxPtr.init [b0; b1; b2] = Ok p /\
        AuxPtr.offsetUsec p =
          Z.land (int_of_byte b1 + 256 * int_of_byte b2) 0x1FFF *
          (if Z.testbit (int_of_byte b0) 7 then 300 else 30)) /\
  (exists p, AuxPtr.init [x80; x0a; x00] = Ok p /\ AuxPtr.offsetUsec p = 3000) /\
  (exists p, AuxPtr.init [x00; x0a; x00] = Ok p /\ AuxPtr.offsetUsec p = 300).
Proof.
  split; [|split].
  - intros b0 b1 b2.
    destruct (getitem3 b0 b1 b2) as (H0 & H1 & H2).
    unfold AuxPtr.init. rewrite H0, H1, H2. cbn [rbind].
    eexists. split; [reflexivity|]. cbn [AuxPtr.offsetUsec].
    rewrite flag7_testbit by apply int_of_byte_range.
    rewrite raw_offset_13bit by apply int_of_byte_range.
    reflexivity.
  - eexists. split; reflexivity.
  - eexists. split; reflexivity.
Qed.

(** ** The correlation state machine on connection packets *)

Lemma SnifferState_eqb_spec (a b : SnifferState) :
  reflect (a = b) (SnifferState_eqb a b).
Proof.
  destruct a as [| |m], b as [| |n]; simpl; try (constructor; congruence).
  destruct (Nat.eqb_spec m n); constructor; congruence.
Qed.

Lemma isinstance_ext_inv (pkt : DPacket) (target : ExtCls) :
  isinstance pkt (ExtC target) = true ->
  exists cls c a f, pkt = MkExt cls c a f.
Proof.
  intros Hi.
  destruct pkt as [c|cls c d1|c d1 o|c a|cls c a x|c a x y
                  |cls c a x y|cls c a f|cls c a f];
    try (destruct target; discriminate Hi);
    try (destruct cls, target; discriminate Hi).
  now exists cls, c, a, f.
Qed.

Lemma clear_pending_scan_rsp_frame (pkt : DPacket) (d : DState) :
  exists d', clear_pending_scan_rsp pkt d = (Ok tt, d') /\
    same_connection d d' /\ aux_pending_chain d' = aux_pending_chain d.
Proof.
  unfold clear_pending_scan_rsp, same_connection, mbind, get, assign, ret.
  destruct (aux_pending_scan_rsp d) as [dl|];
    [destruct (truthy_float dl);
     [destruct (PrimFloat.ltb dl _ || isinstance pkt (ExtC AuxScanRspMessage))|]|];
    eexists; (split; [reflexivity|]); repeat split.
Qed.

Lemma clear_pending_chain_frame (pkt : DPacket) (d : DState) :
  exists d', clear_pending_chain pkt d = (Ok tt, d') /\
    same_connection d d' /\
    aux_pending_scan_rsp d' = aux_pending_scan_rsp d.
Proof.
  unfold clear_pending_chain, same_connection, mbind, get, assign, ret, lift.
  destruct (aux_pending_chain d) as [[[adi cc] dl]|];
    [|eexists; (split; [reflexivity|]); repeat split].
  destruct (PrimFloat.ltb dl _);
    [eexists; (split; [reflexivity|]); repeat split|].
  destruct (isinstance pkt (ExtC AuxChainIndMessage)) eqn:Hi; cbn [andb];
    [|eexists; (split; [reflexivity|]); repeat split].
  destruct (PacketMessage.chan (common pkt) =? cc);
    [|eexists; (split; [reflexivity|]); repeat split].
  destruct (isinstance_ext_inv _ _ Hi) as (cls & c & a & f & ->).
  cbn [attr_ext]. destruct (AdvDataInfo.py_eq _ _);
    eexists; (split; [reflexivity|]); repeat split.
Qed.

(** The clearing of the pending flags never raises and touches neither the
    connection attributes nor the pending connection. *)
Lemma clear_pending_frame (pkt : DPacket) (d : DState) :
  exists d', clear_pending pkt d = (Ok tt, d') /\ same_connection d d'.
Proof.
  destruct (clear_pending_scan_rsp_frame pkt d) as (d1 & E1 & S1 & _).
  destruct (clear_pending_chain_frame pkt d1) as (d2 & E2 & S2 & _).
  exists d2. split.
  - unfold clear_pending, mbind. rewrite E1. exact E2.
  - unfold same_connection in *. intuition congruence.
Qed.

Lemma isinstance_connect (cls : ConnectCls) c a f :
  isinstance (MkConnect cls c a f) (ConnectC ConnectIndMessage) = true.
Proof. destruct cls; reflexivity. Qed.

Lemma update_rules_connect (cls : ConnectCls) c a f (d : DState) :
  update_rules (MkConnect cls c a f) d =
  (Ok tt,
   if (PacketMessage.chan c <? 37)
      && negb (SnifferState_eqb (last_state d) ADVERTISING_EXT)
   then set_aux_pending_crci (Some (ConnectInd.CRCInit f))
          (set_aux_pending_aa (Some (ConnectInd.aa_conn f)) d)
   else set_crc_init_rev (Some (rbit24 (ConnectInd.CRCInit f)))
          (set_cur_aa (Some (ConnectInd.aa_conn f)) d)).
Proof.
  unfold update_rules, mbind, get. rewrite isinstance_connect.
  cbn [common attr_connect lift].
  destruct ((PacketMessage.chan c <? 37) && _); reflexivity.
Qed.

(** C1 (amended). For every decoded CONNECT_IND (or AUX_CONNECT_REQ) the
    state update returns normally; when the packet's channel is a primary
    one (37 and above) or the last capture mode is extended advertising, it
    sets the active access address to [aa_conn] and the reversed CRC-init to
    the bit reversal of [CRCInit], leaving the pending slot as it was; when
    the channel is a secondary one (below 37) and the last capture mode is
    not extended advertising, it stores [aa_conn] and [CRCInit] in the
    pending slot and leaves the active connection attributes unchanged. *)
Theorem C1_connect_ind_update (cls : ConnectCls) c a f (d : DState) :
  exists d', update_state (MkConnect cls c a f) d = (Ok tt, d') /\
    ((37 <= PacketMessage.chan c \/ last_state d = ADVERTISING_EXT) ->
       cur_aa d' = Some (ConnectInd.aa_conn f) /\
       crc_init_rev d' = Some (rbit24 (ConnectInd.CRCInit f)) /\
       aux_pending_aa d' = aux_pending_aa d /\
       aux_pending_crci d' = aux_pending_crci d) /\
    ((PacketMessage.chan c < 37 /\ last_state d <> ADVERTISING_EXT) ->
       aux_pending_aa d' = Some (ConnectInd.aa_conn f) /\
       aux_pending_crci d' = Some (ConnectInd.CRCInit f) /\
       cur_aa d' = cur_aa d /\
       crc_init_rev d' = crc_init_rev d).
Proof.
  pose proof (update_rules_connect cls c a f d) as Hr.
  remember (if (PacketMessage.chan c <? 37) && _ then _ else _) as d1 eqn:Hd1.
  destruct (clear_pending_frame (MkConnect cls c a f) d1)
    as (d' & Hc & _ & Hca & Hcr & Hpa & Hpc).
  exists d'. split.
  - unfold update_state, mbind. rewrite Hr. exact Hc.
  - rewrite Hca, Hcr, Hpa, Hpc. subst d1.
    destruct (Z.ltb_spec (PacketMessage.chan c) 37) as [Hlt|Hge];
      destruct (SnifferState_eqb_spec (last_state d) ADVERTISING_EXT)
        as [He|Hne]; cbn [andb negb]; split; intros H;
      try (repeat split; reflexivity); exfalso;
      try (destruct H as [H|H]; [lia|congruence]);
      try (destruct H as [H1 H2]; first [lia|congruence]).
Qed.

(** C1, as stated, fails: an AUX_CONNECT_REQ on the secondary channel 5
    processed while the last capture mode is extended advertising activates
    the connection at once and leaves the pending slot empty. *)
Lemma C1_counterexample :
  exists d',
    update_state (connect_req AuxConnectReqMessage 5)
      (empty_state ADVERTISING_EXT) = (Ok tt, d') /\
    PacketMessage.chan (common (connect_req AuxConnectReqMessage 5)) < 37 /\
    cur_aa d' = Some 0x12345678 /\
    crc_init_rev d' = Some (rbit24 0x123456) /\
    aux_pending_aa d' = None /\
    aux_pending_crci d' = None /\
    cur_aa d' <> cur_aa (empty_state ADVERTISING_EXT).
Proof.
  eexists. split; [vm_compute; reflexivity|].
  cbn. repeat split; try reflexivity; try lia; discriminate.
Qed.

Lemma update_rules_connect_rsp c a f (d : DState) :
  update_rules (MkExt AuxConnectRspMessage c a f) d =
  match aux_pending_crci d with
  | Some crci =>
      (Ok tt,
       set_aux_pending_crci None
         (set_crc_init_rev (Some (rbit24 crci))
            (set_aux_pending_aa None (set_cur_aa (aux_pending_aa d) d))))
  | None =>
      (Raise TypeError, set_aux_pending_aa None (set_cur_aa (aux_pending_aa d) d))
  end.
Proof.
  unfold update_rules, mbind, get, assign, lift. cbn.
  destruct (aux_pending_crci d); reflexivity.
Qed.

(** C2. With the pending extended-connection slot populated, an
    AUX_CONNECT_RSP copies the pending access address into the active
    connection, sets the reversed CRC-init to the bit reversal of the
    pending CRC-init and clears the slot. With the slot empty the update is
    not a no-op on the connection attributes: on a state tracking the
    connection [0x12345678] it overwrites the active access address with
    [None] and then raises [TypeError]. *)
Theorem C2_aux_connect_rsp_update :
  (forall c a f (d : DState) pa pc,
      aux_pending_aa d = Some pa -> aux_pending_crci d = Some pc ->
      exists d', update_state (MkExt AuxConnectRspMessage c a f) d = (Ok tt, d') /\
        cur_aa d' = Some pa /\
        crc_init_rev d' = Some (rbit24 pc) /\
        aux_pending_aa d' = None /\
        aux_pending_crci d' = None) /\
  (exists d', update_state connect_rsp tracking_state = (Raise TypeError, d') /\
     aux_pending_aa tracking_state = None /\
     aux_pending_crci tracking_state = None /\
     cur_aa tracking_state = Some 0x12345678 /\
     cur_aa d' = None).
Proof.
  split.
  - intros c a f d pa pc Hpa Hpc.
    pose proof (update_rules_connect_rsp c a f d) as Hr. rewrite Hpc, Hpa in Hr.
    match type of Hr with _ = (_, ?s) => remember s as d1 eqn:Hd1 end.
    destruct (clear_pending_frame (MkExt AuxConnectRspMessage c a f) d1)
      as (d' & Hc & _ & Hca & Hcr & Hqa & Hqc).
    exists d'. split.
    + unfold update_state, mbind. rewrite Hr. exact Hc.
    + rewrite Hca, Hcr, Hqa, Hqc. subst d1. repeat split.
  - eexists. split; [vm_compute; reflexivity|]. repeat split.
Qed.

(** ** Failure containment of the entry point *)

Lemma update_rules_raise_frame (pkt : DPacket) (d d' : DState) e :
  isinstance pkt (ExtC AuxConnectRspMessage) = false ->
  update_rules pkt d = (Raise e, d') -> d' = d.
Proof.
  intros Hi. unfold update_rules, mbind, get, assign, lift, ret.
  rewrite Hi.
  destruct (isinstance pkt (ConnectC ConnectIndMessage)) eqn:Hc.
  - destruct pkt as [c|cls c d1|c d1 o|c a|cls c a x|c a x y
                    |cls c a x y|cls c a f|cls c a f];
      try discriminate Hc; try (destruct cls; discriminate Hc).
    cbn [attr_connect]. destruct (_ && _); discriminate.
  - destruct (isinstance pkt (ScanReqC AuxScanReqMessage)); [discriminate|].
    destruct (isinstance pkt (ExtC AuxAdvIndMessage)) eqn:Ha.
    + destruct (isinstance_ext_inv _ _ Ha) as (cls & c & a & f & ->).
      cbn [attr_ext]. destruct (AdvExt.AuxPtr f); [discriminate|].
      rewrite andb_true_r. unfold attr_AdvMode. cbn [attr_ext rbind].
      destruct (SnifferState_eqb _ _); [|discriminate].
      destruct (AdvExt.AdvMode f) as [m|]; [|congruence].
      destruct (m =? 2); discriminate.
    + rewrite andb_false_r. discriminate.
Qed.

(** A failing state update of a packet that is not an AUX_CONNECT_RSP leaves
    the state as it was. *)
Lemma update_state_raise_frame (pkt : DPacket) (d d' : DState) e :
  isinstance pkt (ExtC AuxConnectRspMessage) = false ->
  update_state pkt d = (Raise e, d') -> d' = d.
Proof.
  intros Hi. unfold update_state, mbind.
  destruct (update_rules pkt d) as [[[]|e1] d1] eqn:Hr.
  - destruct (clear_pending_frame pkt d1) as (d2 & -> & _). discriminate.
  - intros H. injection H as _ <-. exact (update_rules_raise_frame _ _ _ _ Hi Hr).
Qed.

(** C3. Whenever the entry point gives back a raw record it is the record
    it was called with, and the state is untouched when the failure comes
    from the dispatcher, from a constructor, or from the update for a packet
    that is not an AUX_CONNECT_RSP. The update for an AUX_CONNECT_RSP met
    with an empty pending slot fails after two assignments: the call returns
    the raw record and the tracked access address is lost. *)
Theorem C3_decode_failure_containment :
  (forall pkt dstate obj p,
      fst (decode pkt dstate obj) = Raw p ->
      p = pkt /\
      ((forall dpkt, dispatch pkt dstate obj = Ok dpkt ->
                     isinstance dpkt (ExtC AuxConnectRspMessage) = false) ->
       snd (decode pkt dstate obj) = dstate)) /\
  (exists d',
      decode connect_rsp_record (Some tracking_state) 1
      = (Raw connect_rsp_record, Some d') /\
      cur_aa tracking_state = Some 0x12345678 /\
      cur_aa d' = None /\
      d' <> tracking_state).
Proof.
  split.
  - intros pkt dstate obj p. unfold decode, dispatch.
    destruct (if PacketMessage.aa pkt =? BLE_ADV_AA then _ else _)
      as [dpkt|e]; cycle 1.
    { cbn. intros H. injection H as <-. split; reflexivity. }
    destruct dstate as [d|]; [|discriminate].
    destruct (update_state dpkt d) as [[[]|e] d'] eqn:Hu; [discriminate|].
    cbn. intros H. injection H as <-. split; [reflexivity|].
    intros Hn. f_equal.
    exact (update_state_raise_frame _ _ _ _ (Hn dpkt eq_refl) Hu).
  - eexists. split; [vm_compute; reflexivity|].
    repeat split. discriminate.
Qed.

(** ** Dispatch on the advertising channels *)

Lemma getitem_ok (s : bytes) (i : Z) :
  0 <= i < len s -> exists v, getitem s i = Ok v.
Proof.
  intros Hi. unfold getitem.
  destruct (Z.ltb_spec i 0); [lia|].
  destruct (Z.leb_spec 0 i); [|lia].
  destruct (Z.ltb_spec i (len s)); [|lia]. cbn [andb].
  destruct (nth_error s (Z.to_nat i)) as [b|] eqn:E; [eauto|].
  apply nth_error_None in E. unfold len in Hi. lia.
Qed.

Lemma AdvertMessage_init_ok (pkt : PacketMessage.t) :
  2 <= len (PacketMessage.body pkt) ->
  exists a, AdvertMessage_init pkt = Ok (DPacketMessage_init pkt, a).
Proof.
  intros Hl. unfold AdvertMessage_init. cbn [DPacketMessage_init PacketMessage.body].
  destruct (getitem_ok (PacketMessage.body pkt) 0) as (v0 & ->); [lia|].
  destruct (getitem_ok (PacketMessage.body pkt) 1) as (v1 & ->); [lia|].
  cbn [rbind]. eauto.
Qed.

(** An extended-advertising constructor only needs the two header bytes:
    whatever happens during the walk is dropped. *)
Lemma construct_ext_ok (cls : ExtCls) (pkt : PacketMessage.t) (obj : nat) :
  2 <= len (PacketMessage.body pkt) ->
  exists a f,
    construct (ExtC cls) pkt obj = Ok (MkExt cls (DPacketMessage_init pkt) a f) /\
    f = snd (ext_header_walk obj (PacketMessage.body pkt) AdvExt.empty).
Proof.
  intros Hl. cbn [construct]. unfold AdvExtIndMessage_init.
  destruct (AdvertMessage_init_ok pkt Hl) as (a & ->). cbn [rbind].
  cbn [DPacketMessage_init PacketMessage.body].
  destruct (ext_header_walk obj (PacketMessage.body pkt) AdvExt.empty) as [r f].
  exists a, f. split; reflexivity.
Qed.

Lemma select_type7 (pkt : PacketMessage.t) (d : DState) b :
  PacketMessage.chan pkt < 37 ->
  getitem (PacketMessage.body pkt) 0 = Ok b -> Z.land b 0xF = 7 ->
  forall ts chan, ts = PacketMessage.ts pkt -> chan = PacketMessage.chan pkt ->
  (scan_rsp_due d ts ->
   AdvertMessage_select pkt (Some d) = Ok (ExtC AuxScanRspMessage)) /\
  (~ scan_rsp_due d ts -> chain_due d chan ts ->
   AdvertMessage_select pkt (Some d) = Ok (ExtC AuxChainIndMessage)) /\
  (~ scan_rsp_due d ts -> ~ chain_due d chan ts ->
   AdvertMessage_select pkt (Some d) = Ok (ExtC AuxAdvIndMessage)).
Proof.
  intros Hc Hb Hn ts chan -> ->. unfold AdvertMessage_select.
  rewrite Hb. cbn [rbind]. rewrite Hn.
  destruct (Z.geb_spec (PacketMessage.chan pkt) 37) as [|_]; [lia|].
  cbn [Z.eqb Pos.eqb].
  assert ((match aux_pending_scan_rsp d with
           | Some deadline =>
               truthy_float deadline && PrimFloat.ltb (PacketMessage.ts pkt) deadline
           | None => false
           end) = true <-> scan_rsp_due d (PacketMessage.ts pkt)) as Hscan.
  { unfold scan_rsp_due, truthy_float. destruct (aux_pending_scan_rsp d) as [dl|].
    - rewrite andb_true_iff, negb_true_iff. split.
      + intros [H1 H2]. exists dl. auto.
      + intros (dl' & E & H1 & H2). injection E as <-. auto.
    - split; [discriminate|]. intros (dl' & E & _). discriminate. }
  assert ((match aux_pending_chain d with
           | Some (_, chain_chan, deadline) =>
               (PacketMessage.chan pkt =? chain_chan)
               && PrimFloat.ltb (PacketMessage.ts pkt) deadline
           | None => false
           end) = true <->
          chain_due d (PacketMessage.chan pkt) (PacketMessage.ts pkt)) as Hchain.
  { unfold chain_due. destruct (aux_pending_chain d) as [[[adi cc] dl]|].
    - rewrite andb_true_iff, Z.eqb_eq. split.
      + intros [H1 H2]. exists adi, dl. subst cc. auto.
      + intros (adi' & dl' & E & H2). injection E as <- <- <-. auto.
    - split; [discriminate|]. intros (adi' & dl' & E & _). discriminate. }
  destruct (match aux_pending_scan_rsp d with Some _ => _ | None => _ end).
  - repeat split; auto; intros Hs; exfalso; apply Hs, Hscan; reflexivity.
  - assert (~ scan_rsp_due d (PacketMessage.ts pkt)) as Hns by (rewrite <- Hscan; discriminate).
    destruct (match aux_pending_chain d with Some _ => _ | None => _ end).
    + repeat split; auto; try contradiction.
      intros _ Hnc. exfalso. apply Hnc, Hchain. reflexivity.
    + assert (~ chain_due d (PacketMessage.chan pkt) (PacketMessage.ts pkt)) as Hnc by (rewrite <- Hchain; discriminate).
      repeat split; auto; contradiction.
Qed.

Lemma deadline_ahead_not_zero (ts deadline : float) :
  PrimFloat.leb 0 ts = true -> PrimFloat.ltb ts deadline = true ->
  PrimFloat.eqb deadline 0 = false.
Proof.
  rewrite FloatAxioms.leb_spec, FloatAxioms.ltb_spec, FloatAxioms.eqb_spec.
  change (FloatOps.Prim2SF 0) with (SpecFloat.S754_zero false).
  destruct (FloatOps.Prim2SF ts) as [s|s| |s m e],
           (FloatOps.Prim2SF deadline) as [s'|s'| |s' m' e'];
    try destruct s; try destruct s'; cbn; try reflexivity; try discriminate.
Qed.

Lemma scan_rsp_pending_due (d : DState) (ts : float) :
  PrimFloat.leb 0 ts = true -> (scan_rsp_pending d ts <-> scan_rsp_due d ts).
Proof.
  intros Hts. unfold scan_rsp_pending, scan_rsp_due. split.
  - intros (dl & Hd & Hlt). exists dl.
    split; [exact Hd|]. split; [|exact Hlt].
    exact (deadline_ahead_not_zero ts dl Hts Hlt).
  - intros (dl & Hd & _ & Hlt). exists dl. split; assumption.
Qed.

(** C4. For every advertising-channel record on a secondary channel with
    PDU-type nibble 7 (and its two header bytes) whose capture timestamp
    [ts] is not negative, decoded with a decoder state, the dispatcher
    returns an AUX_SCAN_RSP if a pending scan-response deadline exists and
    [ts] is strictly before it; else an AUX_CHAIN_IND if a chain is pending
    on the record's channel and [ts] is strictly before its deadline; else
    an AUX_ADV_IND. *)
Theorem C4_ambiguous_aux_dispatch (pkt : PacketMessage.t) (d : DState)
    (obj : nat) b :
  PacketMessage.chan pkt < 37 ->
  getitem (PacketMessage.body pkt) 0 = Ok b -> Z.land b 0xF = 7 ->
  2 <= len (PacketMessage.body pkt) ->
  PrimFloat.leb 0 (PacketMessage.ts pkt) = true ->
  exists dpkt,
    AdvertMessage_decode pkt (Some d) obj = Ok dpkt /\
    (scan_rsp_pending d (PacketMessage.ts pkt) ->
     class_of dpkt = ExtC AuxScanRspMessage) /\
    (~ scan_rsp_pending d (PacketMessage.ts pkt) ->
     chain_due d (PacketMessage.chan pkt) (PacketMessage.ts pkt) ->
     class_of dpkt = ExtC AuxChainIndMessage) /\
    (~ scan_rsp_pending d (PacketMessage.ts pkt) ->
     ~ chain_due d (PacketMessage.chan pkt) (PacketMessage.ts pkt) ->
     class_of dpkt = ExtC AuxAdvIndMessage).
Proof.
  intros Hc Hb Hn Hl Hts.
  pose proof (scan_rsp_pending_due d _ Hts) as Hiff.
  destruct (select_type7 pkt d b Hc Hb Hn _ _ eq_refl eq_refl) as (H1 & H2 & H3).
  rewrite <- Hiff in H1, H2, H3.
  assert (exists cls, AdvertMessage_select pkt (Some d) = Ok (ExtC cls)) as (cls & Hs).
  { unfold AdvertMessage_select. rewrite Hb. cbn [rbind]. rewrite Hn.
    destruct (PacketMessage.chan pkt >=? 37) eqn:E; [lia|]. cbn [Z.eqb Pos.eqb].
    destruct (match aux_pending_scan_rsp d with Some _ => _ | None => _ end);
      [eauto|].
    destruct (match aux_pending_chain d with Some _ => _ | None => _ end); eauto. }
  destruct (construct_ext_ok cls pkt obj Hl) as (a & f & Hk & _).
  exists (MkExt cls (DPacketMessage_init pkt) a f). split.
  - unfold AdvertMessage_decode. rewrite Hs. exact Hk.
  - cbn [class_of]. rewrite Hs in H1, H2, H3.
    repeat split; intros;
      [assert (Ok (ExtC cls) = Ok (ExtC AuxScanRspMessage)) as E by auto
      |assert (Ok (ExtC cls) = Ok (ExtC AuxChainIndMessage)) as E by auto
      |assert (Ok (ExtC cls) = Ok (ExtC AuxAdvIndMessage)) as E by auto];
      injection E as ->; reflexivity.
Qed.

Lemma C4_ambiguous_aux_dispatch_witness :
  exists dpkt,
    AdvertMessage_decode (ambiguous_record 1.0003%float 5)
      (Some (set_aux_pending_scan_rsp (Some 1.0005%float)
               (empty_state (OTHER_STATE 0)))) 2 = Ok dpkt /\
    class_of dpkt = ExtC AuxScanRspMessage.
Proof.
  destruct (C4_ambiguous_aux_dispatch (ambiguous_record 1.0003%float 5)
              (set_aux_pending_scan_rsp (Some 1.0005%float)
                 (empty_state (OTHER_STATE 0))) 2 7)
    as (dpkt & Hd & H1 & _).
  - cbn. lia.
  - reflexivity.
  - reflexivity.
  - cbn. lia.
  - reflexivity.
  - exists dpkt. split; [exact Hd|]. apply H1.
    exists 1.0005%float. split; reflexivity.
Defined.

(** The hypothesis on the timestamp cannot be dropped: the dispatcher
    tests the deadline by its truth value, so a deadline of [0.0] counts as
    no deadline. An AUX_SCAN_REQ at [ts = -0.0005] arms the deadline [0.0],
    and the PDU-type-7 record that follows at [ts = -0.0003], strictly
    before it, is dispatched as AUX_ADV_IND. *)
Lemma zero_deadline_counts_as_absent :
  exists d deadline,
    snd (decode (scan_req_record (-0.0005)%float)
           (Some (empty_state (OTHER_STATE 0))) 1) = Some d /\
    aux_pending_scan_rsp d = Some deadline /\
    PrimFloat.ltb (PacketMessage.ts (ambiguous_record (-0.0003)%float 5))
      deadline = true /\
    decoded_type (decode (ambiguous_record (-0.0003)%float 5) (Some d) 2)
    = Some AUX_ADV_IND.
Proof.
  eexists. eexists. split; [vm_compute; reflexivity|].
  split; [reflexivity|]. split; vm_compute; reflexivity.
Qed.

(** The scan correlation scenario: after an AUX_SCAN_REQ at [ts = 1.0], a
    PDU-type-7 record at [ts = 1.0003] is an AUX_SCAN_RSP, and the same
    record at [ts = 1.0006] is an AUX_ADV_IND. *)
Lemma scan_correlation_scenario :
  let d := snd (decode (scan_req_record 1%float)
                  (Some (empty_state (OTHER_STATE 0))) 1) in
  decoded_type (decode (ambiguous_record 1.0003%float 5) d 2)
  = Some AUX_SCAN_RSP /\
  decoded_type (decode (ambiguous_record 1.0006%float 5) d 2)
  = Some AUX_ADV_IND.
Proof. split; vm_compute; reflexivity. Qed.

(** ** Dispatch on the primary channels *)

Lemma nibble_range (b : Z) : 0 <= Z.land b 0xF < 16.
Proof.
  change 0xF with (Z.ones 4). rewrite Z.land_ones by lia.
  apply Z.mod_pos_bound. reflexivity.
Qed.

Lemma slice_len (s : bytes) (lo hi : Z) :
  0 <= lo <= hi -> hi <= len s -> len (slice s lo hi) = hi - lo.
Proof.
  intros H1 H2. unfold slice, slice_bound, len in *.
  destruct (Z.ltb_spec lo 0); [lia|]. destruct (Z.ltb_spec hi 0); [lia|].
  rewrite length_firstn, length_skipn. lia.
Qed.

Lemma ConnectIndMessage_init_ok (cls : ConnectCls) (pkt : PacketMessage.t) :
  36 <= len (PacketMessage.body pkt) ->
  exists a f,
    ConnectIndMessage_init cls pkt = Ok (MkConnect cls (DPacketMessage_init pkt) a f).
Proof.
  intros Hl. unfold ConnectIndMessage_init.
  destruct (AdvertMessage_init_ok pkt) as (a & ->); [lia|]. cbn [rbind].
  cbn [DPacketMessage_init PacketMessage.body].
  set (body := PacketMessage.body pkt) in *.
  unfold unpack_le, unpack_HHHH.
  rewrite !slice_len by lia. cbn [Z.sub Z.eqb Z.opp Z.add Z.pos_sub Pos.eqb
    Pos.pred_double Z.double Z.succ_double Z.pred_double rbind].
  destruct (getitem_ok body 18) as (v18 & ->); [lia|].
  destruct (getitem_ok body 19) as (v19 & ->); [lia|].
  destruct (getitem_ok body 20) as (v20 & ->); [lia|].
  destruct (getitem_ok body 21) as (v21 & ->); [lia|].
  destruct (getitem_ok body 35) as (v35 & ->); [lia|].
  cbn [rbind]. eauto.
Qed.

(** Every class of the primary table can be constructed from a record with
    the two header bytes, a connection request needing its full 36 bytes. *)
Lemma construct_primary_ok (tc : PduClass) (pkt : PacketMessage.t) (obj : nat) :
  In tc (AdvertMessage :: adv_type_classes) ->
  2 <= len (PacketMessage.body pkt) ->
  (tc = ConnectC ConnectIndMessage -> 36 <= len (PacketMessage.body pkt)) ->
  exists dpkt, construct tc pkt obj = Ok dpkt /\ class_of dpkt = tc.
Proof.
  intros Hin Hl Hc.
  destruct (AdvertMessage_init_ok pkt Hl) as (a & Ha).
  cbn [In adv_type_classes] in Hin.
  repeat (destruct Hin as [<-|Hin]); try contradiction; cbn [construct];
    unfold AdvaMessage_init, AdvDirectIndMessage_init, ScanReqMessage_init;
    try (rewrite Ha; cbn [rbind]; eexists; split; reflexivity).
  - destruct (ConnectIndMessage_init_ok ConnectIndMessage pkt (Hc eq_refl))
      as (a' & f & ->). eexists; split; reflexivity.
  - destruct (construct_ext_ok AdvExtIndMessage pkt obj Hl) as (a' & f & E & _).
    cbn [construct] in E. rewrite E. eexists; split; reflexivity.
Qed.

Lemma select_primary (pkt : PacketMessage.t) (dstate : option DState) b :
  37 <= PacketMessage.chan pkt ->
  getitem (PacketMessage.body pkt) 0 = Ok b ->
  exists tc,
    AdvertMessage_select pkt dstate = Ok tc /\
    In tc (AdvertMessage :: adv_type_classes) /\
    pdutype tc = primary_kind (Z.land b 0xF) /\
    (Z.land b 0xF = 5 <-> tc = ConnectC ConnectIndMessage) /\
    (8 <= Z.land b 0xF -> tc = AdvertMessage).
Proof.
  intros Hc Hb. unfold AdvertMessage_select. rewrite Hb. cbn [rbind].
  destruct (Z.geb_spec (PacketMessage.chan pkt) 37) as [_|]; [|lia].
  pose proof (nibble_range b) as Hn.
  set (n := Z.land b 0xF) in *.
  assert (In n (map Z.of_nat (seq 0 16))) as Hcases.
  { replace n with (Z.of_nat (Z.to_nat n)) by lia.
    apply in_map, in_seq. lia. }
  clearbody n. cbn in Hcases.
  repeat (destruct Hcases as [<-|Hcases]); try contradiction;
    (eexists; split; [reflexivity|]);
    (split; [cbn; tauto|]); (split; [reflexivity|]);
    (split; [split; intros E; first [reflexivity|discriminate E]|]);
    intros H; first [reflexivity|exfalso; lia].
Qed.

(** C9. For every advertising-channel record on a primary channel
    (37 and above) the 4-bit PDU-type nibble of the first body byte selects
    0 -> ADV_IND, 1 -> ADV_DIRECT_IND, 2 -> ADV_NONCONN_IND, 3 -> SCAN_REQ,
    4 -> SCAN_RSP, 5 -> CONNECT_IND, 6 -> ADV_SCAN_IND, 7 -> ADV_EXT_IND, and
    every value from 8 to 15 the generic [AdvertMessage]; the choice of the
    class never fails, with or without a decoder state, and the decoded
    packet is of that class once the body holds the bytes its constructor
    reads (two, or 36 for a CONNECT_IND). *)
Theorem C9_primary_dispatch (pkt : PacketMessage.t) (dstate : option DState)
    (obj : nat) b :
  37 <= PacketMessage.chan pkt ->
  getitem (PacketMessage.body pkt) 0 = Ok b ->
  exists tc,
    AdvertMessage_select pkt dstate = Ok tc /\
    pdutype tc = primary_kind (Z.land b 0xF) /\
    (8 <= Z.land b 0xF -> tc = AdvertMessage) /\
    (2 <= len (PacketMessage.body pkt) ->
     (Z.land b 0xF = 5 -> 36 <= len (PacketMessage.body pkt)) ->
     exists dpkt,
       AdvertMessage_decode pkt dstate obj = Ok dpkt /\ class_of dpkt = tc).
Proof.
  intros Hc Hb.
  destruct (select_primary pkt dstate b Hc Hb) as (tc & Hs & Hin & Hk & H5 & H8).
  exists tc. repeat split; try assumption.
  intros Hl H36. unfold AdvertMessage_decode. rewrite Hs. cbn [rbind].
  apply construct_primary_ok; try assumption.
  intros E. apply H36, H5, E.
Qed.

Lemma C9_primary_dispatch_witness :
  exists tc,
    AdvertMessage_select (primary_record x46) None = Ok tc /\
    pdutype tc = ADV_SCAN_IND.
Proof.
  destruct (C9_primary_dispatch (primary_record x46) None 0 0x46)
    as (tc & Hs & Hk & _).
  - cbn. lia.
  - reflexivity.
  - exists tc. split; [exact Hs|exact Hk].
Defined.

(** ** The common header of a decoded packet *)

Lemma AdvertMessage_init_self (pkt self : PacketMessage.t) a :
  AdvertMessage_init pkt = Ok (self, a) -> self = DPacketMessage_init pkt.
Proof.
  unfold AdvertMessage_init.
  destruct (getitem _ 0); [|discriminate]. cbn [rbind].
  destruct (getitem _ 1); [|discriminate]. cbn [rbind].
  intros H. injection H as <- _. reflexivity.
Qed.

Lemma DataMessage_init_self (pkt self : PacketMessage.t) d :
  DataMessage_init pkt = Ok (self, d) -> self = DPacketMessage_init pkt.
Proof.
  unfold DataMessage_init.
  destruct (getitem _ 0); [|discriminate]. cbn [rbind].
  destruct (getitem _ 1); [|discriminate]. cbn [rbind].
  intros H. injection H as <- _. reflexivity.
Qed.

Ltac with_advert_init :=
  match goal with
  | |- context [AdvertMessage_init ?p] =>
      let E := fresh "E" in
      destruct (AdvertMessage_init p) as [[? ?]|] eqn:E;
      [apply AdvertMessage_init_self in E; subst; cbn [rbind]
      |discriminate]
  | |- context [DataMessage_init ?p] =>
      let E := fresh "E" in
      destruct (DataMessage_init p) as [[? ?]|] eqn:E;
      [apply DataMessage_init_self in E; subst; cbn [rbind]
      |discriminate]
  end.

Ltac step_result :=
  match goal with
  | |- context [rbind ?r _] =>
      destruct r as [?|?]; cbn [rbind]; [|discriminate]
  end.

(** Whatever the class, the constructor stores the copy made by
    [DPacketMessage.__init__]. *)
Lemma construct_common (tc : PduClass) (pkt : PacketMessage.t) (obj : nat) dpkt :
  construct tc pkt obj = Ok dpkt -> common dpkt = DPacketMessage_init pkt.
Proof.
  destruct tc; cbn [construct];
    unfold LlControlMessage_init, AdvaMessage_init, AdvDirectIndMessage_init,
      ScanReqMessage_init, ConnectIndMessage_init, AdvExtIndMessage_init.
  - intros H. injection H as <-. reflexivity.
  - with_advert_init. intros H. injection H as <-. reflexivity.
  - with_advert_init. step_result. intros H. injection H as <-. reflexivity.
  - with_advert_init. intros H. injection H as <-. reflexivity.
  - with_advert_init. intros H. injection H as <-. reflexivity.
  - with_advert_init. intros H. injection H as <-. reflexivity.
  - with_advert_init. intros H. injection H as <-. reflexivity.
  - with_advert_init. repeat step_result.
    repeat match goal with
           | |- context [match ?p with pair _ _ => _ end] => destruct p
           end.
    repeat step_result. intros H. injection H as <-. reflexivity.
  - with_advert_init. destruct (ext_header_walk _ _ _).
    intros H. injection H as <-. reflexivity.
Qed.

Lemma DPacketMessage_init_same (pkt : PacketMessage.t) :
  same_header (DPacketMessage_init pkt) pkt.
Proof. repeat split. Qed.

Lemma dispatch_common (pkt : PacketMessage.t) (dstate : option DState) obj dpkt :
  (if PacketMessage.aa pkt =? BLE_ADV_AA
   then AdvertMessage_decode pkt dstate obj
   else DataMessage_decode pkt dstate obj) = Ok dpkt ->
  common dpkt = DPacketMessage_init pkt.
Proof.
  unfold AdvertMessage_decode, DataMessage_decode.
  destruct (PacketMessage.aa pkt =? BLE_ADV_AA).
  - destruct (AdvertMessage_select pkt dstate); [|discriminate].
    apply construct_common.
  - destruct (getitem _ 0); [|discriminate]. cbn [rbind].
    destruct (class_at _ _); [|discriminate]. apply construct_common.
Qed.

(** C10. Whenever the entry point returns a decoded packet, the packet
    carries the ten attributes of the raw record unchanged (capture
    timestamp, epoch timestamp, access address, RSSI, channel, PHY, body,
    direction flag, event counter, CRC byte-order flag); the raw record is
    only read, and it is that very record that comes back when decoding
    fails. *)
Theorem C10_common_header_preserved (pkt : PacketMessage.t)
    (dstate : option DState) (obj : nat) :
  match fst (decode pkt dstate obj) with
  | Dpkt dpkt => same_header (common dpkt) pkt
  | Raw p => p = pkt
  end.
Proof.
  unfold decode.
  destruct (if PacketMessage.aa pkt =? BLE_ADV_AA then _ else _)
    as [dpkt|e] eqn:E; [|reflexivity].
  apply dispatch_common in E.
  destruct dstate as [d|]; cbn [fst].
  - destruct (update_state dpkt d) as [[[]|e] d']; cbn [fst]; [|reflexivity].
    rewrite E. apply DPacketMessage_init_same.
  - rewrite E. apply DPacketMessage_init_same.
Qed.

(** A record that does decode: an ADV_IND on channel 37. *)
Lemma adv_ind_decodes :
  exists dpkt,
    fst (decode adv_ind_record None 0) = Dpkt dpkt /\
    pdutype (class_of dpkt) = ADV_IND /\
    same_header (common dpkt) adv_ind_record.
Proof.
  eexists. split; [vm_compute; reflexivity|]. repeat split.
Qed.

(** ** Decoding without a decoder state *)

Lemma select_stateless (pkt : PacketMessage.t) (d : DState) :
  ~ ambiguous pkt -> PacketMessage.aa pkt = BLE_ADV_AA ->
  AdvertMessage_select pkt None = AdvertMessage_select pkt (Some d).
Proof.
  intros Hna Haa. unfold AdvertMessage_select.
  destruct (getitem (PacketMessage.body pkt) 0) as [b|] eqn:Hb; [|reflexivity].
  cbn [rbind].
  destruct (Z.geb_spec (PacketMessage.chan pkt) 37) as [|Hc]; [reflexivity|].
  destruct (Z.land b 0xF =? 3); [reflexivity|].
  destruct (Z.land b 0xF =? 5); [reflexivity|].
  destruct (Z.eqb_spec (Z.land b 0xF) 7) as [H7|]; [|reflexivity].
  exfalso. apply Hna. repeat split; [assumption|lia|]. exists b. auto.
Qed.

(** C7. Without a decoder state the entry point is the dispatch step
    alone, it has no state to update, and for every record whose kind does
    not depend on the state the dispatch is the one a session would do. On
    a secondary-channel record with PDU-type nibble 7, however, the
    dispatcher reads an attribute of the absent state: the call gives the
    raw record back, where a session with nothing pending decodes an
    AUX_ADV_IND. *)
Theorem C7_decode_without_state :
  (forall pkt obj,
      decode pkt None obj =
      (match dispatch pkt None obj with
       | Ok dpkt => Dpkt dpkt
       | Raise _ => Raw pkt
       end, None)) /\
  (forall pkt d obj,
      ~ ambiguous pkt -> dispatch pkt None obj = dispatch pkt (Some d) obj) /\
  (ambiguous (ambiguous_record 1%float 5) /\
   decode (ambiguous_record 1%float 5) None 1
   = (Raw (ambiguous_record 1%float 5), None) /\
   decoded_type (decode (ambiguous_record 1%float 5)
                   (Some (empty_state (OTHER_STATE 0))) 1)
   = Some AUX_ADV_IND).
Proof.
  split; [|split].
  - intros pkt obj. unfold decode, dispatch.
    destruct (if PacketMessage.aa pkt =? BLE_ADV_AA then _ else _); reflexivity.
  - intros pkt d obj Hna. unfold dispatch.
    destruct (Z.eqb_spec (PacketMessage.aa pkt) BLE_ADV_AA) as [Haa|];
      [|reflexivity].
    unfold AdvertMessage_decode. rewrite (select_stateless pkt d Hna Haa).
    reflexivity.
  - split; [|split; vm_compute; reflexivity].
    split; [reflexivity|]. split; [cbn; lia|].
    exists 7. split; reflexivity.
Qed.

(** ** Clearing of the pending flags *)

Lemma clear_pending_scan_rsp_clears (pkt : DPacket) (d : DState) deadline :
  aux_pending_scan_rsp d = Some deadline ->
  PrimFloat.eqb deadline 0%float = false ->
  PrimFloat.ltb deadline (PacketMessage.ts (common pkt)) = true
  \/ isinstance pkt (ExtC AuxScanRspMessage) = true ->
  clear_pending_scan_rsp pkt d = (Ok tt, set_aux_pending_scan_rsp None d).
Proof.
  intros Hs Hz Hc. unfold clear_pending_scan_rsp, mbind, get, assign, ret.
  rewrite Hs. unfold truthy_float. rewrite Hz. cbn [negb].
  destruct Hc as [-> | ->]; [reflexivity|].
  rewrite orb_true_r. reflexivity.
Qed.

Lemma clear_pending_chain_expired (pkt : DPacket) (d : DState) adi ch deadline :
  aux_pending_chain d = Some (adi, ch, deadline) ->
  PrimFloat.ltb deadline (PacketMessage.ts (common pkt)) = true ->
  clear_pending_chain pkt d = (Ok tt, set_aux_pending_chain None d).
Proof.
  intros Hs Hc. unfold clear_pending_chain, mbind, get, assign.
  rewrite Hs, Hc. reflexivity.
Qed.

Lemma clear_pending_chain_same_object cls c a f (d : DState) adi ch deadline :
  aux_pending_chain d = Some (adi, ch, deadline) ->
  isinstance (MkExt cls c a f) (ExtC AuxChainIndMessage) = true ->
  PacketMessage.chan c = ch ->
  AdvDataInfo.py_eq (AdvExt.AdvDataInfo f) adi = true ->
  clear_pending_chain (MkExt cls c a f) d
  = (Ok tt, set_aux_pending_chain None d).
Proof.
  intros Hs Hi Hc He. unfold clear_pending_chain, mbind, get, assign, lift.
  rewrite Hs, Hi. cbn [common attr_ext andb]. subst ch.
  rewrite Z.eqb_refl, He. destruct (PrimFloat.ltb deadline _); reflexivity.
Qed.

(** C6. The clearing applied after the kind-specific rules ([update_state]
    is [update_rules] followed by [clear_pending]) never raises; it clears a
    non-zero pending scan-response deadline when the packet's timestamp has
    passed it or the packet is an AUX_SCAN_RSP, and clears the pending chain
    when the timestamp has passed its deadline or the packet is an
    AUX_CHAIN_IND on the slot's channel whose [AdvDataInfo] is the very
    object stored in the slot (or both are [None]). Two [AdvDataInfo]
    objects with equal DID and SID are not equal for the code: the
    continuation of the chain armed by [aux_adv_record], on the expected
    channel and with the same DID and SID, leaves the chain slot set. *)
Theorem C6_clear_pending :
  (forall pkt d,
      exists d', clear_pending pkt d = (Ok tt, d') /\
        (forall deadline,
            aux_pending_scan_rsp d = Some deadline ->
            PrimFloat.eqb deadline 0%float = false ->
            PrimFloat.ltb deadline (PacketMessage.ts (common pkt)) = true
            \/ isinstance pkt (ExtC AuxScanRspMessage) = true ->
            aux_pending_scan_rsp d' = None) /\
        (forall adi ch deadline,
            aux_pending_chain d = Some (adi, ch, deadline) ->
            PrimFloat.ltb deadline (PacketMessage.ts (common pkt)) = true ->
            aux_pending_chain d' = None) /\
        (forall adi ch deadline f,
            aux_pending_chain d = Some (adi, ch, deadline) ->
            isinstance pkt (ExtC AuxChainIndMessage) = true ->
            PacketMessage.chan (common pkt) = ch ->
            attr_ext pkt = Ok f ->
            AdvDataInfo.py_eq (AdvExt.AdvDataInfo f) adi = true ->
            aux_pending_chain d' = None)) /\
  (exists d1 adi1 deadline dpkt f adi2 d2,
      snd (decode aux_adv_record (Some (empty_state (OTHER_STATE 0))) 1)
      = Some d1 /\
      aux_pending_chain d1 = Some (Some adi1, 5, deadline) /\
      decode chain_record (Some d1) 2 = (Dpkt dpkt, Some d2) /\
      class_of dpkt = ExtC AuxChainIndMessage /\
      PacketMessage.chan (common dpkt) = 5 /\
      attr_ext dpkt = Ok f /\
      AdvExt.AdvDataInfo f = Some adi2 /\
      AdvDataInfo.did adi2 = AdvDataInfo.did adi1 /\
      AdvDataInfo.sid adi2 = AdvDataInfo.sid adi1 /\
      PrimFloat.ltb deadline (PacketMessage.ts (common dpkt)) = false /\
      aux_pending_chain d2 = Some (Some adi1, 5, deadline)).
Proof.
  split.
  - intros pkt d.
    destruct (clear_pending_scan_rsp_frame pkt d) as (d1 & E1 & _ & Hch1).
    destruct (clear_pending_chain_frame pkt d1) as (d2 & E2 & _ & Hsr2).
    exists d2. split; [unfold clear_pending, mbind; rewrite E1; exact E2|].
    split; [|split].
    + intros dl Hs Hz Hc. rewrite Hsr2.
      rewrite (clear_pending_scan_rsp_clears pkt d dl Hs Hz Hc) in E1.
      injection E1 as <-. reflexivity.
    + intros adi ch dl Hs Hc. rewrite <- Hch1 in Hs.
      rewrite (clear_pending_chain_expired pkt d1 adi ch dl Hs Hc) in E2.
      injection E2 as <-. reflexivity.
    + intros adi ch dl f Hs Hi Hc Hf He. rewrite <- Hch1 in Hs.
      destruct (isinstance_ext_inv _ _ Hi) as (cls & c & a & f' & ->).
      cbn [attr_ext] in Hf. injection Hf as ->. cbn [common] in Hc.
      rewrite (clear_pending_chain_same_object cls c a f d1 adi ch dl Hs Hi Hc He)
        in E2.
      injection E2 as <-. reflexivity.
  - do 7 eexists.
    split; [vm_compute; reflexivity|].
    split; [reflexivity|].
    split; [vm_compute; reflexivity|].
    repeat split.
Qed.

(** ** The walk over the extended advertising header *)

Lemma slice_segment (s : bytes) (lo hi : Z) : segment_of (slice s lo hi) s.
Proof.
  unfold slice, segment_of.
  set (l := Z.to_nat (slice_bound (len s) lo)).
  set (n := Z.to_nat (slice_bound (len s) hi - slice_bound (len s) lo)).
  exists (firstn l s), (skipn n (skipn l s)).
  now rewrite (firstn_skipn n), (firstn_skipn l).
Qed.

(** One case split of the walk: on a presence flag, a bound check or the
    outcome of a read. *)
Ltac walk_step :=
  match goal with
  | |- context [if ?c then _ else _] => destruct c eqn:?
  | |- context [match ?x with Ok _ => _ | Raise _ => _ end] => destruct x eqn:?
  end; cbn beta iota.

Ltac walk_cases :=
  unfold ext_header_walk, mbind, lift, assign, ret, raise; repeat walk_step.

Lemma walk_in_bounds obj body r f :
  ext_header_walk obj body AdvExt.empty = (r, f) -> fields_in_bounds f body.
Proof.
  walk_cases.
  all: intros H; injection H as <- <-.
  all: repeat split; cbn; intros x Hx; try discriminate Hx;
    injection Hx as <-; apply slice_segment.
Qed.

Lemma walk_inconsistent obj body l :
  getitem body 2 = Ok l -> len body < Z.land l 0x3F + 1 ->
  exists f, ext_header_walk obj body AdvExt.empty = (Raise ValueError, f) /\
    presence f = repeat false 8.
Proof.
  intros Hl Hlt. unfold ext_header_walk, mbind, lift, assign, ret, raise.
  rewrite Hl.
  destruct (len body <? 3); [eexists; split; reflexivity|]. cbn beta iota.
  destruct (Z.ltb_spec (len body) (Z.land l 0x3F + 1)); [|lia].
  eexists; split; reflexivity.
Qed.

Lemma slice_fits (s : bytes) (p n : Z) :
  0 <= p -> 0 < n ->
  (p + n <= len s -> len (slice s p (p + n)) = n) /\
  (len s < p + n -> len (slice s p (p + n)) < n).
Proof.
  intros Hp Hn. unfold slice, slice_bound, len.
  destruct (Z.ltb_spec p 0); [lia|]. destruct (Z.ltb_spec (p + n) 0); [lia|].
  rewrite length_firstn, length_skipn. lia.
Qed.

Lemma getitem_fits (s : bytes) (p : Z) :
  0 <= p ->
  (p + 1 <= len s -> exists v, getitem s p = Ok v) /\
  (len s < p + 1 -> getitem s p = Raise IndexError).
Proof.
  intros Hp. unfold getitem.
  destruct (Z.ltb_spec p 0); [lia|].
  destruct (Z.leb_spec 0 p); [|lia].
  destruct (Z.ltb_spec p (len s)); cbn [andb]; split; try lia.
  - intros _. destruct (nth_error s (Z.to_nat p)) eqn:E; [eauto|].
    apply nth_error_None in E. unfold len in *. lia.
  - reflexivity.
Qed.

Lemma AdvDataInfo_init_fits (obj : nat) (adi : bytes) :
  (2 <= len adi -> exists v, AdvDataInfo.init obj adi = Ok v) /\
  (len adi < 2 -> AdvDataInfo.init obj adi = Raise IndexError).
Proof.
  unfold AdvDataInfo.init.
  destruct (getitem_fits adi 0 ltac:(lia)) as [H0 H0'].
  destruct (getitem_fits adi 1 ltac:(lia)) as [H1 H1'].
  split; intros H.
  - destruct H0 as (v0 & ->); [lia|]. destruct H1 as (v1 & ->); [lia|].
    cbn [rbind]. eauto.
  - destruct (Z.lt_ge_cases (len adi) 1).
    + rewrite H0' by lia. reflexivity.
    + destruct H0 as (v0 & ->); [lia|]. cbn [rbind]. rewrite H1' by lia.
      reflexivity.
Qed.

Lemma AuxPtr_init_fits (ptr : bytes) :
  (3 <= len ptr -> exists v, AuxPtr.init ptr = Ok v) /\
  (len ptr < 3 -> AuxPtr.init ptr = Raise IndexError).
Proof.
  unfold AuxPtr.init.
  destruct (getitem_fits ptr 0 ltac:(lia)) as [H0 H0'].
  destruct (getitem_fits ptr 1 ltac:(lia)) as [H1 H1'].
  destruct (getitem_fits ptr 2 ltac:(lia)) as [H2 H2'].
  split; intros H.
  - destruct H0 as (v0 & ->); [lia|]. destruct H1 as (v1 & ->); [lia|].
    destruct H2 as (v2 & ->); [lia|]. cbn [rbind]. eauto.
  - destruct (Z.lt_ge_cases (len ptr) 1).
    + rewrite H0' by lia. reflexivity.
    + destruct H0 as (v0 & ->); [lia|]. cbn [rbind]. rewrite H2' by lia.
      reflexivity.
Qed.

Lemma unpack_b_fits (s : bytes) :
  (len s = 1 -> exists v, unpack_b s = Ok v) /\
  (len s < 1 -> exists e, unpack_b s = Raise e).
Proof.
  destruct s as [|b [|b' s]]; unfold len; cbn [length unpack_b]; split;
    intros H; try lia; eauto.
Qed.

(** What the outcome of each kind of read says about the length of the
    body. *)
Lemma getitem_bound (s : bytes) (p : Z) r :
  0 <= p -> getitem s p = r ->
  match r with Ok _ => p + 1 <= len s | Raise _ => len s < p + 1 end.
Proof.
  intros Hp <-. destruct (getitem_fits s p Hp) as [Hok Hraise].
  destruct (Z.le_gt_cases (p + 1) (len s)) as [H|H].
  - destruct (Hok H) as (v & ->). exact H.
  - rewrite (Hraise H). exact H.
Qed.

Lemma AdvDataInfo_bound (obj : nat) (s : bytes) (p : Z) r :
  0 <= p -> AdvDataInfo.init obj (slice s p (p + 2)) = r ->
  match r with Ok _ => p + 2 <= len s | Raise _ => len s < p + 2 end.
Proof.
  intros Hp <-. destruct (AdvDataInfo_init_fits obj (slice s p (p + 2))) as [Hok Hraise].
  destruct (slice_fits s p 2 Hp ltac:(lia)) as [Hin Hout].
  destruct (Z.le_gt_cases (p + 2) (len s)) as [H|H].
  - destruct Hok as (v & ->); [rewrite Hin; lia|exact H].
  - rewrite Hraise by (specialize (Hout H); lia). exact H.
Qed.

Lemma AuxPtr_bound (s : bytes) (p : Z) r :
  0 <= p -> AuxPtr.init (slice s p (p + 3)) = r ->
  match r with Ok _ => p + 3 <= len s | Raise _ => len s < p + 3 end.
Proof.
  intros Hp <-. destruct (AuxPtr_init_fits (slice s p (p + 3))) as [Hok Hraise].
  destruct (slice_fits s p 3 Hp ltac:(lia)) as [Hin Hout].
  destruct (Z.le_gt_cases (p + 3) (len s)) as [H|H].
  - destruct Hok as (v & ->); [rewrite Hin; lia|exact H].
  - rewrite Hraise by (specialize (Hout H); lia). exact H.
Qed.

Lemma unpack_b_bound (s : bytes) (p : Z) r :
  0 <= p -> unpack_b (slice s p (p + 1)) = r ->
  match r with Ok _ => p + 1 <= len s | Raise _ => len s < p + 1 end.
Proof.
  intros Hp <-. destruct (unpack_b_fits (slice s p (p + 1))) as [Hok Hraise].
  destruct (slice_fits s p 1 Hp ltac:(lia)) as [Hin Hout].
  destruct (Z.le_gt_cases (p + 1) (len s)) as [H|H].
  - destruct Hok as (v & ->); [rewrite Hin; lia|exact H].
  - destruct Hraise as (e & ->); [specialize (Hout H); lia|exact H].
Qed.

Lemma first_failure_unique (body : bytes) (hdrFlags : Z) (j k : nat) :
  first_failure body hdrFlags j -> first_failure body hdrFlags k -> j = k.
Proof.
  intros [Hj Hj'] [Hk Hk'].
  destruct (Nat.lt_trichotomy j k) as [H|[H|H]]; [|exact H|].
  - destruct (Hk' j H Hj).
  - destruct (Hj' k H Hk).
Qed.

Ltac read_bounds :=
  repeat match goal with
         | H : (_ <? _) = true |- _ => apply Z.ltb_lt in H
         | H : (_ <? _) = false |- _ => apply Z.ltb_ge in H
         | H : getitem _ _ = _ |- _ =>
             apply getitem_bound in H; [cbn beta iota in H|lia]
         | H : AdvDataInfo.init _ _ = _ |- _ =>
             apply AdvDataInfo_bound in H; [cbn beta iota in H|lia]
         | H : AuxPtr.init _ = _ |- _ =>
             apply AuxPtr_bound in H; [cbn beta iota in H|lia]
         | H : unpack_b _ = _ |- _ =>
             apply unpack_b_bound in H; [cbn beta iota in H|lia]
         end.

Ltac known_flags :=
  repeat match goal with
         | H : truthy (Z.land _ _) = _ |- _ => rewrite !H
         end.

Ltac unfold_fields :=
  unfold read_fails, consumed_before, flagged_size, flag_bits;
  cbn [map combine field_sizes checked_read nth firstn fold_right].

(** In a leaf of the walk: no read fails. *)
Ltac no_read_fails body hdrFlags :=
  assert (forall k, ~ read_fails body hdrFlags k)
    by (let k := fresh "k" in
        intros k; do 8 (try destruct k as [|k]);
        unfold_fields; known_flags; intros (? & ? & ?);
        first [discriminate | lia]).

(** In a leaf of the walk: the [k]-th field is the first whose read
    fails. *)
Ltac fails_first_at body hdrFlags k :=
  assert (first_failure body hdrFlags k)
    by (split;
        [ unfold_fields; known_flags;
          split; [reflexivity|split; [reflexivity|lia]]
        | let j := fresh "j" in
          let Hj := fresh "Hj" in
          intros j Hj; do 7 (try destruct j as [|j]); try lia;
          unfold_fields; known_flags; intros (? & ? & ?);
          first [discriminate | lia] ]).

Lemma walk_outcome obj body l hdrFlags r f :
  getitem body 2 = Ok l -> getitem body 3 = Ok hdrFlags ->
  Z.land l 0x3F + 1 <= len body ->
  ext_header_walk obj body AdvExt.empty = (r, f) ->
  (forall k, first_failure body hdrFlags k ->
     (exists e, r = Raise e) /\
     firstn k (presence f) = firstn k (flag_bits hdrFlags) /\
     skipn k (presence f) = repeat false (8 - k)) /\
  ((forall k, ~ read_fails body hdrFlags k) ->
     r = Ok (Z.max (4 + flagged_size hdrFlags) (3 + Z.land l 0x3F)) /\
     presence f
     = flag_bits hdrFlags ++ [1 + flagged_size hdrFlags <? Z.land l 0x3F]).
Proof.
  intros Hl Hf Hlen.
  pose proof (getitem_bound body 3 _ ltac:(lia) Hf) as H4. cbn beta iota in H4.
  unfold ext_header_walk, mbind, lift, assign, ret, raise.
  rewrite Hl, Hf. clear Hl Hf.
  destruct (Z.ltb_spec (len body) 3); [lia|]. cbn beta iota.
  destruct (Z.ltb_spec (len body) (Z.land l 0x3F + 1)); [lia|]. cbn beta iota.
  set (L := Z.land l 0x3F) in *.
  repeat walk_step.
  all: intros Hw; apply pair_equal_spec in Hw; destruct Hw as [<- <-].
  all: read_bounds.
  all: first [ fails_first_at body hdrFlags 2%nat
             | fails_first_at body hdrFlags 3%nat
             | fails_first_at body hdrFlags 4%nat
             | fails_first_at body hdrFlags 6%nat
             | no_read_fails body hdrFlags ].
  all: split;
    [ let k := fresh "k" in
      let Hk := fresh "Hk" in
      intros k Hk;
      match goal with
      | Hff : first_failure _ _ ?k0 |- _ =>
          assert (k = k0) as -> by exact (first_failure_unique _ _ _ _ Hk Hff);
          split; [eexists; reflexivity|];
          unfold flag_bits; cbn [map]; known_flags; split; reflexivity
      | Hnone : forall k, ~ read_fails _ _ k |- _ =>
          destruct (Hnone k (proj1 Hk))
      end
    | let Hn := fresh "Hn" in
      intros Hn;
      match goal with
      | Hff : first_failure _ _ ?k0 |- _ => destruct (Hn k0 (proj1 Hff))
      | _ =>
          split;
          [ f_equal; unfold_fields; known_flags; lia
          | unfold_fields; known_flags; cbn [app];
            match goal with
            | |- context [Z.ltb ?x ?y] => destruct (Z.ltb_spec x y)
            end; first [reflexivity | lia] ]
      end ].
Qed.

Lemma walk_too_short obj body :
  len body < 3 ->
  ext_header_walk obj body AdvExt.empty = (Raise ValueError, AdvExt.empty).
Proof.
  intros H. unfold ext_header_walk, mbind, raise.
  destruct (Z.ltb_spec (len body) 3); [reflexivity|lia].
Qed.

Lemma walk_no_flags obj body l :
  getitem body 2 = Ok l -> Z.land l 0x3F + 1 <= len body -> len body < 4 ->
  exists f, ext_header_walk obj body AdvExt.empty = (Raise IndexError, f) /\
    presence f = repeat false 8.
Proof.
  intros Hl Hlen H4.
  pose proof (getitem_bound body 2 _ ltac:(lia) Hl) as H3. cbn beta iota in H3.
  unfold ext_header_walk, mbind, lift, assign, ret, raise. rewrite Hl.
  destruct (Z.ltb_spec (len body) 3); [lia|]. cbn beta iota.
  destruct (Z.ltb_spec (len body) (Z.land l 0x3F + 1)); [lia|]. cbn beta iota.
  destruct (getitem_fits body 3 ltac:(lia)) as [_ ->]; [|lia].
  eexists. split; reflexivity.
Qed.

(** C5. For every ADV_EXT_IND-family record with its two header bytes the
    constructor returns a packet of the dispatched class, whatever the walk
    meets, and the walk never reads outside the body: its byte-string
    attributes are runs of bytes of the body. The walk raises on a body
    under 3 bytes (nothing assigned), on a body shorter than the declared
    header-body length plus one, on a missing flags byte, and at the first
    flagged field among CTEInfo, AdvDataInfo, AuxPtr and TxPower that does
    not fit in the body; the attributes assigned are then the flagged ones
    before that field, and every attribute from it on is absent. In every
    other case it returns, with every flagged attribute assigned, the ACAD
    assigned when the declared header is longer than the flagged fields,
    and [hdrPos] at the end of the flagged fields or of the declared
    header, whichever is further. So a declared header that does not fit
    is not always refused, and a byte-string field that does not fit is
    never refused: on [inconsistent_body] (7 bytes declared, 5 left) the
    walk returns with a 4-byte AdvA and [hdrPos = 10] in a body of 8; on
    [overlong_body] (1 byte declared) it takes the AdvA that follows the
    declared header; on [short_body] it assigns a 2-byte AdvA and an empty
    TargetA and ends at [hdrPos = 16] in a body of 6. *)
Theorem C5_ext_header_walk :
  (forall (cls : ExtCls) (pkt : PacketMessage.t) (obj : nat),
      2 <= len (PacketMessage.body pkt) ->
      exists a r f,
        ext_header_walk obj (PacketMessage.body pkt) AdvExt.empty = (r, f) /\
        construct (ExtC cls) pkt obj
        = Ok (MkExt cls (DPacketMessage_init pkt) a f) /\
        fields_in_bounds f (PacketMessage.body pkt) /\
        (len (PacketMessage.body pkt) < 3 ->
         r = Raise ValueError /\ f = AdvExt.empty) /\
        (forall l, getitem (PacketMessage.body pkt) 2 = Ok l ->
           (len (PacketMessage.body pkt) < Z.land l 0x3F + 1 ->
            r = Raise ValueError /\ presence f = repeat false 8) /\
           (Z.land l 0x3F + 1 <= len (PacketMessage.body pkt) ->
            len (PacketMessage.body pkt) < 4 ->
            r = Raise IndexError /\ presence f = repeat false 8) /\
           (forall hdrFlags,
               getitem (PacketMessage.body pkt) 3 = Ok hdrFlags ->
               Z.land l 0x3F + 1 <= len (PacketMessage.body pkt) ->
               (forall k,
                   first_failure (PacketMessage.body pkt) hdrFlags k ->
                   (exists e, r = Raise e) /\
                   firstn k (presence f) = firstn k (flag_bits hdrFlags) /\
                   skipn k (presence f) = repeat false (8 - k)) /\
               ((forall k, ~ read_fails (PacketMessage.body pkt) hdrFlags k) ->
                r = Ok (Z.max (4 + flagged_size hdrFlags)
                              (3 + Z.land l 0x3F)) /\
                presence f
                = flag_bits hdrFlags
                  ++ [1 + flagged_size hdrFlags <? Z.land l 0x3F])))) /\
  (exists f,
      ext_header_walk 0 inconsistent_body AdvExt.empty = (Ok 10, f) /\
      getitem inconsistent_body 2 = Ok 7 /\
      len inconsistent_body - 3 = 5 /\
      AdvExt.AdvA f = Some [xa1; xa2; xa3; xa4] /\
      len inconsistent_body < 10) /\
  (exists f,
      ext_header_walk 0 overlong_body AdvExt.empty = (Ok 10, f) /\
      getitem overlong_body 2 = Ok 1 /\
      AdvExt.AdvA f = Some [x01; x02; x03; x04; x05; x06]) /\
  (exists f,
      ext_header_walk 0 short_body AdvExt.empty = (Ok 16, f) /\
      len short_body = 6 /\
      AdvExt.AdvA f = Some [xaa; xbb] /\
      AdvExt.TargetA f = Some []).
Proof.
  split.
  - intros cls pkt obj Hl.
    destruct (construct_ext_ok cls pkt obj Hl) as (a & f & Hk & Hf).
    destruct (ext_header_walk obj (PacketMessage.body pkt) AdvExt.empty)
      as [r f'] eqn:Hw.
    cbn [snd] in Hf. subst f'.
    exists a, r, f. split; [reflexivity|]. split; [exact Hk|].
    split; [exact (walk_in_bounds _ _ _ _ Hw)|].
    split; [|intros l Hg; split; [|split]].
    + intros H3. rewrite (walk_too_short obj _ H3) in Hw.
      apply pair_equal_spec in Hw. destruct Hw as [<- <-]. split; reflexivity.
    + intros Hlt.
      destruct (walk_inconsistent obj _ l Hg Hlt) as (f0 & Hw0 & Hp).
      rewrite Hw in Hw0. apply pair_equal_spec in Hw0.
      destruct Hw0 as [-> ->]. split; [reflexivity|exact Hp].
    + intros Hge H4.
      destruct (walk_no_flags obj _ l Hg Hge H4) as (f0 & Hw0 & Hp).
      rewrite Hw in Hw0. apply pair_equal_spec in Hw0.
      destruct Hw0 as [-> ->]. split; [reflexivity|exact Hp].
    + intros hdrFlags Hfl Hge. exact (walk_outcome _ _ _ _ _ _ Hg Hfl Hge Hw).
  - split; [|split]; eexists; (split; [vm_compute; reflexivity|]);
      repeat split.
Qed.

Lemma C5_ext_header_walk_witness :
  exists a e f,
    construct (ExtC AuxAdvIndMessage) truncated_record 0
    = Ok (MkExt AuxAdvIndMessage (DPacketMessage_init truncated_record) a f) /\
    fst (ext_header_walk 0 (PacketMessage.body truncated_record) AdvExt.empty)
    = Raise e /\
    presence f = [true; false; false; false; false; false; false; false].
Proof.
  destruct (proj1 C5_ext_header_walk AuxAdvIndMessage truncated_record 0%nat)
    as (a & r & f & Hw & Hk & _ & _ & Hwalk).
  - cbn. lia.
  - destruct (Hwalk 7 eq_refl) as (_ & _ & Hfields).
    destruct (Hfields 5 eq_refl) as [Hfail _]; [cbn; lia|].
    destruct (Hfail 2%nat) as ((e & He) & Hpre & Hpost).
    + split.
      * repeat split.
      * intros j Hj (_ & Hc & _).
        destruct j as [|[|j]]; [discriminate Hc|discriminate Hc|lia].
    + exists a, e, f. split; [exact Hk|]. split; [rewrite Hw; exact He|].
      rewrite <- (firstn_skipn 2 (presence f)), Hpre, Hpost. reflexivity.
Defined.

(** The truncated record: the walk raises at the CTEInfo read, after the
    AdvA; the AdvA is the only attribute assigned. *)
Lemma truncated_record_walk :
  exists f,
    ext_header_walk 0 (PacketMessage.body truncated_record) AdvExt.empty
    = (Raise IndexError, f) /\
    presence f = [true; false; false; false; false; false; false; false].
Proof. eexists. split; [vm_compute; reflexivity|reflexivity]. Qed.

(** ** Bounds of the reads *)

Lemma getitem_ok_inv (s : bytes) (i v : Z) :
  getitem s i = Ok v -> 0 <= i -> i < len s /\ 0 <= v < 256.
Proof.
  unfold getitem. intros H Hi.
  destruct (Z.ltb_spec i 0); [lia|].
  destruct (Z.leb_spec 0 i); [|lia].
  destruct (Z.ltb_spec i (len s)); [|discriminate]. cbn [andb] in H.
  destruct (nth_error s (Z.to_nat i)); [|discriminate].
  injection H as <-. split; [assumption|apply int_of_byte_range].
Qed.

Lemma getitem_raise_inv (s : bytes) (i : Z) e :
  getitem s i = Raise e -> 0 <= i -> len s <= i.
Proof.
  intros H Hi. destruct (Z.lt_ge_cases i (len s)) as [Hlt|]; [|assumption].
  destruct (getitem_ok s i) as (v & Hv); [lia|]. congruence.
Qed.

Lemma getitem_nth (s : bytes) (i : Z) b :
  0 <= i -> nth_error s (Z.to_nat i) = Some b -> getitem s i = Ok (int_of_byte b).
Proof.
  intros Hi Hn. unfold getitem.
  assert (Z.to_nat i < length s)%nat as Hl by (apply nth_error_Some; congruence).
  destruct (Z.ltb_spec i 0); [lia|].
  destruct (Z.leb_spec 0 i); [|lia].
  unfold len. destruct (Z.ltb_spec i (Z.of_nat (length s))); [|lia].
  cbn [andb]. now rewrite Hn.
Qed.

Lemma getitem_raise_IndexError (s : bytes) (i : Z) e :
  getitem s i = Raise e -> e = IndexError.
Proof.
  unfold getitem. destruct (_ && _); [destruct (nth_error _ _)|];
    congruence.
Qed.

(** ** The advertising data info and the auxiliary pointer *)

Lemma land_ones_low (v : Z) (n : Z) : 0 <= n -> Z.land v (Z.ones n) = v mod 2 ^ n.
Proof. intros. now apply Z.land_ones. Qed.

(** X1. [AdvDataInfo] needs two bytes and fails with [IndexError] on less;
    the DID is a 12-bit and the SID a 4-bit value, and together they are the
    little-endian 16-bit word of the two bytes: [did + 4096 * sid]. *)
Theorem AdvDataInfo_init_spec (obj : nat) (adi : bytes) :
  (len adi < 2 -> AdvDataInfo.init obj adi = Raise IndexError) /\
  (2 <= len adi ->
   exists a0 a1 t,
     getitem adi 0 = Ok a0 /\ getitem adi 1 = Ok a1 /\
     AdvDataInfo.init obj adi = Ok t /\
     AdvDataInfo.obj t = obj /\
     0 <= AdvDataInfo.did t < 4096 /\
     0 <= AdvDataInfo.sid t < 16 /\
     AdvDataInfo.did t + 4096 * AdvDataInfo.sid t = a0 + 256 * a1).
Proof.
  split.
  - intros Hl. unfold AdvDataInfo.init.
    destruct (getitem adi 0) as [a0|e0] eqn:E0; cbn [rbind].
    + destruct (getitem adi 1) as [a1|e1] eqn:E1; cbn [rbind].
      * apply getitem_ok_inv in E1; lia.
      * now rewrite (getitem_raise_IndexError _ _ _ E1).
    + now rewrite (getitem_raise_IndexError _ _ _ E0).
  - intros Hl.
    destruct (getitem_ok adi 0) as (a0 & E0); [lia|].
    destruct (getitem_ok adi 1) as (a1 & E1); [lia|].
    unfold AdvDataInfo.init. rewrite E0, E1. cbn [rbind].
    exists a0, a1. eexists. repeat split; try reflexivity;
      cbn [AdvDataInfo.did AdvDataInfo.sid];
      apply getitem_ok_inv in E0, E1; try lia;
      change 0x0F with (Z.ones 4); rewrite ?Z.land_ones by lia;
      rewrite ?Z.shiftl_mul_pow2, ?Z.shiftr_div_pow2 by lia;
      change (2 ^ 4) with 16; change (2 ^ 8) with 256;
      pose proof (Z.mod_pos_bound a1 16); pose proof (Z.div_mod a1 16);
      pose proof (Z.div_pos a1 16);
      assert (a1 / 16 < 16) by (apply Z.div_lt_upper_bound; lia); lia.
Qed.


(** X2. [AuxPtr] needs three bytes and fails with [IndexError] on less; the
    channel is the low 6 bits of the first byte, the PHY the high 3 bits of
    the third, and the offset is a multiple of its unit that never exceeds
    8191 * 300 microseconds. *)
Theorem AuxPtr_init_spec (ptr : bytes) :
  (len ptr < 3 -> AuxPtr.init ptr = Raise IndexError) /\
  (3 <= len ptr ->
   exists b0 b2 p,
     getitem ptr 0 = Ok b0 /\ getitem ptr 2 = Ok b2 /\
     AuxPtr.init ptr = Ok p /\
     AuxPtr.chan p = b0 mod 64 /\
     AuxPtr.phy p = b2 / 32 /\ 0 <= AuxPtr.phy p < 8 /\
     0 <= AuxPtr.offsetUsec p <= 2457300 /\
     AuxPtr.offsetUsec p mod 30 = 0).
Proof.
  split.
  - intros Hl. unfold AuxPtr.init.
    destruct (getitem ptr 0) as [b0|e0] eqn:E0; cbn [rbind];
      [|now rewrite (getitem_raise_IndexError _ _ _ E0)].
    destruct (getitem ptr 2) as [b2|e2] eqn:E2; cbn [rbind];
      [|now rewrite (getitem_raise_IndexError _ _ _ E2)].
    apply getitem_ok_inv in E2; lia.
  - intros Hl.
    destruct (getitem_ok ptr 0) as (b0 & E0); [lia|].
    destruct (getitem_ok ptr 1) as (b1 & E1); [lia|].
    destruct (getitem_ok ptr 2) as (b2 & E2); [lia|].
    unfold AuxPtr.init. rewrite E0, E1, E2. cbn [rbind].
    exists b0, b2. eexists. split; [reflexivity|]. split; [reflexivity|].
    split; [reflexivity|].
    cbn [AuxPtr.chan AuxPtr.phy AuxPtr.offsetUsec].
    apply getitem_ok_inv in E0, E1, E2; try lia.
    change 0x3F with (Z.ones 6). change 0x1F with (Z.ones 5).
    rewrite !Z.land_ones, Z.shiftr_div_pow2, Z.shiftl_mul_pow2 by lia.
    change (2 ^ 6) with 64. change (2 ^ 5) with 32. change (2 ^ 8) with 256.
    pose proof (Z.mod_pos_bound b2 32).
    assert (0 <= b2 / 32 < 8)
      by (split; [apply Z.div_pos; lia|apply Z.div_lt_upper_bound; lia]).
    split; [reflexivity|]. split; [reflexivity|]. split; [assumption|].
    destruct (truthy (Z.land b0 128)).
    + split; [nia|].
      replace ((b1 + b2 mod 32 * 256) * 300)
        with ((b1 + b2 mod 32 * 256) * 10 * 30) by ring.
      apply Z.mod_mul. lia.
    + split; [nia|]. apply Z.mod_mul. lia.
Qed.

(** ** The connection request *)

Lemma skipn_nth_error {A} (n : nat) : forall (s : list A) b,
  nth_error s n = Some b -> skipn n s = b :: skipn (S n) s.
Proof.
  induction n as [|n IH]; intros [|x s] b H; try discriminate.
  - injection H as ->. reflexivity.
  - cbn [nth_error] in H. cbn [skipn]. rewrite (IH s b H). reflexivity.
Qed.

(** Reading a little-endian field byte by byte. *)
Lemma le_value_slice_step (s : bytes) (i hi v : Z) :
  0 <= i -> i < hi -> hi <= len s -> getitem s i = Ok v ->
  le_value (slice s i hi) = v + 256 * le_value (slice s (i + 1) hi).
Proof.
  intros Hi Hlt Hhi Hg. unfold getitem in Hg.
  destruct (Z.ltb_spec i 0); [lia|].
  destruct (_ && _); [|discriminate].
  destruct (nth_error s (Z.to_nat i)) as [b|] eqn:Hn; [|discriminate].
  injection Hg as <-.
  unfold slice, slice_bound.
  destruct (Z.ltb_spec i 0); [lia|]. destruct (Z.ltb_spec hi 0); [lia|].
  destruct (Z.ltb_spec (i + 1) 0); [lia|].
  rewrite !Z.min_l by lia.
  rewrite (skipn_nth_error _ _ _ Hn).
  replace (Z.to_nat (hi - i)) with (S (Z.to_nat (hi - (i + 1)))) by lia.
  replace (Z.to_nat (i + 1)) with (S (Z.to_nat i)) by lia.
  reflexivity.
Qed.

Lemma slice_empty (s : bytes) (i : Z) : 0 <= i <= len s -> slice s i i = [].
Proof.
  intros Hi. unfold slice. rewrite Z.sub_diag. reflexivity.
Qed.

Lemma le_value_bound (s : bytes) : 0 <= le_value s < 256 ^ len s.
Proof.
  unfold len. induction s as [|b s IH]; [cbn; lia|].
  cbn [le_value length]. rewrite Nat2Z.inj_succ, Z.pow_succ_r by lia.
  pose proof (int_of_byte_range b). lia.
Qed.

Lemma lor_shiftl_add (a b n : Z) :
  0 <= n -> 0 <= a < 2 ^ n -> Z.lor a (Z.shiftl b n) = a + b * 2 ^ n.
Proof.
  intros Hn Ha. rewrite <- Z.shiftl_mul_pow2 by assumption.
  assert (Z.land a (Z.shiftl b n) = 0) as Hd.
  { apply Z.bits_inj'. intros k Hk. rewrite Z.land_spec, Z.bits_0.
    destruct (Z.lt_ge_cases k n).
    - rewrite Z.shiftl_spec_low by assumption. apply andb_false_r.
    - rewrite <- (Z.mod_small a (2 ^ n)) by assumption.
      rewrite Z.mod_pow2_bits_high by lia. reflexivity. }
  rewrite Z.add_nocarry_lxor by assumption. now rewrite Z.lxor_lor.
Qed.

Lemma ConnectIndMessage_init_ok_inv (cls : ConnectCls) (pkt : PacketMessage.t) dpkt :
  ConnectIndMessage_init cls pkt = Ok dpkt -> 36 <= len (PacketMessage.body pkt).
Proof.
  unfold ConnectIndMessage_init. with_advert_init.
  cbn [DPacketMessage_init PacketMessage.body].
  do 6 step_result.
  repeat match goal with
         | |- context [match ?p with pair _ _ => _ end] => destruct p
         end.
  destruct (getitem (PacketMessage.body pkt) 35) as [h|] eqn:E35;
    cbn [rbind]; [|discriminate].
  apply getitem_ok_inv in E35; lia.
Qed.

(** X3. A CONNECT_IND (or AUX_CONNECT_REQ) is constructed exactly when the
    body has 36 bytes or more. Its access address is the little-endian
    value of bytes 14 to 17 (below 2^32), its CRC-init the little-endian
    value of bytes 18 to 20 (below 2^24), the two addresses have 6 bytes,
    the channel map 5, and hop (5 bits) and SCA (3 bits) split byte 35. *)
Theorem ConnectIndMessage_init_spec (cls : ConnectCls) (pkt : PacketMessage.t) :
  let body := PacketMessage.body pkt in
  ((exists dpkt, ConnectIndMessage_init cls pkt = Ok dpkt) <-> 36 <= len body) /\
  (forall c a f,
      ConnectIndMessage_init cls pkt = Ok (MkConnect cls c a f) ->
      ConnectInd.aa_conn f = le_value (slice body 14 18) /\
      0 <= ConnectInd.aa_conn f < 2 ^ 32 /\
      ConnectInd.CRCInit f = le_value (slice body 18 21) /\
      0 <= ConnectInd.CRCInit f < 2 ^ 24 /\
      len (ConnectInd.InitA f) = 6 /\
      len (ConnectInd.AdvA f) = 6 /\
      len (ConnectInd.ChM f) = 5 /\
      0 <= ConnectInd.Hop f < 32 /\
      0 <= ConnectInd.SCA f < 8 /\
      getitem body 35 = Ok (ConnectInd.Hop f + 32 * ConnectInd.SCA f)).
Proof.
  intros body. split.
  - split.
    + intros (dpkt & H). exact (ConnectIndMessage_init_ok_inv _ _ _ H).
    + intros Hl. destruct (ConnectIndMessage_init_ok cls pkt Hl) as (a & f & H).
      eauto.
  - intros c a f H.
    pose proof (ConnectIndMessage_init_ok_inv _ _ _ H) as Hl. fold body in Hl.
    revert H. unfold ConnectIndMessage_init.
    destruct (AdvertMessage_init_ok pkt) as (a' & ->); [fold body; lia|].
    cbn [rbind DPacketMessage_init PacketMessage.body]. fold body.
    unfold unpack_le, unpack_HHHH. rewrite !slice_len by lia.
    change (18 - 14 =? 4) with true. change (30 - 22 =? 8) with true.
    cbn [rbind].
    destruct (getitem_ok body 18) as (v18 & E18); [lia|].
    destruct (getitem_ok body 19) as (v19 & E19); [lia|].
    destruct (getitem_ok body 20) as (v20 & E20); [lia|].
    destruct (getitem_ok body 21) as (v21 & E21); [lia|].
    destruct (getitem_ok body 35) as (v35 & E35); [lia|].
    rewrite E18, E19, E20, E21, E35. cbn [rbind].
    match goal with
    | |- Ok (MkConnect _ _ _ ?f0) = _ -> _ => set (F := f0)
    end.
    intros H. assert (f = F) as -> by congruence. subst F. clear H.
    cbn [ConnectInd.aa_conn ConnectInd.CRCInit ConnectInd.InitA ConnectInd.AdvA
         ConnectInd.ChM ConnectInd.Hop ConnectInd.SCA].
    rewrite !slice_len by lia.
    pose proof (le_value_bound (slice body 14 18)) as Haa.
    rewrite slice_len in Haa by lia.
    assert (le_value (slice body 18 21) = v18 + 256 * (v19 + 256 * v20)) as Hcrc.
    { rewrite (le_value_slice_step body 18 21 v18) by (assumption || lia).
      rewrite (le_value_slice_step body (18 + 1) 21 v19) by (assumption || lia).
      rewrite (le_value_slice_step body (18 + 1 + 1) 21 v20) by (assumption || lia).
      rewrite slice_empty by lia. cbn [le_value]. lia. }
    apply getitem_ok_inv in E18, E19, E20; try lia.
    pose proof (getitem_ok_inv _ _ _ E35 ltac:(lia)) as [_ H35].
    assert (Z.lor (Z.lor v18 (Z.shiftl v19 8)) (Z.shiftl v20 16)
            = v18 + 256 * (v19 + 256 * v20)) as Hlor.
    { rewrite (lor_shiftl_add v18 v19 8) by lia.
      rewrite (lor_shiftl_add _ v20 16) by lia.
      change (2 ^ 8) with 256. change (2 ^ 16) with 65536. lia. }
    change 0x1F with (Z.ones 5).
    rewrite Z.land_ones, Z.shiftr_div_pow2 by lia. change (2 ^ 5) with 32.
    pose proof (Z.mod_pos_bound v35 32). pose proof (Z.div_mod v35 32).
    assert (0 <= v35 / 32 < 8)
      by (split; [apply Z.div_pos; lia|apply Z.div_lt_upper_bound; lia]).
    rewrite Hlor, Hcrc.
    repeat split; try lia.
    f_equal. lia.
Qed.

(** ** Dispatch of the data channel and of the secondary channels *)

Lemma AdvertMessage_init_ok_inv (pkt : PacketMessage.t) x :
  AdvertMessage_init pkt = Ok x -> 2 <= len (PacketMessage.body pkt).
Proof.
  unfold AdvertMessage_init. cbn [DPacketMessage_init PacketMessage.body].
  destruct (getitem _ 0); [|discriminate]. cbn [rbind].
  destruct (getitem _ 1) eqn:E1; [|discriminate].
  apply getitem_ok_inv in E1; lia.
Qed.

Lemma DataMessage_init_ok_inv (pkt : PacketMessage.t) x :
  DataMessage_init pkt = Ok x -> 2 <= len (PacketMessage.body pkt).
Proof.
  unfold DataMessage_init. cbn [DPacketMessage_init PacketMessage.body].
  destruct (getitem _ 0); [|discriminate]. cbn [rbind].
  destruct (getitem _ 1) eqn:E1; [|discriminate].
  apply getitem_ok_inv in E1; lia.
Qed.

Lemma DataMessage_init_ok (pkt : PacketMessage.t) :
  2 <= len (PacketMessage.body pkt) ->
  exists d, DataMessage_init pkt = Ok (DPacketMessage_init pkt, d).
Proof.
  intros Hl. unfold DataMessage_init. cbn [DPacketMessage_init PacketMessage.body].
  destruct (getitem_ok (PacketMessage.body pkt) 0) as (v0 & ->); [lia|].
  destruct (getitem_ok (PacketMessage.body pkt) 1) as (v1 & ->); [lia|].
  cbn [rbind]. eauto.
Qed.

Lemma llid_range (b : Z) : 0 <= Z.land b 0x3 < 4.
Proof.
  change 0x3 with (Z.ones 2). rewrite Z.land_ones by lia.
  apply Z.mod_pos_bound. reflexivity.
Qed.

(** X4. On the data channel the two low bits of the first byte pick the
    class: 0 the generic [DataMessage], 1 LL_DATA_CONT, 2 LL_DATA, 3
    LL_CONTROL; the table lookup never fails. With the two header bytes
    present the packet is built, except that an LL_CONTROL also needs its
    opcode byte: on a two-byte body it raises [IndexError]. *)
Theorem DataMessage_decode_spec (pkt : PacketMessage.t)
    (dstate : option DState) (obj : nat) b :
  getitem (PacketMessage.body pkt) 0 = Ok b ->
  2 <= len (PacketMessage.body pkt) ->
  (Z.land b 0x3 = 3 /\ len (PacketMessage.body pkt) = 2 /\
   DataMessage_decode pkt dstate obj = Raise IndexError) \/
  (exists dpkt,
      DataMessage_decode pkt dstate obj = Ok dpkt /\
      class_of dpkt = llid_class (Z.land b 0x3) /\
      (Z.land b 0x3 = 3 ->
       exists c d opcode, dpkt = MkLlControl c d opcode /\
         getitem (PacketMessage.body pkt) 2 = Ok opcode)).
Proof.
  intros Hb Hl. unfold DataMessage_decode. rewrite Hb. cbn [rbind].
  pose proof (llid_range b) as Hn. set (n := Z.land b 0x3) in *.
  destruct (DataMessage_init_ok pkt Hl) as (d & Hd).
  assert (In n (map Z.of_nat (seq 0 4))) as Hcases.
  { replace n with (Z.of_nat (Z.to_nat n)) by lia. apply in_map, in_seq. lia. }
  clearbody n. cbn in Hcases.
  destruct Hcases as [<-|[<-|[<-|[<-|[]]]]];
    match goal with
    | |- context [class_at ?l ?k] =>
        let v := eval vm_compute in (class_at l k) in
        change (class_at l k) with v
    end; cbn [rbind construct].
  1-3: right; rewrite Hd; cbn [rbind]; eexists; split; [reflexivity|];
       split; [reflexivity|]; discriminate.
  unfold LlControlMessage_init. rewrite Hd. cbn [rbind DPacketMessage_init
    PacketMessage.body].
  destruct (getitem (PacketMessage.body pkt) 2) as [op|e] eqn:E2; cbn [rbind].
  - right. eexists. split; [reflexivity|]. split; [reflexivity|].
    intros _. eauto.
  - left. split; [reflexivity|].
    apply getitem_raise_inv in E2 as Hle; [|lia].
    rewrite (getitem_raise_IndexError _ _ _ E2). split; [lia|reflexivity].
Qed.

Lemma DataMessage_decode_spec_witness :
  exists dpkt,
    DataMessage_decode (data_record [x02; x00]) None 0 = Ok dpkt /\
    class_of dpkt = DataC LlDataMessage.
Proof.
  destruct (DataMessage_decode_spec (data_record [x02; x00]) None 0 2)
    as [(H & _)|(dpkt & Hd & Hc & _)].
  - reflexivity.
  - cbn. lia.
  - discriminate H.
  - exists dpkt. split; [exact Hd|exact Hc].
Defined.

Lemma select_range (pkt : PacketMessage.t) (dstate : option DState) tc :
  AdvertMessage_select pkt dstate = Ok tc -> In tc advert_classes.
Proof.
  unfold AdvertMessage_select.
  destruct (getitem _ 0) as [b|]; [|discriminate]. cbn [rbind].
  destruct (PacketMessage.chan pkt >=? 37).
  - destruct (_ <? _).
    + unfold class_at. destruct (nth_error _ _) as [c|] eqn:E; [|discriminate].
      intros H. injection H as <-. apply nth_error_In in E.
      right. apply in_or_app. left. exact E.
    + intros H. injection H as <-. left. reflexivity.
  - repeat match goal with
           | |- context [if ?c then _ else _] => destruct c
           | |- context [match ?d with Some _ => _ | None => _ end] => destruct d
           end;
      intros H; try discriminate H; injection H as <-; cbn; tauto.
Qed.

(** X5. On a secondary channel every PDU-type nibble other than 7 picks its
    class without looking at the decoder state: 3 AUX_SCAN_REQ, 5
    AUX_CONNECT_REQ, 8 AUX_CONNECT_RSP, anything else the generic
    [AdvertMessage]; the choice is the same with and without a state. *)
Theorem secondary_dispatch (pkt : PacketMessage.t) (dstate : option DState) b :
  PacketMessage.chan pkt < 37 ->
  getitem (PacketMessage.body pkt) 0 = Ok b ->
  Z.land b 0xF <> 7 ->
  AdvertMessage_select pkt dstate = Ok (secondary_class (Z.land b 0xF)).
Proof.
  intros Hc Hb Hn. unfold AdvertMessage_select. rewrite Hb. cbn [rbind].
  destruct (Z.geb_spec (PacketMessage.chan pkt) 37); [lia|].
  destruct (Z.eqb_spec (Z.land b 0xF) 3) as [->|H3]; [reflexivity|].
  destruct (Z.eqb_spec (Z.land b 0xF) 5) as [->|H5]; [reflexivity|].
  destruct (Z.eqb_spec (Z.land b 0xF) 7) as [|_]; [contradiction|].
  destruct (Z.eqb_spec (Z.land b 0xF) 8) as [->|H8]; [reflexivity|].
  unfold secondary_class.
  destruct (Z.land b 0xF) as [|p|p]; try reflexivity.
  repeat (destruct p as [p|p|]; try reflexivity; try congruence).
Qed.

Lemma secondary_dispatch_witness :
  AdvertMessage_select (advert_record 1%float 5 [x08; x00]) None
  = Ok (ExtC AuxConnectRspMessage).
Proof.
  apply (secondary_dispatch (advert_record 1%float 5 [x08; x00]) None 8).
  - cbn. lia.
  - reflexivity.
  - cbn. lia.
Defined.

(** ** What the entry point returns *)

Lemma construct_class (tc : PduClass) (pkt : PacketMessage.t) (obj : nat) dpkt :
  construct tc pkt obj = Ok dpkt -> class_of dpkt = tc.
Proof.
  destruct tc; cbn [construct];
    unfold LlControlMessage_init, AdvaMessage_init, AdvDirectIndMessage_init,
      ScanReqMessage_init, ConnectIndMessage_init, AdvExtIndMessage_init.
  - intros H. injection H as <-. reflexivity.
  - with_advert_init. intros H. injection H as <-. reflexivity.
  - with_advert_init. step_result. intros H. injection H as <-. reflexivity.
  - with_advert_init. intros H. injection H as <-. reflexivity.
  - with_advert_init. intros H. injection H as <-. reflexivity.
  - with_advert_init. intros H. injection H as <-. reflexivity.
  - with_advert_init. intros H. injection H as <-. reflexivity.
  - with_advert_init. repeat step_result.
    repeat match goal with
           | |- context [match ?p with pair _ _ => _ end] => destruct p
           end.
    repeat step_result. intros H. injection H as <-. reflexivity.
  - with_advert_init. destruct (ext_header_walk _ _ _).
    intros H. injection H as <-. reflexivity.
Qed.

Lemma construct_ok_len (tc : PduClass) (pkt : PacketMessage.t) (obj : nat) dpkt :
  construct tc pkt obj = Ok dpkt -> tc <> DPacketMessage ->
  2 <= len (PacketMessage.body pkt).
Proof.
  destruct tc; cbn [construct]; try congruence; intros H _; revert H;
    unfold LlControlMessage_init, AdvaMessage_init, AdvDirectIndMessage_init,
      ScanReqMessage_init, ConnectIndMessage_init, AdvExtIndMessage_init;
    match goal with
    | |- context [AdvertMessage_init ?p] =>
        destruct (AdvertMessage_init p) eqn:E; [|discriminate];
        intros _; exact (AdvertMessage_init_ok_inv _ _ E)
    | |- context [DataMessage_init ?p] =>
        destruct (DataMessage_init p) eqn:E; [|discriminate];
        intros _; exact (DataMessage_init_ok_inv _ _ E)
    end.
Qed.

Lemma dispatch_class (pkt : PacketMessage.t) (dstate : option DState) obj dpkt :
  dispatch pkt dstate obj = Ok dpkt ->
  2 <= len (PacketMessage.body pkt) /\
  if PacketMessage.aa pkt =? BLE_ADV_AA
  then In (class_of dpkt) advert_classes
  else In (class_of dpkt) data_type_classes.
Proof.
  unfold dispatch, AdvertMessage_decode, DataMessage_decode.
  destruct (PacketMessage.aa pkt =? BLE_ADV_AA).
  - destruct (AdvertMessage_select pkt dstate) as [tc|] eqn:Hs; [|discriminate].
    cbn [rbind]. intros Hk. apply select_range in Hs.
    rewrite (construct_class _ _ _ _ Hk). split; [|exact Hs].
    apply (construct_ok_len _ _ _ _ Hk). intros ->.
    cbn in Hs. intuition discriminate.
  - destruct (getitem _ 0); [|discriminate]. cbn [rbind].
    unfold class_at. destruct (nth_error _ _) as [tc|] eqn:Hn; [|discriminate].
    cbn [rbind]. intros Hk. apply nth_error_In in Hn.
    rewrite (construct_class _ _ _ _ Hk). split; [|exact Hn].
    apply (construct_ok_len _ _ _ _ Hk). intros ->.
    cbn in Hn. intuition discriminate.
Qed.

(** X6. A record whose body has fewer than two bytes is never decoded: the
    entry point gives the record back and leaves the decoder state (if any)
    exactly as it was. *)
Theorem decode_needs_header (pkt : PacketMessage.t) (dstate : option DState)
    (obj : nat) :
  len (PacketMessage.body pkt) < 2 ->
  decode pkt dstate obj = (Raw pkt, dstate).
Proof.
  intros Hl. unfold decode. fold (dispatch pkt dstate obj).
  destruct (dispatch pkt dstate obj) as [dpkt|e] eqn:Hd; [|reflexivity].
  apply dispatch_class in Hd. lia.
Qed.

Lemma decode_needs_header_witness :
  decode (data_record [x03]) (Some tracking_state) 0
  = (Raw (data_record [x03]), Some tracking_state).
Proof.
  apply (decode_needs_header (data_record [x03]) (Some tracking_state) 0).
  cbn. lia.
Defined.

(** X7. The access address alone routes a record: whatever the entry point
    decodes from a record with the advertising access address is an
    [AdvertMessage] (never a data packet), and whatever it decodes from any
    other record is a [DataMessage] (never an advertising packet). *)
Theorem decode_routing (pkt : PacketMessage.t) (dstate : option DState)
    (obj : nat) :
  match fst (decode pkt dstate obj) with
  | Dpkt dpkt =>
      if PacketMessage.aa pkt =? BLE_ADV_AA
      then isinstance dpkt AdvertMessage = true
           /\ isinstance dpkt (DataC DataMessage) = false
      else isinstance dpkt (DataC DataMessage) = true
           /\ isinstance dpkt AdvertMessage = false
  | Raw _ => True
  end.
Proof.
  unfold decode. fold (dispatch pkt dstate obj).
  destruct (dispatch pkt dstate obj) as [dpkt|e] eqn:Hd; [|exact I].
  apply dispatch_class in Hd as [_ Hc].
  assert (if PacketMessage.aa pkt =? BLE_ADV_AA
          then isinstance dpkt AdvertMessage = true
               /\ isinstance dpkt (DataC DataMessage) = false
          else isinstance dpkt (DataC DataMessage) = true
               /\ isinstance dpkt AdvertMessage = false) as Hr.
  { unfold isinstance. destruct (PacketMessage.aa pkt =? BLE_ADV_AA);
      cbn in Hc; repeat (destruct Hc as [<-|Hc]); try contradiction;
      split; reflexivity. }
  destruct dstate as [d|]; cbn [fst]; [|exact Hr].
  destruct (update_state dpkt d) as [[[]|e] d']; cbn [fst]; [exact Hr|exact I].
Qed.

(** ** The header bit fields *)

Lemma land_low_bits (x : Z) :
  Z.land x 1 = x mod 2 /\ Z.land x 0x3 = x mod 4 /\ Z.land x 0xF = x mod 16.
Proof.
  change 1 with (Z.ones 1). change 0x3 with (Z.ones 2).
  change 0xF with (Z.ones 4). rewrite !Z.land_ones by lia. repeat split.
Qed.

(** X8. The first body byte of an advertising packet splits into the
    PDU-type nibble, one unused bit and the three flags ChSel, TxAdd and
    RxAdd, each 0 or 1; the first byte of a data packet splits, below its
    three high bits, into the LLID and the flags NESN, SN and MD. The
    length attribute is the second byte. *)
Theorem header_bit_fields (pkt : PacketMessage.t) b :
  getitem (PacketMessage.body pkt) 0 = Ok b ->
  (forall self a,
      AdvertMessage_init pkt = Ok (self, a) ->
      0 <= Advert.ChSel a <= 1 /\ 0 <= Advert.TxAdd a <= 1 /\
      0 <= Advert.RxAdd a <= 1 /\
      b = Z.land b 0xF + 16 * ((b / 16) mod 2) + 32 * Advert.ChSel a
          + 64 * Advert.TxAdd a + 128 * Advert.RxAdd a /\
      getitem (PacketMessage.body pkt) 1 = Ok (Advert.ad_length a)) /\
  (forall self d,
      DataMessage_init pkt = Ok (self, d) ->
      0 <= Data.NESN d <= 1 /\ 0 <= Data.SN d <= 1 /\ 0 <= Data.MD d <= 1 /\
      b mod 32 = Z.land b 0x3 + 4 * Data.NESN d + 8 * Data.SN d
                 + 16 * Data.MD d /\
      getitem (PacketMessage.body pkt) 1 = Ok (Data.data_length d)).
Proof.
  intros Hb. pose proof (getitem_ok_inv _ _ _ Hb ltac:(lia)) as [_ Hr].
  split; intros self x; unfold AdvertMessage_init, DataMessage_init;
    cbn [DPacketMessage_init PacketMessage.body]; rewrite Hb; cbn [rbind];
    (destruct (getitem _ 1) as [l|]; [|discriminate]); cbn [rbind];
    intros H; injection H as _ <-;
    cbn [Advert.ChSel Advert.TxAdd Advert.RxAdd Advert.ad_length
         Data.NESN Data.SN Data.MD Data.data_length];
    rewrite ?(proj1 (land_low_bits _)), ?(proj1 (proj2 (land_low_bits _))),
      ?(proj2 (proj2 (land_low_bits _))), !Z.shiftr_div_pow2 by lia;
    change (2 ^ 1) with 2; change (2 ^ 2) with 4; change (2 ^ 3) with 8;
    change (2 ^ 4) with 16; change (2 ^ 5) with 32; change (2 ^ 6) with 64;
    change (2 ^ 7) with 128;
    repeat split; try reflexivity; Z.div_mod_to_equations; lia.
Qed.

Lemma header_bit_fields_witness :
  exists self a,
    AdvertMessage_init adv_ind_record = Ok (self, a) /\
    0 <= Advert.TxAdd a <= 1.
Proof.
  eexists. eexists. split; [reflexivity|].
  apply (proj1 (header_bit_fields adv_ind_record 0x40 eq_refl) _ _ eq_refl).
Defined.

(** ** The rules of the correlation state machine, branch by branch *)

Lemma update_rules_scan_req c a x y (d : DState) :
  update_rules (MkScanReq AuxScanReqMessage c a x y) d =
  (Ok tt, set_aux_pending_scan_rsp (Some (PacketMessage.ts c + 0.0005)%float) d).
Proof. reflexivity. Qed.

(** The three classes that are an [AuxAdvIndMessage]. *)
Lemma isinstance_aux_adv (cls : ExtCls) c a f :
  isinstance (MkExt cls c a f) (ExtC AuxAdvIndMessage) = true <->
  cls = AuxAdvIndMessage \/ cls = AuxScanRspMessage \/ cls = AuxChainIndMessage.
Proof.
  destruct cls; cbn; split; intros H; try discriminate; try reflexivity;
    try tauto; intuition discriminate.
Qed.

Lemma update_rules_aux_adv (cls : ExtCls) c a f (d : DState) :
  isinstance (MkExt cls c a f) (ExtC AuxAdvIndMessage) = true ->
  update_rules (MkExt cls c a f) d =
  match AdvExt.AuxPtr f with
  | Some p =>
      (Ok tt,
       set_aux_pending_chain
         (Some (AdvExt.AdvDataInfo f, AuxPtr.chan p,
                (PacketMessage.ts c + float_of_int (AuxPtr.offsetUsec p) * 1E-6
                 + 0.0005)%float)) d)
  | None =>
      if SnifferState_eqb (last_state d) SCANNING then
        match AdvExt.AdvMode f with
        | Some m =>
            (Ok tt,
             if m =? 2
             then set_aux_pending_scan_rsp
                    (Some (PacketMessage.ts c + 0.001)%float) d
             else d)
        | None => (Raise AttributeError, d)
        end
      else (Ok tt, d)
  end.
Proof.
  intros Hi. apply isinstance_aux_adv in Hi.
  destruct Hi as [->|[->| ->]];
    unfold update_rules, mbind, get, assign, lift, ret, attr_AdvMode;
    cbn [isinstance class_of issubclass issubclass_fuel base common attr_ext
         rbind];
    cbn; destruct (AdvExt.AuxPtr f); try reflexivity;
    destruct (SnifferState_eqb (last_state d) SCANNING); try reflexivity;
    destruct (AdvExt.AdvMode f) as [m|]; try reflexivity;
    destruct (m =? 2); reflexivity.
Qed.

(** A packet of none of the four correlated families is not looked at by
    the rules. *)
Lemma update_rules_other (pkt : DPacket) (d : DState) :
  isinstance pkt (ConnectC ConnectIndMessage) = false ->
  isinstance pkt (ExtC AuxConnectRspMessage) = false ->
  isinstance pkt (ScanReqC AuxScanReqMessage) = false ->
  isinstance pkt (ExtC AuxAdvIndMessage) = false ->
  update_rules pkt d = (Ok tt, d).
Proof.
  intros H1 H2 H3 H4. unfold update_rules, mbind, get, ret.
  rewrite H1, H2, H3, H4, andb_false_r. reflexivity.
Qed.

Lemma isinstance_scan_req_inv (pkt : DPacket) :
  isinstance pkt (ScanReqC AuxScanReqMessage) = true ->
  exists c a x y, pkt = MkScanReq AuxScanReqMessage c a x y.
Proof.
  destruct pkt as [c|cls c d1|c d1 o|c a|cls c a x|c a x y
                  |cls c a x y|cls c a f|cls c a f];
    try discriminate; try (destruct cls; discriminate).
  destruct cls; [discriminate|]. intros _. now exists c, a, x, y.
Qed.

Lemma isinstance_connect_inv (pkt : DPacket) :
  isinstance pkt (ConnectC ConnectIndMessage) = true ->
  exists cls c a f, pkt = MkConnect cls c a f.
Proof.
  destruct pkt as [c|cls c d1|c d1 o|c a|cls c a x|c a x y
                  |cls c a x y|cls c a f|cls c a f];
    try discriminate; try (destruct cls; discriminate).
  intros _. now exists cls, c, a, f.
Qed.

(** What the rules do to the attributes no packet family but the connection
    ones may touch. *)
Lemma update_rules_frame (pkt : DPacket) (d : DState) :
  last_state (snd (update_rules pkt d)) = last_state d /\
  (isinstance pkt (ConnectC ConnectIndMessage) = false ->
   isinstance pkt (ExtC AuxConnectRspMessage) = false ->
   same_connection d (snd (update_rules pkt d))).
Proof.
  destruct (isinstance pkt (ConnectC ConnectIndMessage)) eqn:H1.
  { destruct (isinstance_connect_inv _ H1) as (cls & c & a & f & ->).
    rewrite update_rules_connect. cbn [snd].
    split; [|discriminate]. destruct (_ && _); reflexivity. }
  destruct (isinstance pkt (ExtC AuxConnectRspMessage)) eqn:H2.
  { destruct (isinstance_ext_inv _ _ H2) as (cls & c & a & f & ->).
    destruct cls; try discriminate H2.
    rewrite update_rules_connect_rsp. split; [|discriminate].
    destruct (aux_pending_crci d); reflexivity. }
  destruct (isinstance pkt (ScanReqC AuxScanReqMessage)) eqn:H3.
  { destruct (isinstance_scan_req_inv _ H3) as (c & a & x & y & ->).
    rewrite update_rules_scan_req. repeat split. }
  destruct (isinstance pkt (ExtC AuxAdvIndMessage)) eqn:H4.
  { destruct (isinstance_ext_inv _ _ H4) as (cls & c & a & f & ->).
    rewrite (update_rules_aux_adv _ _ _ _ _ H4).
    destruct (AdvExt.AuxPtr f); [repeat split|].
    destruct (SnifferState_eqb _ _); [|repeat split].
    destruct (AdvExt.AdvMode f) as [m|]; [|repeat split].
    destruct (m =? 2); repeat split. }
  rewrite (update_rules_other _ _ H1 H2 H3 H4). repeat split.
Qed.

Lemma update_state_snd (pkt : DPacket) (d : DState) :
  exists d1, snd (update_rules pkt d) = d1 /\
    (snd (update_state pkt d) = d1 \/
     snd (update_state pkt d) = snd (clear_pending pkt d1)).
Proof.
  unfold update_state, mbind.
  destruct (update_rules pkt d) as [[[]|e] d1]; cbn [snd]; eauto.
Qed.

(** X9. No packet ever changes the capture mode recorded in the decoder
    state, and only the connection packets (CONNECT_IND, AUX_CONNECT_REQ,
    AUX_CONNECT_RSP) can change the active access address, the reversed
    CRC-init or the pending connection slot; this holds whether the update
    returns or raises. *)
Theorem update_state_frame (pkt : DPacket) (d : DState) :
  last_state (snd (update_state pkt d)) = last_state d /\
  (isinstance pkt (ConnectC ConnectIndMessage) = false ->
   isinstance pkt (ExtC AuxConnectRspMessage) = false ->
   same_connection d (snd (update_state pkt d))).
Proof.
  destruct (update_rules_frame pkt d) as [Hl Hs].
  destruct (update_state_snd pkt d) as (d1 & E1 & [E|E]); rewrite E.
  - rewrite <- E1. split; assumption.
  - destruct (clear_pending_frame pkt d1) as (d2 & Ec & Hc).
    rewrite Ec. cbn [snd]. rewrite <- E1 in Hc. unfold same_connection in *.
    split; [intuition congruence|].
    intros H1 H2. specialize (Hs H1 H2). intuition congruence.
Qed.

(** ** What the state update arms, clears and refuses *)

Lemma clear_pending_scan_rsp_only_clears (pkt : DPacket) (d : DState) :
  exists d', clear_pending_scan_rsp pkt d = (Ok tt, d') /\
    (aux_pending_scan_rsp d' = aux_pending_scan_rsp d \/
     aux_pending_scan_rsp d' = None).
Proof.
  unfold clear_pending_scan_rsp, mbind, get, assign, ret.
  destruct (aux_pending_scan_rsp d) as [dl|] eqn:E;
    [destruct (truthy_float dl);
     [destruct (PrimFloat.ltb dl _ || isinstance pkt (ExtC AuxScanRspMessage))|]|];
    eexists; (split; [reflexivity|]); cbn; auto.
Qed.

Lemma clear_pending_chain_only_clears (pkt : DPacket) (d : DState) :
  exists d', clear_pending_chain pkt d = (Ok tt, d') /\
    (aux_pending_chain d' = aux_pending_chain d \/
     aux_pending_chain d' = None).
Proof.
  destruct (clear_pending_chain_frame pkt d) as (d' & E & _).
  exists d'. split; [exact E|]. revert E.
  unfold clear_pending_chain, mbind, get, assign, ret, lift.
  destruct (aux_pending_chain d) as [[[adi cc] dl]|] eqn:Hc.
  - destruct (PrimFloat.ltb dl _); [intros H; injection H as <-; auto|].
    destruct (isinstance pkt (ExtC AuxChainIndMessage) && _).
    + destruct (attr_ext pkt); [|discriminate].
      destruct (AdvDataInfo.py_eq _ _); intros H; injection H as <-; cbn; auto.
    + intros H; injection H as <-. auto.
  - intros H; injection H as <-. auto.
Qed.

(** X10. Clearing never arms anything: after it each pending slot holds what
    it held or [None]. For a packet of none of the correlated families
    (not a connection request or response, not an AUX_SCAN_REQ, not an
    AUX_ADV_IND-family packet: every data packet and every legacy
    advertising packet) the whole state update is this clearing; it returns
    normally and leaves the connection attributes alone. *)
Theorem uncorrelated_update_only_clears (pkt : DPacket) (d : DState) :
  (exists d', clear_pending pkt d = (Ok tt, d') /\
     (aux_pending_scan_rsp d' = aux_pending_scan_rsp d \/
      aux_pending_scan_rsp d' = None) /\
     (aux_pending_chain d' = aux_pending_chain d \/
      aux_pending_chain d' = None) /\
     same_connection d d') /\
  (isinstance pkt (ConnectC ConnectIndMessage) = false ->
   isinstance pkt (ExtC AuxConnectRspMessage) = false ->
   isinstance pkt (ScanReqC AuxScanReqMessage) = false ->
   isinstance pkt (ExtC AuxAdvIndMessage) = false ->
   update_state pkt d = clear_pending pkt d).
Proof.
  split.
  - destruct (clear_pending_scan_rsp_only_clears pkt d) as (d1 & E1 & Hs1).
    destruct (clear_pending_scan_rsp_frame pkt d) as (d1' & E1' & Hc1 & Hch1).
    rewrite E1 in E1'. injection E1' as <-.
    destruct (clear_pending_chain_only_clears pkt d1) as (d2 & E2 & Hs2).
    destruct (clear_pending_chain_frame pkt d1) as (d2' & E2' & Hc2 & Hsr2).
    rewrite E2 in E2'. injection E2' as <-.
    exists d2. split; [unfold clear_pending, mbind; rewrite E1; exact E2|].
    rewrite Hsr2, <- Hch1. unfold same_connection in *.
    repeat split; try assumption; intuition congruence.
  - intros H1 H2 H3 H4. unfold update_state, mbind.
    rewrite (update_rules_other _ _ H1 H2 H3 H4). reflexivity.
Qed.

(** X11. The extended connection handshake: an (AUX_)CONNECT_IND on a
    secondary channel outside extended-advertising mode followed by an
    AUX_CONNECT_RSP activates the requested connection: both updates
    return, the active access address is the request's [aa_conn], the
    reversed CRC-init is the bit reversal of its [CRCInit], and the pending
    slot is empty again. *)
Theorem extended_connection_handshake (cls : ConnectCls) c a f c2 a2 f2
    (d : DState) :
  PacketMessage.chan c < 37 -> last_state d <> ADVERTISING_EXT ->
  exists d1 d2,
    update_state (MkConnect cls c a f) d = (Ok tt, d1) /\
    update_state (MkExt AuxConnectRspMessage c2 a2 f2) d1 = (Ok tt, d2) /\
    cur_aa d1 = cur_aa d /\
    cur_aa d2 = Some (ConnectInd.aa_conn f) /\
    crc_init_rev d2 = Some (rbit24 (ConnectInd.CRCInit f)) /\
    aux_pending_aa d2 = None /\
    aux_pending_crci d2 = None.
Proof.
  intros Hc Hm.
  pose proof (update_rules_connect cls c a f d) as Hr1.
  destruct (Z.ltb_spec (PacketMessage.chan c) 37); [|lia].
  destruct (SnifferState_eqb_spec (last_state d) ADVERTISING_EXT);
    [contradiction|]. cbn [andb negb] in Hr1.
  match type of Hr1 with _ = (_, ?s) => set (s1 := s) in * end.
  destruct (clear_pending_frame (MkConnect cls c a f) s1)
    as (d1 & Hc1 & _ & Hca1 & Hcr1 & Hpa1 & Hpc1).
  pose proof (update_rules_connect_rsp c2 a2 f2 d1) as Hr2.
  rewrite Hpc1, Hpa1 in Hr2. unfold s1 in Hr2.
  cbn [aux_pending_crci aux_pending_aa set_aux_pending_crci
       set_aux_pending_aa] in Hr2.
  match type of Hr2 with _ = (_, ?s) => set (s2 := s) in * end.
  destruct (clear_pending_frame (MkExt AuxConnectRspMessage c2 a2 f2) s2)
    as (d2 & Hc2 & _ & Hca2 & Hcr2 & Hpa2 & Hpc2).
  exists d1, d2. split; [unfold update_state, mbind; rewrite Hr1; exact Hc1|].
  split; [unfold update_state, mbind; rewrite Hr2; exact Hc2|].
  rewrite Hca1, Hca2, Hcr2, Hpa2, Hpc2. repeat split.
Qed.

Lemma extended_connection_handshake_witness :
  exists d1 d2,
    update_state (connect_req AuxConnectReqMessage 5)
      (empty_state (OTHER_STATE 0)) = (Ok tt, d1) /\
    update_state connect_rsp d1 = (Ok tt, d2) /\
    cur_aa d2 = Some 0x12345678.
Proof.
  destruct (extended_connection_handshake AuxConnectReqMessage
              (advert_record 1%float 5 []) (Advert.mk 0 0 0 0) connect_fields
              connect_rsp_record (Advert.mk 0 0 0 2)
              (AdvExt.set_AdvMode 0 AdvExt.empty)
              (empty_state (OTHER_STATE 0)))
    as (d1 & d2 & H1 & H2 & _ & H3 & _).
  - cbn. lia.
  - discriminate.
  - exists d1, d2. repeat split; assumption.
Defined.

Lemma py_eq_refl (x : option AdvDataInfo.t) : AdvDataInfo.py_eq x x = true.
Proof. destruct x; cbn; [apply Nat.eqb_refl|reflexivity]. Qed.

(** X12. An AUX_ADV_IND-family packet that carries an auxiliary pointer
    replaces whatever chain was pending: the update returns, and afterwards
    the chain slot holds the packet's own advertising data info, the
    pointer's channel and the deadline [ts + offsetUsec * 1E-6 + 0.0005], or
    nothing. It holds nothing when the packet is an AUX_CHAIN_IND whose
    pointer names the channel it was received on. *)
Theorem aux_ptr_arms_chain (cls : ExtCls) c a f p (d : DState) :
  isinstance (MkExt cls c a f) (ExtC AuxAdvIndMessage) = true ->
  AdvExt.AuxPtr f = Some p ->
  exists d',
    update_state (MkExt cls c a f) d = (Ok tt, d') /\
    (aux_pending_chain d' =
       Some (AdvExt.AdvDataInfo f, AuxPtr.chan p,
             (PacketMessage.ts c + float_of_int (AuxPtr.offsetUsec p) * 1E-6
              + 0.0005)%float)
     \/ aux_pending_chain d' = None) /\
    (cls = AuxChainIndMessage -> PacketMessage.chan c = AuxPtr.chan p ->
     aux_pending_chain d' = None) /\
    same_connection d d'.
Proof.
  intros Hi Hp.
  pose proof (update_rules_aux_adv cls c a f d Hi) as Hr. rewrite Hp in Hr.
  match type of Hr with _ = (_, ?s) => set (s1 := s) in * end.
  destruct (clear_pending_scan_rsp_frame (MkExt cls c a f) s1)
    as (d1 & E1 & Hc1 & Hch1).
  destruct (clear_pending_chain_only_clears (MkExt cls c a f) d1)
    as (d2 & E2 & Hs2).
  destruct (clear_pending_chain_frame (MkExt cls c a f) d1)
    as (d2' & E2' & Hc2 & _).
  rewrite E2 in E2'. injection E2' as <-.
  exists d2. split.
  { unfold update_state, mbind. rewrite Hr. unfold clear_pending, mbind.
    rewrite E1. exact E2. }
  rewrite Hch1 in Hs2. split; [exact Hs2|]. split.
  - intros -> Hch. revert E2.
    unfold clear_pending_chain, mbind, get, assign, lift. rewrite Hch1.
    cbn [s1 aux_pending_chain set_aux_pending_chain common attr_ext].
    rewrite Hch, Z.eqb_refl, py_eq_refl.
    change (isinstance (MkExt AuxChainIndMessage c a f)
              (ExtC AuxChainIndMessage)) with true.
    cbn [andb]. destruct (PrimFloat.ltb _ _);
      intros H; injection H as <-; reflexivity.
  - unfold same_connection in *. cbn [s1] in Hc1. cbn in Hc1.
    intuition congruence.
Qed.

Lemma aux_ptr_arms_chain_witness :
  exists d',
    update_state
      (MkExt AuxChainIndMessage (advert_record 1%float 5 []) (Advert.mk 0 0 0 0)
         (AdvExt.set_AuxPtr (AuxPtr.mk 5 0 300) AdvExt.empty))
      (empty_state (OTHER_STATE 0)) = (Ok tt, d') /\
    aux_pending_chain d' = None.
Proof.
  destruct (aux_ptr_arms_chain AuxChainIndMessage (advert_record 1%float 5 [])
              (Advert.mk 0 0 0 0)
              (AdvExt.set_AuxPtr (AuxPtr.mk 5 0 300) AdvExt.empty)
              (AuxPtr.mk 5 0 300) (empty_state (OTHER_STATE 0)))
    as (d' & H1 & _ & H2 & _).
  - reflexivity.
  - reflexivity.
  - exists d'. split; [exact H1|]. apply H2; reflexivity.
Defined.

(** X13. After the update for an AUX_SCAN_RSP has returned, no scan response
    is expected any more: the pending scan-response slot is [None] or
    zero, which the dispatcher treats alike. *)
Theorem scan_rsp_consumes_deadline c a f (d d' : DState) :
  update_state (MkExt AuxScanRspMessage c a f) d = (Ok tt, d') ->
  truthy_opt_float (aux_pending_scan_rsp d') = false.
Proof.
  unfold update_state, mbind.
  destruct (update_rules _ d) as [[[]|e] d1]; [|discriminate].
  unfold clear_pending, mbind.
  destruct (clear_pending_scan_rsp (MkExt AuxScanRspMessage c a f) d1)
    as [r d2] eqn:E1.
  destruct (clear_pending_chain_frame (MkExt AuxScanRspMessage c a f) d2)
    as (d3 & E3 & _ & Hsr).
  assert (r = Ok tt /\ truthy_opt_float (aux_pending_scan_rsp d2) = false)
    as [-> Hf].
  { revert E1. unfold clear_pending_scan_rsp, mbind, get, assign, ret.
    change (isinstance (MkExt AuxScanRspMessage c a f)
              (ExtC AuxScanRspMessage)) with true.
    destruct (aux_pending_scan_rsp d1) as [dl|] eqn:Hs.
    - destruct (truthy_float dl) eqn:Ht.
      + rewrite orb_true_r. intros H. injection H as <- <-. split; reflexivity.
      + intros H. injection H as <- <-. split; [reflexivity|].
        rewrite Hs. exact Ht.
    - intros H. injection H as <- <-. split; [reflexivity|].
      rewrite Hs. reflexivity. }
  rewrite E3. intros H. injection H as <-. rewrite Hsr. exact Hf.
Qed.

Lemma scan_rsp_consumes_deadline_witness :
  exists d',
    update_state scan_rsp_pkt
      (set_aux_pending_scan_rsp (Some 1.0005%float)
         (empty_state (OTHER_STATE 0))) = (Ok tt, d') /\
    truthy_opt_float (aux_pending_scan_rsp d') = false.
Proof.
  eexists. split; [vm_compute; reflexivity|].
  apply (scan_rsp_consumes_deadline (ambiguous_record 1.0003%float 5)
           (Advert.mk 0 0 0 2) (AdvExt.set_AdvMode 0 AdvExt.empty)
           (set_aux_pending_scan_rsp (Some 1.0005%float)
              (empty_state (OTHER_STATE 0)))).
  vm_compute. reflexivity.
Defined.

(** X14. The state update raises in exactly two situations: an
    AUX_CONNECT_RSP met while no CRC-init is pending ([TypeError]), and, in
    scanning mode, an AUX_ADV_IND-family packet without auxiliary pointer
    whose [AdvMode] was never assigned ([AttributeError]). In every other
    case it returns normally. *)
Theorem update_state_fails_iff (pkt : DPacket) (d : DState) :
  (exists e d', update_state pkt d = (Raise e, d')) <-> update_fails pkt d.
Proof.
  unfold update_fails, update_state, mbind. split.
  - intros (e & d' & H).
    destruct (update_rules pkt d) as [[[]|e1] d1] eqn:Hr.
    { destruct (clear_pending_frame pkt d1) as (d2 & E & _).
      rewrite E in H. discriminate. }
    clear H.
    destruct (isinstance pkt (ConnectC ConnectIndMessage)) eqn:H1.
    { destruct (isinstance_connect_inv _ H1) as (cls & c & a & f & ->).
      rewrite update_rules_connect in Hr. discriminate. }
    destruct (isinstance pkt (ExtC AuxConnectRspMessage)) eqn:H2.
    { left. split; [reflexivity|].
      destruct (isinstance_ext_inv _ _ H2) as (cls & c & a & f & ->).
      destruct cls; try discriminate H2.
      rewrite update_rules_connect_rsp in Hr.
      destruct (aux_pending_crci d); [discriminate|reflexivity]. }
    destruct (isinstance pkt (ScanReqC AuxScanReqMessage)) eqn:H3.
    { destruct (isinstance_scan_req_inv _ H3) as (c & a & x & y & ->).
      discriminate. }
    destruct (isinstance pkt (ExtC AuxAdvIndMessage)) eqn:H4.
    + right. destruct (isinstance_ext_inv _ _ H4) as (cls & c & a & f & ->).
      rewrite (update_rules_aux_adv _ _ _ _ _ H4) in Hr.
      destruct (AdvExt.AuxPtr f) eqn:Hp; [discriminate|].
      destruct (SnifferState_eqb_spec (last_state d) SCANNING) as [Hs|];
        [|discriminate].
      destruct (AdvExt.AdvMode f) eqn:Hm; [discriminate|].
      split; [exact Hs|]. exists cls, c, a, f. repeat split; assumption.
    + rewrite (update_rules_other _ _ H1 H2 H3 H4) in Hr. discriminate.
  - intros [[Hi Hc]|(Hs & cls & c & a & f & -> & Hi & Hp & Hm)].
    + destruct (isinstance_ext_inv _ _ Hi) as (cls & c & a & f & ->).
      destruct cls; try discriminate Hi.
      rewrite update_rules_connect_rsp, Hc. eauto.
    + rewrite (update_rules_aux_adv _ _ _ _ _ Hi), Hp, Hs, Hm. cbn. eauto.
Qed.

(** ** The walk over a well-formed extended header *)

Lemma AdvDataInfo_init_raise_inv (obj : nat) (adi : bytes) e :
  AdvDataInfo.init obj adi = Raise e -> len adi < 2.
Proof.
  intros H. destruct (Z.lt_ge_cases (len adi) 2) as [|Hge]; [assumption|].
  destruct (proj2 (AdvDataInfo_init_spec obj adi) Hge)
    as (a0 & a1 & t & _ & _ & Ht & _). congruence.
Qed.

Lemma AuxPtr_init_raise_inv (ptr : bytes) e :
  AuxPtr.init ptr = Raise e -> len ptr < 3.
Proof.
  intros H. destruct (Z.lt_ge_cases (len ptr) 3) as [|Hge]; [assumption|].
  destruct (proj2 (AuxPtr_init_spec ptr) Hge) as (b0 & b2 & p & _ & _ & Hp & _).
  congruence.
Qed.

Lemma unpack_b_raise_inv (s : bytes) e : unpack_b s = Raise e -> len s <> 1.
Proof.
  destruct s as [|b [|b' s]]; cbn; try discriminate; intros _; unfold len;
    cbn [length]; lia.
Qed.

Ltac bounds_to_Z :=
  repeat match goal with
         | H : (_ <? _) = true |- _ => apply Z.ltb_lt in H
         | H : (_ <? _) = false |- _ => apply Z.ltb_ge in H
         end.

Ltac read_in_bounds :=
  match goal with
  | H : getitem _ _ = Raise _ |- _ =>
      apply getitem_raise_inv in H; [lia|lia]
  | H : AdvDataInfo.init _ _ = Raise _ |- _ =>
      apply AdvDataInfo_init_raise_inv in H;
      rewrite slice_len in H by lia; lia
  | H : AuxPtr.init _ = Raise _ |- _ =>
      apply AuxPtr_init_raise_inv in H;
      rewrite slice_len in H by lia; lia
  | H : unpack_b _ = Raise _ |- _ =>
      apply unpack_b_raise_inv in H;
      rewrite slice_len in H by lia; lia
  end.

(** X15. On a well-formed extended header (the flagged fields fit in the
    declared header-body length, which fits in the body) the walk returns
    with [hdrPos] at the end of the declared header, assigns exactly the
    flagged fields, each with its full size, and takes the rest of the
    declared header, if any, as ACAD. *)
Theorem walk_well_formed (obj : nat) (body : bytes) l hdrFlags :
  getitem body 2 = Ok l -> getitem body 3 = Ok hdrFlags ->
  1 + flagged_size hdrFlags <= Z.land l 0x3F ->
  3 + Z.land l 0x3F <= len body ->
  exists f,
    ext_header_walk obj body AdvExt.empty = (Ok (3 + Z.land l 0x3F), f) /\
    firstn 7 (presence f) = flag_bits hdrFlags /\
    AdvExt.ACAD f =
      (if 1 + flagged_size hdrFlags <? Z.land l 0x3F
       then Some (slice body (4 + flagged_size hdrFlags) (3 + Z.land l 0x3F))
       else None) /\
    (forall x, AdvExt.AdvA f = Some x -> len x = 6) /\
    (forall x, AdvExt.TargetA f = Some x -> len x = 6) /\
    (forall x, AdvExt.SyncInfo f = Some x -> len x = 18) /\
    (forall x, AdvExt.ACAD f = Some x ->
               len x = Z.land l 0x3F - 1 - flagged_size hdrFlags).
Proof.
  intros Hl Hf Hfit Hlen.
  unfold ext_header_walk, mbind, lift, assign, ret, raise.
  rewrite Hl, Hf. set (L := Z.land l 0x3F) in *.
  unfold flagged_size, flag_bits in *.
  cbn [map combine fold_right field_sizes] in *.
  cbn beta iota.
  repeat walk_step.
  all: bounds_to_Z.
  all: repeat match goal with
              | H : truthy (Z.land _ _) = _ |- _ =>
                  rewrite H in *; clear H
              end.
  all: try lia.
  all: try read_in_bounds.
  all: eexists; (split; [apply f_equal2; [f_equal; lia|reflexivity]|]).
  all: split; [reflexivity|].
  all: split;
    [cbn [AdvExt.ACAD AdvExt.set_ACAD AdvExt.set_TxPower AdvExt.set_SyncInfo
          AdvExt.set_AuxPtr AdvExt.set_AdvDataInfo AdvExt.set_CTEInfo
          AdvExt.set_TargetA AdvExt.set_AdvA AdvExt.set_AdvMode AdvExt.empty];
     first [reflexivity | f_equal; f_equal; lia]|].
  all: repeat split;
    cbn [AdvExt.ACAD AdvExt.AdvA AdvExt.TargetA AdvExt.SyncInfo
         AdvExt.set_ACAD AdvExt.set_TxPower AdvExt.set_SyncInfo
         AdvExt.set_AuxPtr AdvExt.set_AdvDataInfo AdvExt.set_CTEInfo
         AdvExt.set_TargetA AdvExt.set_AdvA AdvExt.set_AdvMode AdvExt.empty];
    intros x Hx; try discriminate Hx;
    match type of Hx with
    | Some ?s = Some _ => assert (x = s) as -> by congruence
    end; rewrite slice_len by lia; lia.
Qed.

Lemma walk_well_formed_witness :
  exists f,
    ext_header_walk 0 well_formed_ext_body AdvExt.empty = (Ok 14, f) /\
    AdvExt.ACAD f = Some [xaa; xbb].
Proof.
  destruct (walk_well_formed 0 well_formed_ext_body 0x0b 0x09)
    as (f & Hw & _ & Ha & _).
  - reflexivity.
  - reflexivity.
  - vm_compute. discriminate.
  - vm_compute. discriminate.
  - exists f. split; [exact Hw|]. rewrite Ha. reflexivity.
Defined.

(** ** The advertising mode and the decoding of ambiguous records *)

Lemma walk_AdvMode (obj : nat) (body : bytes) b2 :
  3 <= len body -> getitem body 2 = Ok b2 ->
  AdvExt.AdvMode (snd (ext_header_walk obj body AdvExt.empty))
  = Some (Z.shiftr b2 6).
Proof.
  intros Hl Hb. unfold ext_header_walk, mbind, lift, assign, ret, raise.
  rewrite Hb. destruct (Z.ltb_spec (len body) 3); [lia|]. cbn beta iota.
  repeat walk_step; reflexivity.
Qed.

(** X16. The extended header's [AdvMode] is assigned exactly when the body
    has at least three bytes; it is then the two high bits of the third
    byte, a value from 0 to 3. On a shorter body the walk raises
    [ValueError] before assigning anything. *)
Theorem ext_adv_mode (obj : nat) (body : bytes) :
  (len body < 3 ->
   ext_header_walk obj body AdvExt.empty = (Raise ValueError, AdvExt.empty)) /\
  (3 <= len body ->
   exists b2,
     getitem body 2 = Ok b2 /\
     AdvExt.AdvMode (snd (ext_header_walk obj body AdvExt.empty))
     = Some (b2 / 64) /\
     0 <= b2 / 64 < 4).
Proof.
  split.
  - intros Hl. unfold ext_header_walk, mbind, raise.
    destruct (Z.ltb_spec (len body) 3); [reflexivity|lia].
  - intros Hl. destruct (getitem_ok body 2) as (b2 & Hb); [lia|].
    exists b2. split; [exact Hb|].
    rewrite (walk_AdvMode obj body b2 Hl Hb), Z.shiftr_div_pow2 by lia.
    change (2 ^ 6) with 64. split; [reflexivity|].
    apply getitem_ok_inv in Hb; [|lia].
    split; [apply Z.div_pos; lia|apply Z.div_lt_upper_bound; lia].
Qed.

(** X17. With a decoder state, an advertising record on a secondary channel
    with PDU-type nibble 7 and at least three body bytes is always decoded:
    the entry point returns an AUX_ADV_IND-family packet (never the raw
    record) and an updated state. *)
Theorem ambiguous_decodes (pkt : PacketMessage.t) (d : DState) (obj : nat) :
  ambiguous pkt -> 3 <= len (PacketMessage.body pkt) ->
  exists dpkt d',
    decode pkt (Some d) obj = (Dpkt dpkt, Some d') /\
    isinstance dpkt (ExtC AuxAdvIndMessage) = true.
Proof.
  intros (Haa & Hc & b & Hb & Hn) Hl.
  assert (exists cls, AdvertMessage_select pkt (Some d) = Ok (ExtC cls) /\
            (cls = AuxScanRspMessage \/ cls = AuxChainIndMessage
             \/ cls = AuxAdvIndMessage)) as (cls & Hs & Hcls).
  { unfold AdvertMessage_select. rewrite Hb. cbn [rbind]. rewrite Hn.
    destruct (Z.geb_spec (PacketMessage.chan pkt) 37); [lia|].
    cbn [Z.eqb Pos.eqb].
    destruct (match aux_pending_scan_rsp d with Some _ => _ | None => _ end);
      [eauto|].
    destruct (match aux_pending_chain d with Some _ => _ | None => _ end);
      eauto 6. }
  destruct (construct_ext_ok cls pkt obj) as (a & f & Hk & Hf); [lia|].
  set (dpkt := MkExt cls (DPacketMessage_init pkt) a f) in *.
  assert (isinstance dpkt (ExtC AuxAdvIndMessage) = true) as Hi
    by (apply isinstance_aux_adv; tauto).
  assert (dispatch pkt (Some d) obj = Ok dpkt) as Hd.
  { unfold dispatch, AdvertMessage_decode. rewrite Haa, Z.eqb_refl, Hs. exact Hk. }
  destruct (update_state dpkt d) as [[[]|e] d'] eqn:Hu.
  - exists dpkt, d'. split; [|exact Hi].
    unfold decode. fold (dispatch pkt (Some d) obj). rewrite Hd, Hu. reflexivity.
  - exfalso.
    assert (update_fails dpkt d) as Hfail
      by (apply update_state_fails_iff; eauto).
    destruct Hfail as [[Hr _]|(_ & cls' & c' & a' & f' & E & _ & _ & Hm)].
    + destruct Hcls as [->|[->| ->]]; discriminate Hr.
    + injection E as _ _ _ <-.
      destruct (proj2 (ext_adv_mode obj (PacketMessage.body pkt)) Hl)
        as (b2 & _ & Hm' & _).
      rewrite <- Hf in Hm'. congruence.
Qed.

Lemma ambiguous_decodes_witness :
  exists dpkt d',
    decode (ambiguous_record 1%float 5) (Some (empty_state SCANNING)) 1
    = (Dpkt dpkt, Some d') /\
    isinstance dpkt (ExtC AuxAdvIndMessage) = true.
Proof.
  apply (ambiguous_decodes (ambiguous_record 1%float 5) (empty_state SCANNING) 1).
  - split; [reflexivity|]. split; [cbn; lia|]. exists 7. split; reflexivity.
  - cbn. lia.
Defined.

(** ** Properties of the display helpers *)

Section DisplayFacts.
Import Stdlib.Strings.Ascii Stdlib.Strings.String.
Local Open Scope string_scope.
Local Open Scope Z_scope.

Lemma str_length_append (s t : string) :
  String.length (s ++ t) = (String.length s + String.length t)%nat.
Proof. induction s as [|c s IH]; cbn; [reflexivity|now rewrite IH]. Qed.

(** X18. [_str_atype] answers "Public" for a non-random address without
    looking at it; for a random address it needs the sixth byte, raises
    [IndexError] when the address is shorter, and otherwise names the type
    by the two high bits of that byte. The table lookup never fails. *)
Theorem str_atype_spec (addr : bytes) (is_random : Z) :
  (is_random = 0 -> _str_atype addr is_random = Ok "Public") /\
  (is_random <> 0 -> len addr < 6 ->
   _str_atype addr is_random = Raise IndexError) /\
  (is_random <> 0 -> 6 <= len addr ->
   exists b,
     getitem addr 5 = Ok b /\
     _str_atype addr is_random =
     Ok (match b / 64 with
         | 0 => "NRPA"
         | 1 => "RPA"
         | 2 => "RFU"
         | _ => "Static"
         end)).
Proof.
  unfold _str_atype, truthy. split; [|split].
  - intros ->. reflexivity.
  - intros Hr Hl. destruct (Z.eqb_spec is_random 0); [contradiction|].
    cbn [negb]. destruct (getitem addr 5) as [b|e] eqn:E; cbn [rbind].
    + apply getitem_ok_inv in E; lia.
    + now rewrite (getitem_raise_IndexError _ _ _ E).
  - intros Hr Hl. destruct (Z.eqb_spec is_random 0); [contradiction|].
    cbn [negb]. destruct (getitem_ok addr 5) as (b & E); [lia|].
    exists b. split; [exact E|]. rewrite E. cbn [rbind].
    apply getitem_ok_inv in E; [|lia]. rewrite Z.shiftr_div_pow2 by lia.
    change (2 ^ 6) with 64.
    assert (0 <= b / 64 < 4) as Hq
      by (split; [apply Z.div_pos; lia|apply Z.div_lt_upper_bound; lia]).
    assert (In (b / 64) (map Z.of_nat (seq 0 4))) as Hc.
    { replace (b / 64) with (Z.of_nat (Z.to_nat (b / 64))) by lia.
      apply in_map, in_seq. lia. }
    cbn in Hc. destruct Hc as [<-|[<-|[<-|[<-|[]]]]]; reflexivity.
Qed.

Lemma concat_cons2 (sep x y : string) (l : list string) :
  concat sep (x :: y :: l) = x ++ sep ++ concat sep (y :: l).
Proof. reflexivity. Qed.

Lemma hex2_length (upper : bool) (b : byte) : String.length (hex2 upper b) = 2%nat.
Proof. reflexivity. Qed.

Lemma concat_hex2_length (l : list byte) :
  l <> [] ->
  Z.of_nat (String.length (concat ":" (map (hex2 true) l)))
  = 3 * Z.of_nat (List.length l) - 1.
Proof.
  induction l as [|b [|b' l] IH]; [congruence|reflexivity|].
  intros _. cbn [map]. rewrite concat_cons2, !str_length_append.
  cbn [map] in IH. rewrite !Nat2Z.inj_add, IH by discriminate.
  cbn [List.length String.length hex2]. lia.
Qed.

(** X19. [str_mac] prints an address most significant byte first: the last
    byte of the buffer comes first, each byte as two upper-case hexadecimal
    digits, with colons between the bytes and none at the ends; an address
    of [n >= 1] bytes takes [3 n - 1] characters and the empty address is
    the empty string. *)
Theorem str_mac_spec :
  str_mac [] = "" /\
  (forall b, str_mac [b] = hex2 true b) /\
  (forall mac b, mac <> [] ->
     str_mac (mac ++ [b])%list = hex2 true b ++ ":" ++ str_mac mac) /\
  (forall mac, mac <> [] ->
     Z.of_nat (String.length (str_mac mac)) = 3 * len mac - 1).
Proof.
  split; [reflexivity|]. split; [reflexivity|]. split.
  - intros mac b Hne. unfold str_mac. rewrite rev_app_distr. cbn [rev app map].
    destruct (rev mac) as [|x l] eqn:E.
    + apply (f_equal (@rev byte)) in E. rewrite rev_involutive in E.
      cbn in E. contradiction.
    + reflexivity.
  - intros mac Hne. unfold str_mac, len.
    rewrite concat_hex2_length, length_rev; [reflexivity|].
    intros E. apply (f_equal (@rev byte)) in E. rewrite rev_involutive in E.
    cbn in E. contradiction.
Qed.

Lemma pchar_range (a : byte) :
  (32 <= N_of_ascii (pchar a) < 127)%N.
Proof. destruct a; (split; [discriminate|reflexivity]). Qed.

Lemma pchar_keeps (a : byte) :
  32 <= int_of_byte a < 127 -> pchar a = ascii_of_byte a.
Proof.
  intros H. unfold pchar.
  destruct (Z.leb_spec 32 (int_of_byte a)); [|lia].
  destruct (Z.ltb_spec (int_of_byte a) 127); [reflexivity|lia].
Qed.

Lemma printable_chars (s : bytes) :
  printable s = string_of_list_ascii (map pchar s).
Proof.
  unfold printable. induction s as [|a [|b s] IH]; [reflexivity|reflexivity|].
  cbn [map] in *. rewrite concat_cons2, IH. reflexivity.
Qed.

(** X20. [printable] returns one character per byte: the byte itself when it
    is a printable ASCII code (32 to 126) and a dot otherwise, so the
    result is as long as the input and holds printable characters only. *)
Theorem printable_spec (s : bytes) :
  String.length (printable s) = List.length s /\
  Forall (fun c => (32 <= N_of_ascii c < 127)%N)
         (list_ascii_of_string (printable s)) /\
  list_ascii_of_string (printable s) = map pchar s /\
  (forall a, 32 <= int_of_byte a < 127 -> pchar a = ascii_of_byte a) /\
  (forall a, ~ 32 <= int_of_byte a < 127 -> pchar a = "."%char).
Proof.
  rewrite printable_chars, list_ascii_of_string_of_list_ascii.
  split; [|split; [|split; [reflexivity|split]]].
  - induction s as [|a s IH]; cbn; [reflexivity|now rewrite IH].
  - apply Forall_map, Forall_forall. intros a _. apply pchar_range.
  - exact pchar_keeps.
  - intros a H. unfold pchar.
    destruct (Z.leb_spec 32 (int_of_byte a));
      destruct (Z.ltb_spec (int_of_byte a) 127); try reflexivity; lia.
Qed.

Lemma slice_len_clamped (s : bytes) (lo hi : Z) :
  0 <= lo <= hi -> lo <= len s -> len (slice s lo hi) = Z.min hi (len s) - lo.
Proof.
  intros H1 H2. unfold slice, slice_bound, len in *.
  destruct (Z.ltb_spec lo 0); [lia|]. destruct (Z.ltb_spec hi 0); [lia|].
  rewrite length_firstn, length_skipn. lia.
Qed.

Lemma flag_bit_truthy (b k : Z) :
  0 <= k -> truthy (Z.land (Z.shiftr b k) 1) = Z.testbit b k.
Proof.
  intros Hk. unfold truthy. rewrite (proj1 (land_low_bits _)).
  rewrite <- Z.bit0_mod, Z.shiftr_spec by lia. rewrite Z.add_0_l.
  destruct (Z.testbit b k); reflexivity.
Qed.

(** X21. Printing the address line of a legacy advertising packet
    ([str_adva] of ADV_IND, ADV_NONCONN_IND, SCAN_RSP, ADV_SCAN_IND) raises
    exactly when the TxAdd bit (bit 6 of the first byte) is set and the
    body has fewer than 8 bytes: the address slice is then too short for
    the address-type lookup. *)
Theorem str_adva_raises_iff (cls : AdvaCls) (pkt : PacketMessage.t) (obj : nat) :
  2 <= len (PacketMessage.body pkt) ->
  exists dpkt b0,
    construct (AdvaC cls) pkt obj = Ok dpkt /\
    getitem (PacketMessage.body pkt) 0 = Ok b0 /\
    ((exists e, str_adva dpkt = Raise e) <->
     (Z.testbit b0 6 = true /\ len (PacketMessage.body pkt) < 8)).
Proof.
  intros Hl. destruct (getitem_ok (PacketMessage.body pkt) 0) as (b0 & E0); [lia|].
  destruct (getitem_ok (PacketMessage.body pkt) 1) as (b1 & E1); [lia|].
  cbn [construct]. unfold AdvaMessage_init, AdvertMessage_init.
  cbn [DPacketMessage_init PacketMessage.body]. rewrite E0, E1. cbn [rbind].
  eexists. exists b0. split; [reflexivity|]. split; [reflexivity|].
  unfold str_adva, str_mac2. cbn [Advert.TxAdd DPacketMessage_init PacketMessage.body].
  set (AdvA := slice (PacketMessage.body pkt) 2 8).
  assert (len AdvA = Z.min 8 (len (PacketMessage.body pkt)) - 2) as HA
    by (apply slice_len_clamped; lia).
  destruct (str_atype_spec AdvA (Z.land (Z.shiftr b0 6) 1)) as (Hp & Hs & Hg).
  pose proof (flag_bit_truthy b0 6 ltac:(lia)) as Hbit. unfold truthy in Hbit.
  destruct (Z.eqb_spec (Z.land (Z.shiftr b0 6) 1) 0) as [Hz|Hnz];
    cbn [negb] in Hbit.
  - rewrite (Hp Hz). cbn [rbind]. split.
    + intros (e & H). discriminate H.
    + intros [Ht _]. congruence.
  - destruct (Z.lt_ge_cases (len (PacketMessage.body pkt)) 8) as [Hlt|Hge].
    + rewrite (Hs Hnz) by lia. cbn [rbind]. split; [|eauto].
      intros _. split; [congruence|assumption].
    + destruct (Hg Hnz) as (b & _ & ->); [lia|]. cbn [rbind]. split.
      * intros (e & H). discriminate H.
      * intros [_ H]. lia.
Qed.

Lemma str_adva_raises_iff_witness :
  exists dpkt,
    construct (AdvaC AdvIndMessage) (advert_record 1%float 37 [x40; x00]) 0
    = Ok dpkt /\
    str_adva dpkt = Raise IndexError.
Proof.
  destruct (str_adva_raises_iff AdvIndMessage
              (advert_record 1%float 37 [x40; x00]) 0)
    as (dpkt & b0 & Hk & Hb & Hiff).
  - cbn. lia.
  - exists dpkt. split; [exact Hk|].
    injection Hk as <-. reflexivity.
Defined.

Lemma bit_test_truthy (b k : Z) :
  0 <= k -> negb (Z.land b (Z.shiftl 1 k) =? 0) = Z.testbit b k.
Proof.
  intros Hk.
  assert (forall n, 0 <= n ->
            Z.testbit (Z.land b (Z.shiftl 1 k)) n
            = Z.testbit b k && (n =? k)) as Hbits.
  { intros n Hn. rewrite Z.land_spec, Z.shiftl_spec by assumption.
    destruct (Z.eqb_spec n k) as [->|Hne].
    - rewrite Z.sub_diag. cbn. now rewrite !andb_true_r.
    - rewrite andb_false_r. destruct (Z.lt_ge_cases n k).
      + rewrite (Z.testbit_neg_r 1) by lia. apply andb_false_r.
      + rewrite (Z.bits_above_log2 1 (n - k)) by (cbn; lia).
        apply andb_false_r. }
  destruct (Z.testbit b k) eqn:E.
  - destruct (Z.eqb_spec (Z.land b (Z.shiftl 1 k)) 0) as [H0|]; [|reflexivity].
    pose proof (Hbits k Hk) as H. rewrite H0, Z.bits_0, Z.eqb_refl in H.
    discriminate.
  - destruct (Z.eqb_spec (Z.land b (Z.shiftl 1 k)) 0) as [|H0]; [reflexivity|].
    exfalso. apply H0. apply Z.bits_inj'. intros n Hn.
    rewrite (Hbits n Hn), Z.bits_0. reflexivity.
Qed.

(** Bit [i] of a little-endian value is bit [i mod 8] of byte [i / 8]. *)
Lemma le_value_testbit (s : bytes) : forall i,
  0 <= i ->
  Z.testbit (le_value s) i =
  match nth_error s (Z.to_nat (i / 8)) with
  | Some b => Z.testbit (int_of_byte b) (i mod 8)
  | None => false
  end.
Proof.
  induction s as [|b s IH]; intros i Hi.
  - cbn [le_value]. rewrite Z.bits_0. now destruct (Z.to_nat (i / 8)).
  - cbn [le_value]. pose proof (int_of_byte_range b) as Hb.
    replace (int_of_byte b + 256 * le_value s)
      with (int_of_byte b + le_value s * 2 ^ 8) by (change (2 ^ 8) with 256; lia).
    rewrite <- lor_shiftl_add by (change (2 ^ 8) with 256; lia).
    rewrite Z.lor_spec, Z.shiftl_spec by assumption.
    destruct (Z.lt_ge_cases i 8) as [Hlt|Hge].
    + rewrite Z.div_small, Z.mod_small by lia. cbn [Z.to_nat nth_error].
      rewrite (Z.testbit_neg_r (le_value s)) by lia. apply orb_false_r.
    + replace (Z.testbit (int_of_byte b) i) with false.
      2:{ symmetry. rewrite <- (Z.mod_small (int_of_byte b) (2 ^ 8))
            by (change (2 ^ 8) with 256; lia).
          apply Z.mod_pow2_bits_high. lia. }
      cbn [orb]. rewrite IH by lia.
      assert (i / 8 = (i - 8) / 8 + 1) as ->
        by (Z.div_mod_to_equations; lia).
      assert (i mod 8 = (i - 8) mod 8) as ->
        by (Z.div_mod_to_equations; lia).
      assert (0 <= (i - 8) / 8) by (apply Z.div_pos; lia).
      replace (Z.to_nat ((i - 8) / 8 + 1)) with (S (Z.to_nat ((i - 8) / 8)))
        by lia.
      reflexivity.
Qed.

Lemma has_chan_testbit (chm : bytes) (i : Z) :
  0 <= i < 8 * len chm ->
  has_chan chm i = Ok (Z.testbit (le_value chm) i).
Proof.
  intros Hi. unfold has_chan.
  assert (0 <= i / 8 < len chm) as Hq
    by (split; [apply Z.div_pos; lia|apply Z.div_lt_upper_bound; lia]).
  rewrite le_value_testbit by lia.
  unfold getitem. destruct (Z.ltb_spec (i / 8) 0); [lia|].
  destruct (Z.leb_spec 0 (i / 8)); [|lia].
  destruct (Z.ltb_spec (i / 8) (len chm)); [|lia]. cbn [andb].
  destruct (nth_error chm (Z.to_nat (i / 8))) as [b|] eqn:E.
  - cbn [rbind]. f_equal. change 7 with (Z.ones 3).
    rewrite Z.land_ones by lia. change (2 ^ 3) with 8.
    apply bit_test_truthy. apply Z.mod_pos_bound. lia.
  - apply nth_error_None in E. unfold len in Hq. lia.
Qed.

Lemma excludes_loop_filter (chm : bytes) (channels : list Z) : forall acc,
  (forall i, In i channels -> 0 <= i < 8 * len chm) ->
  excludes_loop chm channels acc =
  Ok (acc ++ filter (fun i => negb (Z.testbit (le_value chm) i)) channels)%list.
Proof.
  induction channels as [|i rest IH]; intros acc Hin.
  - cbn. now rewrite app_nil_r.
  - cbn [excludes_loop filter]. rewrite has_chan_testbit by (apply Hin; now left).
    cbn [rbind]. rewrite IH by (intros j Hj; apply Hin; now right).
    destruct (Z.testbit (le_value chm) i); cbn [negb];
      [reflexivity|now rewrite <- app_assoc].
Qed.

(** X22. For a channel map of five bytes [str_chm] never raises, and the
    excluded channels it lists are, in increasing order, exactly the
    channels 0 to 36 whose bit is clear in the little-endian value of the
    map (bit [i] set meaning channel [i] is used). *)
Theorem chm_excludes_spec (chm : bytes) :
  len chm = 5 ->
  exists l s,
    chm_excludes chm = Ok l /\
    str_chm chm = Ok s /\
    (forall i, In i l <->
               0 <= i < 37 /\ Z.testbit (le_value chm) i = false) /\
    l = filter (fun i => negb (Z.testbit (le_value chm) i))
               (map Z.of_nat (seq 0 37)).
Proof.
  intros Hl.
  assert (chm_excludes chm =
          Ok (filter (fun i => negb (Z.testbit (le_value chm) i))
                     (map Z.of_nat (seq 0 37)))) as He.
  { unfold chm_excludes. rewrite excludes_loop_filter; [reflexivity|].
    intros i Hi. apply in_map_iff in Hi as (k & <- & Hk).
    apply in_seq in Hk. lia. }
  set (l := filter _ _) in *. exists l.
  assert (exists s, str_chm chm = Ok s) as (s & Hs).
  { unfold str_chm. rewrite He.
    destruct chm as [|b0 [|b1 [|b2 [|b3 [|b4 [|b5 chm]]]]]];
      try (unfold len in Hl; cbn [List.length] in Hl; lia).
    destruct (bytes_eqb _ _); cbn [rbind]; eauto. }
  exists s. split; [exact He|]. split; [exact Hs|]. split; [|reflexivity].
  intros i. unfold l. rewrite filter_In, in_map_iff, negb_true_iff. split.
  - intros [(k & <- & Hk) Hb]. apply in_seq in Hk. split; [lia|exact Hb].
  - intros [Hi Hb]. split; [|exact Hb]. exists (Z.to_nat i).
    split; [lia|]. apply in_seq. lia.
Qed.

Lemma chm_excludes_spec_witness :
  chm_excludes [x01; x00; x00; x00; x00] = Ok (map Z.of_nat (seq 1 36)) /\
  chm_excludes [xff; xff; xff; xff; x1f] = Ok [].
Proof.
  split.
  - destruct (chm_excludes_spec [x01; x00; x00; x00; x00] eq_refl)
      as (l & s & -> & _ & _ & ->). reflexivity.
  - destruct (chm_excludes_spec [xff; xff; xff; xff; x1f] eq_refl)
      as (l & s & -> & _ & _ & ->). reflexivity.
Defined.

Lemma list_getitem_ok {A} (l : list A) (i : Z) :
  0 <= i < Z.of_nat (List.length l) -> exists x, list_getitem l i = Ok x.
Proof.
  intros Hi. unfold list_getitem.
  destruct (nth_error l (Z.to_nat i)) eqn:E; [eauto|].
  apply nth_error_None in E. lia.
Qed.

(** X23. [AuxPtr.__str__] never fails on a decoded auxiliary pointer: the
    PHY is a 3-bit value and the table of PHY names has eight entries. *)
Theorem AuxPtr_str_total (ptr : bytes) (p : AuxPtr.t) :
  AuxPtr.init ptr = Ok p -> exists s, AuxPtr_str p = Ok s.
Proof.
  intros Hp.
  destruct (Z.lt_ge_cases (len ptr) 3) as [Hlt|Hge].
  - rewrite (proj1 (AuxPtr_init_spec ptr) Hlt) in Hp. discriminate.
  - destruct (proj2 (AuxPtr_init_spec ptr) Hge)
      as (b0 & b2 & p' & _ & _ & Hp' & _ & _ & Hphy & _).
    rewrite Hp in Hp'. injection Hp' as <-.
    unfold AuxPtr_str.
    match goal with
    | |- context [list_getitem ?l ?i] =>
        destruct (list_getitem_ok l i) as (name & ->); [cbn; lia|]
    end.
    cbn [rbind]. eauto.
Qed.

Lemma AuxPtr_str_total_witness :
  exists p s, AuxPtr.init [x05; x1e; xe0] = Ok p /\ AuxPtr_str p = Ok s.
Proof.
  eexists. destruct (AuxPtr_str_total [x05; x1e; xe0] _ eq_refl) as (s & Hs).
  exists s. split; [reflexivity|exact Hs].
Defined.

Lemma opcodes_distinct_true : all_printed_apart opcode_table = true.
Proof. vm_compute. reflexivity. Qed.

Lemma all_printed_apart_spec (table : list (Z * result string)) x y :
  all_printed_apart table = true -> In x table -> In y table ->
  printed_apart x y = true.
Proof.
  unfold all_printed_apart. rewrite forallb_forall. intros H Hx Hy.
  specialize (H x Hx). rewrite forallb_forall in H. exact (H y Hy).
Qed.

Lemma opcode_table_in (i : Z) :
  0 <= i < 256 -> In (i, str_opcode i) opcode_table.
Proof.
  intros Hi. apply (in_map (fun i => (i, str_opcode i))).
  replace i with (Z.of_nat (Z.to_nat i)) by lia.
  apply in_map, in_seq. lia.
Qed.

Lemma opcodes_distinct_pair (i j : Z) a b :
  0 <= i < 256 -> 0 <= j < 256 ->
  str_opcode i = a -> str_opcode j = b ->
  match a, b with
  | Ok a, Ok b => implb (String.eqb a b) (i =? j)
  | _, _ => false
  end = true.
Proof.
  intros Hi Hj <- <-.
  exact (all_printed_apart_spec opcode_table _ _ opcodes_distinct_true
           (opcode_table_in i Hi) (opcode_table_in j Hj)).
Qed.

Lemma rfu_opcodes_printed :
  forallb
    (fun i =>
       match str_opcode i,
             get (Z.to_nat (i / 16)) "0123456789ABCDEF",
             get (Z.to_nat (i mod 16)) "0123456789ABCDEF" with
       | Ok s, Some hi, Some lo =>
           String.eqb s ("Opcode: RFU (0x" ++ String hi (String lo "") ++ ")")
       | _, _, _ => false
       end)
    (map Z.of_nat (seq 26 230)) = true.
Proof. vm_compute. reflexivity. Qed.

(** X24. [str_opcode] never fails on the opcode byte of an LL_CONTROL
    packet: each of the 26 known opcodes is printed by its name, every
    other one as RFU with its value in two upper-case hexadecimal digits,
    and no two opcodes are printed alike. *)
Theorem str_opcode_spec (opcode : Z) :
  0 <= opcode < 256 ->
  exists s,
    str_opcode opcode = Ok s /\
    (opcode < 26 ->
     exists name,
       s = "Opcode: " ++ name /\
       In (opcode, name)
          [ (0x00, "LL_CONNECTION_UPDATE_IND");
            (0x01, "LL_CHANNEL_MAP_IND");
            (0x02, "LL_TERMINATE_IND");
            (0x03, "LL_ENC_REQ");
            (0x04, "LL_ENC_RSP");
            (0x05, "LL_START_ENC_REQ");
            (0x06, "LL_START_ENC_RSP");
            (0x07, "LL_UNKNOWN_RSP");
            (0x08, "LL_FEATURE_REQ");
            (0x09, "LL_FEATURE_RSP");
            (0x0A, "LL_PAUSE_ENC_REQ");
            (0x0B, "LL_PAUSE_ENC_RSP");
            (0x0C, "LL_VERSION_IND");
            (0x0D, "LL_REJECT_IND");
            (0x0E, "LL_SLAVE_FEATURE_REQ");
            (0x0F, "LL_CONNECTION_PARAM_REQ");
            (0x10, "LL_CONNECTION_PARAM_RSP");
            (0x11, "LL_REJECT_EXT_IND");
            (0x12, "LL_PING_REQ");
            (0x13, "LL_PING_RSP");
            (0x14, "LL_LENGTH_REQ");
            (0x15, "LL_LENGTH_RSP");
            (0x16, "LL_PHY_REQ");
            (0x17, "LL_PHY_RSP");
            (0x18, "LL_PHY_UPDATE_IND");
            (0x19, "LL_MIN_USED_CHANNELS_IND") ]) /\
    (26 <= opcode ->
     exists hi lo,
       get (Z.to_nat (opcode / 16)) "0123456789ABCDEF" = Some hi /\
       get (Z.to_nat (opcode mod 16)) "0123456789ABCDEF" = Some lo /\
       s = "Opcode: RFU (0x" ++ String hi (String lo "") ++ ")") /\
    (forall opcode', 0 <= opcode' < 256 ->
                     str_opcode opcode' = Ok s -> opcode' = opcode).
Proof.
  intros Hr.
  destruct (str_opcode opcode) as [s|e] eqn:Es.
  - exists s. split; [reflexivity|]. split; [|split].
    + intros H26.
      assert (In opcode (map Z.of_nat (seq 0 26))) as Hcases
        by (replace opcode with (Z.of_nat (Z.to_nat opcode)) by lia;
            apply in_map, in_seq; lia).
      cbn in Hcases.
      repeat (destruct Hcases as [<-|Hcases];
              [injection Es as <-; eexists; split;
               [reflexivity|cbn; repeat first [left; reflexivity|right]]|]).
      destruct Hcases.
    + intros H26.
      pose proof rfu_opcodes_printed as Hall. rewrite forallb_forall in Hall.
      specialize (Hall opcode).
      rewrite Es in Hall.
      destruct (get (Z.to_nat (opcode / 16)) "0123456789ABCDEF") as [hi|];
        [|discriminate Hall;
          replace opcode with (Z.of_nat (Z.to_nat opcode)) by lia;
          apply in_map, in_seq; lia].
      destruct (get (Z.to_nat (opcode mod 16)) "0123456789ABCDEF") as [lo|];
        [|discriminate Hall;
          replace opcode with (Z.of_nat (Z.to_nat opcode)) by lia;
          apply in_map, in_seq; lia].
      exists hi, lo. split; [reflexivity|]. split; [reflexivity|].
      apply String.eqb_eq, Hall.
      replace opcode with (Z.of_nat (Z.to_nat opcode)) by lia.
      apply in_map, in_seq. lia.
    + intros o' Hr' Es'.
      pose proof (opcodes_distinct_pair o' opcode _ _ Hr' Hr Es' Es) as Ho.
      cbn beta iota in Ho. rewrite String.eqb_refl in Ho. cbn [implb] in Ho.
      now apply Z.eqb_eq in Ho.
  - pose proof (opcodes_distinct_pair opcode opcode _ _ Hr Hr Es Es) as Ho.
    discriminate.
Qed.

Lemma str_opcode_spec_witness :
  exists s, str_opcode 0x1a = Ok s /\ s = "Opcode: RFU (0x1A)".
Proof.
  destruct (str_opcode_spec 0x1a) as (s & Hs & _ & H26 & _); [lia|].
  exists s. split; [exact Hs|].
  destruct H26 as (hi & lo & Hhi & Hlo & ->); [lia|].
  injection Hhi as <-. injection Hlo as <-. reflexivity.
Defined.

Lemma hexdump_line_not_star (i : Z) (chunk : bytes) :
  is_star (hexdump_line i chunk) = false.
Proof. reflexivity. Qed.

Lemma no_double_star_snoc (lines : list string) (x : string) :
  no_double_star (lines ++ [x])%list
  = no_double_star lines && negb (is_star (last lines "") && is_star x).
Proof.
  induction lines as [|a [|b l] IH].
  - reflexivity.
  - cbn. now rewrite !andb_true_r.
  - change (no_double_star ((a :: b :: l) ++ [x])%list)
      with (negb (is_star a && is_star b)
            && no_double_star ((b :: l) ++ [x])%list).
    rewrite IH. change (last (a :: b :: l) "") with (last (b :: l) "").
    change (no_double_star (a :: b :: l))
      with (negb (is_star a && is_star b) && no_double_star (b :: l)).
    now rewrite andb_assoc.
Qed.

Lemma hexdump_step_inv (s : bytes) st (i : Z) :
  dump_inv st -> dump_inv (hexdump_step s st i).
Proof.
  destruct st as [[prev in_repeat] lines]. intros [Hn Hr].
  unfold hexdump_step.
  destruct (same_chunk _ _ && _).
  - destruct in_repeat; cbn [negb dump_inv].
    + split; assumption.
    + rewrite no_double_star_snoc, last_last, Hn, <- Hr. split; reflexivity.
  - cbn [dump_inv]. rewrite no_double_star_snoc, last_last, Hn.
    rewrite hexdump_line_not_star, andb_false_r. split; reflexivity.
Qed.

Lemma fold_hexdump_inv (s : bytes) (offsets : list Z) : forall st,
  dump_inv st -> dump_inv (fold_left (hexdump_step s) offsets st).
Proof.
  induction offsets as [|i r IH]; intros st H; [exact H|].
  cbn [fold_left]. apply IH, hexdump_step_inv, H.
Qed.

Lemma hexdump_step_grows (s : bytes) st (i : Z) :
  exists more, snd (hexdump_step s st i) = (snd st ++ more)%list.
Proof.
  destruct st as [[prev in_repeat] lines]. unfold hexdump_step.
  destruct (same_chunk _ _ && _); [destruct (negb in_repeat)|]; cbn [snd];
    eauto. exists []. now rewrite app_nil_r.
Qed.

Lemma fold_hexdump_grows (s : bytes) (offsets : list Z) : forall st,
  exists more,
    snd (fold_left (hexdump_step s) offsets st) = (snd st ++ more)%list.
Proof.
  induction offsets as [|i r IH]; intros st.
  - exists []. cbn. now rewrite app_nil_r.
  - cbn [fold_left]. destruct (IH (hexdump_step s st i)) as (m2 & ->).
    destruct (hexdump_step_grows s st i) as (m1 & ->).
    exists (m1 ++ m2)%list. now rewrite app_assoc.
Qed.

Lemma py_range_16 (n : Z) :
  0 < n ->
  exists k,
    py_range n 16
    = (map (fun k => Z.of_nat k * 16) (seq 0 k) ++ [Z.of_nat k * 16])%list /\
    Z.of_nat k * 16 < n <= Z.of_nat k * 16 + 16 /\
    py_range n 16 = 0 :: map (fun k => Z.of_nat k * 16) (seq 1 k).
Proof.
  intros Hn. unfold py_range.
  set (c := (n + 16 - 1) / 16).
  assert (1 <= c /\ (c - 1) * 16 < n <= c * 16) as [Hc Hb]
    by (subst c; Z.div_mod_to_equations; lia).
  exists (Z.to_nat (c - 1)).
  replace (Z.to_nat c) with (S (Z.to_nat (c - 1))) by lia.
  split; [|split].
  - rewrite seq_S, map_app. reflexivity.
  - lia.
  - cbn [seq map]. rewrite <- seq_shift, map_map. reflexivity.
Qed.

(** X25. [hexdump] prints the first and the last 16-byte chunk of a
    non-empty buffer in full, whatever repeats in between, and never prints
    two ["*"] lines in a row; the dump of the empty buffer is the empty
    string. *)
Theorem hexdump_spec (s : bytes) :
  hexdump [] = "" /\
  no_double_star (hexdump_lines s) = true /\
  (s <> [] ->
   exists last_offset,
     last_offset mod 16 = 0 /\
     last_offset < len s <= last_offset + 16 /\
     hd "" (hexdump_lines s) = hexdump_line 0 (slice s 0 16) /\
     last (hexdump_lines s) ""
     = hexdump_line last_offset (slice s last_offset (last_offset + 16))).
Proof.
  split; [reflexivity|]. split.
  - unfold hexdump_lines.
    pose proof (fold_hexdump_inv s (py_range (len s) 16) (None, false, [])) as H.
    destruct (fold_left _ _ _) as [[p r] lines]. apply H. split; reflexivity.
  - intros Hne.
    assert (0 < len s) as Hl
      by (unfold len; destruct s; [congruence|cbn [List.length]; lia]).
    destruct (py_range_16 (len s) Hl) as (k & Hlast & Hk & Hfirst).
    exists (Z.of_nat k * 16). split; [apply Z.mod_mul; lia|].
    split; [exact Hk|]. unfold hexdump_lines. split.
    + rewrite Hfirst. cbn [fold_left].
      change (hexdump_step s (None, false, []) 0)
        with (Some (slice s 0 (0 + 16)), false,
              [hexdump_line 0 (slice s 0 (0 + 16))]).
      match goal with
      | |- context [fold_left ?f ?l ?st] =>
          destruct (fold_hexdump_grows s l st) as (more & ->)
      end.
      reflexivity.
    + rewrite Hlast, fold_left_app. cbn [fold_left].
      destruct (fold_left _ _ _) as [[prev in_repeat] lines].
      unfold hexdump_step.
      destruct (Z.ltb_spec (Z.of_nat k * 16 + 16) (len s)); [lia|].
      rewrite andb_false_r. cbn [snd]. apply last_last.
Qed.

End DisplayFacts.
